(** * weather_app: a shallow embedding of the services, serializers and views

    The Python sources embedded here are
    [weather_app/services.py], [weather_app/serializers.py],
    [weather_app/models.py] and [weather_app/views.py].

    Python values that come out of [response.json()] are modelled by the
    type [Py.value]; Python exceptions by the error monad [Py.result]. *)

From Stdlib Require Import ZArith List String Ascii Bool Lia.
From Stdlib Require Import Floats.SpecFloat.
From Stdlib Require Import Orders Sorting.Mergesort Sorting.Sorted Sorting.Permutation.
Import ListNotations.
Local Open Scope string_scope.
Local Open Scope Z_scope.
Set Warnings "-register-all".

(* ===================================================================== *)
(** ** Python values, exceptions and the built-in operations the code uses *)
(* ===================================================================== *)

Module Py.

(** The exceptions that the modelled code can raise or catch. *)
Inductive exn : Type :=
| TypeError
| KeyError
| IndexError
| AttributeError
| RequestException (msg : string)   (* requests.RequestException *)
| Exception (msg : string)          (* raise Exception(f"...") *)
| DoesNotExist                      (* Model.DoesNotExist *)
| MultipleObjectsReturned.          (* Model.MultipleObjectsReturned *)

Inductive result (A : Type) : Type :=
| Ok (a : A)
| Raise (e : exn).
Arguments Ok {A} a.
Arguments Raise {A} e.

Definition bind {A B : Type} (c : result A) (k : A -> result B) : result B :=
  match c with
  | Ok a => k a
  | Raise e => Raise e
  end.

(** The outcome of a serializer's [validate...] method: the value it
    returns, or the message of the serializers.ValidationError it raises. *)
Inductive validated (A : Type) : Type :=
| Valid (a : A)
| Invalid (msg : string).
Arguments Valid {A} a.
Arguments Invalid {A} msg.

(** [for x in xs: out.append(f x)], stopping at the first exception. *)
Fixpoint mapM {A B : Type} (f : A -> result B) (xs : list A) : result (list B) :=
  match xs with
  | [] => Ok []
  | x :: xs' =>
      bind (f x) (fun y => bind (mapM f xs') (fun ys => Ok (y :: ys)))
  end.

(** A Python float is an IEEE 754 binary64 datum. *)
Definition float := spec_float.

(** What [json.loads] produces: None, bool, int, float, str, list, and
    dict with string keys (kept as an association list whose first
    binding of a key is the dict's value for it). *)
Inductive value : Type :=
| PyNone
| PyBool (b : bool)
| PyInt (z : Z)
| PyFloat (f : float)
| PyStr (s : string)
| PyList (l : list value)
| PyDict (kv : list (string * value)).

Fixpoint assoc {A : Type} (k : string) (kv : list (string * A)) : option A :=
  match kv with
  | [] => None
  | (k', v) :: kv' => if String.eqb k k' then Some v else assoc k kv'
  end.

(** [bool(x)] for a float: only the two zeros are false (NaN is true). *)
Definition float_truthy (f : float) : bool :=
  match f with
  | S754_zero _ => false
  | _ => true
  end.

(** [bool(x)]. *)
Definition truthy (v : value) : bool :=
  match v with
  | PyNone => false
  | PyBool b => b
  | PyInt z => negb (z =? 0)
  | PyFloat f => float_truthy f
  | PyStr s => negb (String.eqb s EmptyString)
  | PyList l => match l with [] => false | _ => true end
  | PyDict kv => match kv with [] => false | _ => true end
  end.

(** [d.get(k, default)]: only a dict has the method. *)
Definition get_default (d : value) (k : string) (default : value) : result value :=
  match d with
  | PyDict kv => Ok (match assoc k kv with Some v => v | None => default end)
  | _ => Raise AttributeError
  end.

(** [d.get(k)], whose default is None. *)
Definition get (d : value) (k : string) : result value :=
  get_default d k PyNone.

(** [d[k]] for a string key [k]. *)
Definition getitem_str (d : value) (k : string) : result value :=
  match d with
  | PyDict kv =>
      match assoc k kv with
      | Some v => Ok v
      | None => Raise KeyError
      end
  | _ => Raise TypeError
  end.

(** [len(x)]. *)
Definition len (v : value) : result nat :=
  match v with
  | PyStr s => Ok (String.length s)
  | PyList l => Ok (List.length l)
  | PyDict kv => Ok (List.length kv)
  | _ => Raise TypeError
  end.

(** [x[i]] for a non-negative int [i] (the code only indexes with
    [range] counters). *)
Definition getitem_int (v : value) (i : nat) : result value :=
  match v with
  | PyList l =>
      match nth_error l i with
      | Some x => Ok x
      | None => Raise IndexError
      end
  | PyStr s =>
      match String.get i s with
      | Some c => Ok (PyStr (String c EmptyString))
      | None => Raise IndexError
      end
  | PyDict _ => Raise KeyError        (* the keys are strings *)
  | _ => Raise TypeError
  end.

(** The integer a float is equal to, if any: [1.0 == 1] and
    [hash(1.0) == hash(1)], so such a float finds an int key of a dict. *)
Definition float_int_value (f : float) : option Z :=
  match f with
  | S754_zero _ => Some 0
  | S754_finite s m e =>
      let sign := fun v : Z => if s then - v else v in
      if 0 <=? e then Some (sign (Z.pos m * 2 ^ e))
      else if Z.pos m mod 2 ^ (- e) =? 0 then Some (sign (Z.pos m / 2 ^ (- e)))
      else None
  | _ => None
  end.

(** The int key that a value used as a dict key is equal to:
    [hash] fails on lists and dicts; [False == 0], [True == 1]; None and
    strings are hashable and equal to no int. *)
Definition int_key (v : value) : result (option Z) :=
  match v with
  | PyNone => Ok None
  | PyBool b => Ok (Some (if b then 1 else 0))
  | PyInt z => Ok (Some z)
  | PyFloat f => Ok (float_int_value f)
  | PyStr _ => Ok None
  | PyList _ => Raise TypeError
  | PyDict _ => Raise TypeError
  end.

(** [k in x] for a string [k]: key membership for a dict, element
    membership for a list, substring test for a str. *)
Definition contains (v : value) (k : string) : result bool :=
  match v with
  | PyDict kv => Ok (match assoc k kv with Some _ => true | None => false end)
  | PyList l =>
      Ok (existsb (fun x => match x with PyStr s => String.eqb s k | _ => false end) l)
  | PyStr s => Ok (match String.index 0 k s with Some _ => true | None => false end)
  | _ => Raise TypeError
  end.

(** The elements that [for x in v] visits. *)
Definition iter (v : value) : result (list value) :=
  match v with
  | PyList l => Ok l
  | PyStr s => Ok (map (fun c => PyStr (String c EmptyString)) (list_ascii_of_string s))
  | PyDict kv => Ok (map (fun p => PyStr (fst p)) kv)
  | _ => Raise TypeError
  end.

Fixpoint assocZ {A : Type} (k : Z) (kv : list (Z * A)) : option A :=
  match kv with
  | [] => None
  | (k', v) :: kv' => if k =? k' then Some v else assocZ k kv'
  end.

(** [str.isspace] on the code points below 256, which are the
    characters of [string]: TAB, LF, VT, FF, CR, FS, GS, RS, US, SPACE,
    NEL and NBSP. *)
Definition is_space (c : ascii) : bool :=
  let n := nat_of_ascii c in
  ((9 <=? n) && (n <=? 13) || (28 <=? n) && (n <=? 32) || (n =? 133) || (n =? 160))%nat.

Fixpoint lstrip (s : string) : string :=
  match s with
  | EmptyString => EmptyString
  | String c s' => if is_space c then lstrip s' else s
  end.

Fixpoint rstrip (s : string) : string :=
  match s with
  | EmptyString => EmptyString
  | String c s' =>
      match rstrip s' with
      | EmptyString => if is_space c then EmptyString else String c EmptyString
      | r => String c r
      end
  end.

(** [s.strip()]. *)
Definition strip (s : string) : string := rstrip (lstrip s).

(** ['\x00' in s]. *)
Fixpoint has_null (s : string) : bool :=
  match s with
  | EmptyString => false
  | String c s' => Ascii.eqb c zero || has_null s'
  end.

(** The two outbound calls [requests.get(url, params=params, timeout=10)],
    identified by their parameters. *)
Inductive Request : Type :=
| Geocoding (name : string) (count : Z) (language format : string)
| Forecast (latitude longitude : float) (current hourly daily : list string)
    (timezone : string) (forecast_days : Z).

(** What the provider does with a request: [requests.get] or
    [raise_for_status] or [response.json()] raises a RequestException, or
    [response.json()] returns the decoded body. *)
Inductive HttpResult : Type :=
| HttpError (msg : string)
| HttpJson (data : value).

Definition Upstream : Type := Request -> HttpResult.

End Py.

Import Py.

Notation "x <- c ;; k" := (Py.bind c (fun x => k))
  (at level 61, c at next level, right associativity).

(* ===================================================================== *)
(** ** services.py: WeatherService *)
(* ===================================================================== *)

Module WeatherService.

(** The dict literal [weather_codes] of [_get_weather_description]. *)
Definition weather_codes : list (Z * string) :=
  [ (0, "Clear sky");
    (1, "Mainly clear");
    (2, "Partly cloudy");
    (3, "Overcast");
    (45, "Fog");
    (48, "Depositing rime fog");
    (51, "Light drizzle");
    (53, "Moderate drizzle");
    (55, "Dense drizzle");
    (56, "Light freezing drizzle");
    (57, "Dense freezing drizzle");
    (61, "Slight rain");
    (63, "Moderate rain");
    (65, "Heavy rain");
    (66, "Light freezing rain");
    (67, "Heavy freezing rain");
    (71, "Slight snow fall");
    (73, "Moderate snow fall");
    (75, "Heavy snow fall");
    (77, "Snow grains");
    (80, "Slight rain showers");
    (81, "Moderate rain showers");
    (82, "Violent rain showers");
    (85, "Slight snow showers");
    (86, "Heavy snow showers");
    (95, "Thunderstorm");
    (96, "Thunderstorm with slight hail");
    (99, "Thunderstorm with heavy hail") ].

(** [weather_codes.get(code, "Unknown")]. *)
Definition _get_weather_description (code : value) : result string :=
  k <- int_key code ;;
  Ok (match k with
      | Some z =>
          match assocZ z weather_codes with
          | Some s => s
          | None => "Unknown"
          end
      | None => "Unknown"
      end).

(** The dicts that [_format_weather_data] builds, one record per dict
    literal; the field names are the dict keys (prefixed, since some keys
    occur in several of the dicts). *)
Record CurrentWeather : Type := {
  cw_temperature : value;
  cw_feels_like : value;
  cw_humidity : value;
  cw_precipitation : value;
  cw_weather_code : value;
  cw_weather_description : string;
  cw_cloud_cover : value;
  cw_pressure : value;
  cw_wind_speed : value;
  cw_wind_direction : value;
  cw_is_day : value;
  cw_time : value
}.

Record HourlyEntry : Type := {
  h_time : value;
  h_temperature : value;
  h_humidity : value;
  h_precipitation_probability : value;
  h_precipitation : value;
  h_weather_code : value;
  h_weather_description : string;
  h_wind_speed : value
}.

Record DailyEntry : Type := {
  d_date : value;
  d_temperature_max : value;
  d_temperature_min : value;
  d_feels_like_max : value;
  d_feels_like_min : value;
  d_precipitation : value;
  d_wind_speed_max : value;
  d_wind_direction : value;
  d_weather_code : value;
  d_weather_description : string
}.

Record WeatherData : Type := {
  current_weather : CurrentWeather;
  hourly_forecast : list HourlyEntry;
  daily_forecast : list DailyEntry;
  timezone : value;
  elevation : value
}.

(** [block[key][i] if i < len(block.get(key, [])) else None]. *)
Definition metric_at (block : value) (key : string) (i : nat) : result value :=
  arr <- get_default block key (PyList []) ;;
  n <- len arr ;;
  if (i <? n)%nat then
    a <- getitem_str block key ;;
    getitem_int a i
  else Ok PyNone.

(** The dict appended to [hourly_forecast] at loop counter [i]; the
    entries are evaluated in the order in which the literal lists them. *)
Definition hourly_entry (hourly : value) (i : nat) : result HourlyEntry :=
  times <- getitem_str hourly "time" ;;
  t <- getitem_int times i ;;
  temperature <- metric_at hourly "temperature_2m" i ;;
  humidity <- metric_at hourly "relative_humidity_2m" i ;;
  precipitation_probability <- metric_at hourly "precipitation_probability" i ;;
  precipitation <- metric_at hourly "precipitation" i ;;
  weather_code <- metric_at hourly "weather_code" i ;;
  code <- metric_at hourly "weather_code" i ;;
  weather_description <- _get_weather_description code ;;
  wind_speed <- metric_at hourly "wind_speed_10m" i ;;
  Ok {| h_time := t;
        h_temperature := temperature;
        h_humidity := humidity;
        h_precipitation_probability := precipitation_probability;
        h_precipitation := precipitation;
        h_weather_code := weather_code;
        h_weather_description := weather_description;
        h_wind_speed := wind_speed |}.

(** The dict appended to [daily_forecast] at loop counter [i]. *)
Definition daily_entry (daily : value) (i : nat) : result DailyEntry :=
  times <- getitem_str daily "time" ;;
  t <- getitem_int times i ;;
  temperature_max <- metric_at daily "temperature_2m_max" i ;;
  temperature_min <- metric_at daily "temperature_2m_min" i ;;
  feels_like_max <- metric_at daily "apparent_temperature_max" i ;;
  feels_like_min <- metric_at daily "apparent_temperature_min" i ;;
  precipitation <- metric_at daily "precipitation_sum" i ;;
  wind_speed_max <- metric_at daily "wind_speed_10m_max" i ;;
  wind_direction <- metric_at daily "wind_direction_10m_dominant" i ;;
  weather_code <- metric_at daily "weather_code" i ;;
  code <- metric_at daily "weather_code" i ;;
  weather_description <- _get_weather_description code ;;
  Ok {| d_date := t;
        d_temperature_max := temperature_max;
        d_temperature_min := temperature_min;
        d_feels_like_max := feels_like_max;
        d_feels_like_min := feels_like_min;
        d_precipitation := precipitation;
        d_wind_speed_max := wind_speed_max;
        d_wind_direction := wind_direction;
        d_weather_code := weather_code;
        d_weather_description := weather_description |}.

(** The [current_weather] dict literal. *)
Definition format_current (current : value) : result CurrentWeather :=
  temperature <- get current "temperature_2m" ;;
  feels_like <- get current "apparent_temperature" ;;
  humidity <- get current "relative_humidity_2m" ;;
  precipitation <- get current "precipitation" ;;
  weather_code <- get current "weather_code" ;;
  code <- get current "weather_code" ;;
  weather_description <- _get_weather_description code ;;
  cloud_cover <- get current "cloud_cover" ;;
  pressure <- get current "pressure_msl" ;;
  wind_speed <- get current "wind_speed_10m" ;;
  wind_direction <- get current "wind_direction_10m" ;;
  is_day <- get current "is_day" ;;
  time <- get current "time" ;;
  Ok {| cw_temperature := temperature;
        cw_feels_like := feels_like;
        cw_humidity := humidity;
        cw_precipitation := precipitation;
        cw_weather_code := weather_code;
        cw_weather_description := weather_description;
        cw_cloud_cover := cloud_cover;
        cw_pressure := pressure;
        cw_wind_speed := wind_speed;
        cw_wind_direction := wind_direction;
        cw_is_day := is_day;
        cw_time := time |}.

(** The loop that fills [hourly_forecast] (the next 24 hours). *)
Definition format_hourly (hourly : value) : result (list HourlyEntry) :=
  t <- get hourly "time" ;;
  if truthy t then
    times <- getitem_str hourly "time" ;;
    n <- len times ;;
    mapM (hourly_entry hourly) (seq 0 (Nat.min 24 n))
  else Ok [].

(** The loop that fills [daily_forecast]. *)
Definition format_daily (daily : value) : result (list DailyEntry) :=
  t <- get daily "time" ;;
  if truthy t then
    times <- getitem_str daily "time" ;;
    n <- len times ;;
    mapM (daily_entry daily) (seq 0 n)
  else Ok [].

Definition _format_weather_data (raw_data : value) : result WeatherData :=
  current <- get_default raw_data "current" (PyDict []) ;;
  hourly <- get_default raw_data "hourly" (PyDict []) ;;
  daily <- get_default raw_data "daily" (PyDict []) ;;
  cw <- format_current current ;;
  hf <- format_hourly hourly ;;
  df <- format_daily daily ;;
  tz <- get raw_data "timezone" ;;
  el <- get raw_data "elevation" ;;
  Ok {| current_weather := cw;
        hourly_forecast := hf;
        daily_forecast := df;
        timezone := tz;
        elevation := el |}.

(** One element of the list that [search_cities] returns. *)
Record CityMatch : Type := {
  cm_name : value;
  cm_country : value;
  cm_admin1 : value;
  cm_latitude : value;
  cm_longitude : value
}.

Definition city_match (r : value) : result CityMatch :=
  name <- get_default r "name" (PyStr EmptyString) ;;
  country <- get_default r "country" (PyStr EmptyString) ;;
  admin1 <- get_default r "admin1" (PyStr EmptyString) ;;
  latitude <- get r "latitude" ;;
  longitude <- get r "longitude" ;;
  Ok {| cm_name := name;
        cm_country := country;
        cm_admin1 := admin1;
        cm_latitude := latitude;
        cm_longitude := longitude |}.

(** The [params] dict of [search_cities]. *)
Definition geocoding_request (query : string) : Request :=
  Geocoding query 10 "en" "json".

(** [search_cities]: the request it sends and what it returns or raises.
    A RequestException is re-raised as a plain Exception. *)
Definition search_cities (upstream : Upstream) (query : string)
  : result (list CityMatch) * list Request :=
  let request := geocoding_request query in
  (match upstream request with
   | HttpError msg => Raise (Exception ("Failed to search cities: " ++ msg))
   | HttpJson data =>
       present <- contains data "results" ;;
       if (present : bool) then
         results <- getitem_str data "results" ;;
         items <- iter results ;;
         mapM city_match items
       else Ok []
   end,
   [request]).

(** The [params] dict of [get_weather_data]. *)
Definition forecast_request (latitude longitude : float) : Request :=
  Forecast latitude longitude
    [ "temperature_2m"; "relative_humidity_2m"; "apparent_temperature";
      "is_day"; "precipitation"; "weather_code"; "cloud_cover";
      "pressure_msl"; "wind_speed_10m"; "wind_direction_10m" ]
    [ "temperature_2m"; "relative_humidity_2m"; "precipitation_probability";
      "precipitation"; "weather_code"; "wind_speed_10m" ]
    [ "weather_code"; "temperature_2m_max"; "temperature_2m_min";
      "apparent_temperature_max"; "apparent_temperature_min";
      "precipitation_sum"; "wind_speed_10m_max";
      "wind_direction_10m_dominant" ]
    "auto" 7.

Definition get_weather_data (upstream : Upstream) (latitude longitude : float)
  : result WeatherData * list Request :=
  let request := forecast_request latitude longitude in
  (match upstream request with
   | HttpError msg => Raise (Exception ("Failed to fetch weather data: " ++ msg))
   | HttpJson data => _format_weather_data data
   end,
   [request]).

End WeatherService.

(* ===================================================================== *)
(** ** models.py: the three tables *)
(* ===================================================================== *)

Module Models.

(** Timestamps ([timezone.now()], [datetime.now()]) are readings of a
    clock, kept as integers. *)
Definition timestamp : Type := Z.

(** A row of each model; the first field is the automatic primary key
    [id], a foreign key holds the [id] of the row it refers to. *)
Record User : Type := {
  user_id : Z;
  user_session_key : string;
  user_created_at : timestamp
}.

Record City : Type := {
  city_id : Z;
  city_name : string;
  city_country : string;
  city_admin1 : option string;      (* null=True: NULL or a string *)
  city_latitude : float;
  city_longitude : float
}.

Record SearchHistory : Type := {
  sh_id : Z;
  sh_user : Z;                      (* ForeignKey(User) *)
  sh_city : Z;                      (* ForeignKey(City) *)
  sh_search_count : Z;
  sh_last_searched : timestamp;
  sh_created_at : timestamp
}.

(** The persisted state: the rows of each table in insertion order. *)
Record Store : Type := {
  users : list User;
  cities : list City;
  searches : list SearchHistory
}.

Definition empty_store : Store :=
  {| users := []; cities := []; searches := [] |}.

(** The key that the database gives to the next inserted row: above
    every key in use, and at least 1. *)
Definition next_id (ids : list Z) : Z :=
  1 + fold_right Z.max 0 ids.

(** [column = value] on two float columns, as the database evaluates
    the lookup [latitude=..., longitude=...]: the comparison is by
    value, so 0.0 and -0.0 are equal though they differ in their sign
    bit, and any other two data are equal when they are the same datum.
    (A NaN, which a coordinate never is and which the engines treat
    each in its own way, is compared as the same datum.) *)
Definition float_eqb (x y : float) : bool :=
  match x, y with
  | S754_zero _, S754_zero _ => true
  | S754_infinity a, S754_infinity b => Bool.eqb a b
  | S754_nan, S754_nan => true
  | S754_finite s m e, S754_finite s' m' e' =>
      Bool.eqb s s' && Pos.eqb m m' && Z.eqb e e'
  | _, _ => false
  end.

(** [Model.objects.get(...)], the keyword arguments being the
    filter [p]: the only matching row, DoesNotExist when there is none,
    MultipleObjectsReturned when there are several. *)
Definition objects_get {A : Type} (p : A -> bool) (rows : list A) : result A :=
  match filter p rows with
  | [] => Raise DoesNotExist
  | [r] => Ok r
  | _ :: _ :: _ => Raise MultipleObjectsReturned
  end.

(** [Model.objects.get_or_create(..., defaults=...)]: the row that
    [get] finds, else the row [fresh] inserted at the end of the table.
    The boolean is [created]. *)
Definition objects_get_or_create {A : Type} (p : A -> bool) (fresh : A)
    (rows : list A) : result (A * bool) * list A :=
  match objects_get p rows with
  | Ok r => (Ok (r, false), rows)
  | Raise DoesNotExist => (Ok (fresh, true), (rows ++ [fresh])%list)
  | Raise e => (Raise e, rows)
  end.

End Models.

Import Models.

(* ===================================================================== *)
(** ** services.py: UserService *)
(* ===================================================================== *)

Module UserService.

(** The [city_data] dict: the keys 'name', 'country', 'latitude' and
    'longitude' are read with [city_data[...]], the key 'admin1' with
    [city_data.get('admin1', '')], so it may be absent ([None] here),
    present with the value None ([Some None]) or with a string. *)
Record CityData : Type := {
  cd_name : string;
  cd_country : string;
  cd_admin1 : option (option string);
  cd_latitude : float;
  cd_longitude : float
}.

Definition get_or_create_user (now : timestamp) (st : Store) (session_key : string)
  : result User * Store :=
  let fresh := {| user_id := next_id (map user_id (users st));
                  user_session_key := session_key;
                  user_created_at := now |} in
  match objects_get_or_create
          (fun u => String.eqb (user_session_key u) session_key) fresh (users st)
  with
  | (Ok (user, _), rows) =>
      (Ok user, {| users := rows; cities := cities st; searches := searches st |})
  | (Raise e, _) => (Raise e, st)
  end.

(** The lookup [name=..., country=..., latitude=..., longitude=...]. *)
Definition city_matches (city_data : CityData) (c : City) : bool :=
  String.eqb (city_name c) (cd_name city_data)
  && String.eqb (city_country c) (cd_country city_data)
  && float_eqb (city_latitude c) (cd_latitude city_data)
  && float_eqb (city_longitude c) (cd_longitude city_data).

(** [city_data.get('admin1', '')]. *)
Definition admin1_default (city_data : CityData) : option string :=
  match cd_admin1 city_data with
  | Some a => a
  | None => Some EmptyString
  end.

(** The lookup [user=user, city=city]. *)
Definition history_matches (user : User) (city : City) (h : SearchHistory) : bool :=
  (sh_user h =? user_id user) && (sh_city h =? city_id city).

(** [search_history.save()] on a row read from the table: the row with
    that primary key is overwritten. *)
Definition save_row (h : SearchHistory) (rows : list SearchHistory)
  : list SearchHistory :=
  map (fun r => if sh_id r =? sh_id h then h else r) rows.

Definition save_search (now : timestamp) (st : Store) (user : User)
    (city_data : CityData) : result SearchHistory * Store :=
  (* Get or create city *)
  let fresh_city := {| city_id := next_id (map city_id (cities st));
                       city_name := cd_name city_data;
                       city_country := cd_country city_data;
                       city_admin1 := admin1_default city_data;
                       city_latitude := cd_latitude city_data;
                       city_longitude := cd_longitude city_data |} in
  match objects_get_or_create (city_matches city_data) fresh_city (cities st) with
  | (Raise e, _) => (Raise e, st)
  | (Ok (city, _), city_rows) =>
      (* Update or create search history *)
      let fresh_history := {| sh_id := next_id (map sh_id (searches st));
                              sh_user := user_id user;
                              sh_city := city_id city;
                              sh_search_count := 1;
                              sh_last_searched := now;
                              sh_created_at := now |} in
      match objects_get_or_create (history_matches user city) fresh_history
              (searches st)
      with
      | (Raise e, _) =>
          (Raise e, {| users := users st; cities := city_rows; searches := searches st |})
      | (Ok (search_history, created), history_rows) =>
          if negb created then
            let updated := {| sh_id := sh_id search_history;
                              sh_user := sh_user search_history;
                              sh_city := sh_city search_history;
                              sh_search_count := sh_search_count search_history + 1;
                              sh_last_searched := now;
                              sh_created_at := sh_created_at search_history |} in
            (Ok updated,
             {| users := users st; cities := city_rows;
                searches := save_row updated history_rows |})
          else
            (Ok search_history,
             {| users := users st; cities := city_rows; searches := history_rows |})
      end
  end.

End UserService.

(* ===================================================================== *)
(** ** serializers.py *)
(* ===================================================================== *)

(** [serializer.errors]: field name (or 'non_field_errors') and messages. *)
Definition Errors : Type := list (string * list string).

Module CitySerializer.

(** [CitySerializer(city).data]. *)
Record Data : Type := {
  id : Z;
  name : string;
  country : string;
  admin1 : option string;
  latitude : float;
  longitude : float;
  display_name : string
}.

Definition get_display_name (obj : City) : string :=
  match city_admin1 obj with
  | Some a =>
      if negb (String.eqb a EmptyString) then
        city_name obj ++ ", " ++ a ++ ", " ++ city_country obj
      else city_name obj ++ ", " ++ city_country obj
  | None => city_name obj ++ ", " ++ city_country obj
  end.

Definition data (obj : City) : Data :=
  {| id := city_id obj;
     name := city_name obj;
     country := city_country obj;
     admin1 := city_admin1 obj;
     latitude := city_latitude obj;
     longitude := city_longitude obj;
     display_name := get_display_name obj |}.

End CitySerializer.

Module CitySearchSerializer.

(** The field [query = serializers.CharField(max_length=200, required=True)]
    applied to a string, as the framework's CharField does it with its
    defaults [trim_whitespace=True] and [allow_blank=False]: a string
    that is empty after trimming is refused as blank; otherwise the
    value is the trimmed string, on which the field's validators run
    (the maximal length, and no NUL character), their messages being
    collected. *)
Definition query_field (data : string) : string + list string :=
  if String.eqb (strip data) EmptyString then inr ["This field may not be blank."]
  else
    let value := strip data in
    let errors :=
      ((if (200 <? String.length value)%nat
        then ["Ensure this field has no more than 200 characters."] else [])
       ++ (if has_null value then ["Null characters are not allowed."] else []))%list in
    match errors with
    | [] => inl value
    | _ => inr errors
    end.

Definition validate_query (value : string) : validated string :=
  if (String.length (strip value) <? 2)%nat then
    Invalid "City name must be at least 2 characters long"
  else Valid (strip value).

(** [serializer.is_valid()] on [request.data], of which only the entry
    'query' matters ([None]: the key is absent): on success the value of
    [serializer.validated_data['query']], else [serializer.errors]. *)
Definition is_valid (query : option string) : string + Errors :=
  match query with
  | None => inr [("query", ["This field is required."])]
  | Some data =>
      match query_field data with
      | inr msgs => inr [("query", msgs)]
      | inl value =>
          match validate_query value with
          | Valid v => inl v
          | Invalid msg => inr [("query", [msg])]
          end
      end
  end.

End CitySearchSerializer.

Module WeatherRequestSerializer.

(** The values of the three optional fields after the fields have
    parsed them; [None] is an absent key, so [data.get(k)] is None. *)
Record Data : Type := {
  city_id : option Z;
  latitude : option float;
  longitude : option float
}.

(** [bool(data.get('city_id'))]. *)
Definition int_given (v : option Z) : bool :=
  match v with
  | Some z => negb (z =? 0)
  | None => false
  end.

(** [bool(data.get('latitude'))]. *)
Definition float_given (v : option float) : bool :=
  match v with
  | Some f => float_truthy f
  | None => false
  end.

Definition validate (data : Data) : validated Data :=
  if negb (int_given (city_id data))
     && negb (float_given (latitude data) && float_given (longitude data))
  then Invalid "Either city_id or both latitude and longitude must be provided"
  else Valid data.

(** [serializer.is_valid()]: [validated_data] or [serializer.errors]. *)
Definition is_valid (data : Data) : Data + Errors :=
  match validate data with
  | Valid d => inl d
  | Invalid msg => inr [("non_field_errors", [msg])]
  end.

End WeatherRequestSerializer.

(* ===================================================================== *)
(** ** views.py *)
(* ===================================================================== *)

(** One element of the popular-cities queryset: the three [values()]
    columns and the two annotations. *)
Record PopularRow : Type := {
  city__name : string;
  city__country : string;
  city__id : Z;
  total_searches : Z;
  unique_users : Z
}.

(** What a view puts in its [Response]. *)
Inductive Body : Type :=
| SerializerErrors (errors : Errors)              (* serializer.errors *)
| ErrorOf (e : exn)                               (* {'error': str(e)} *)
| ErrorMessage (msg : string)                     (* {'error': msg} *)
| CitiesBody (cities : list WeatherService.CityMatch) (count : nat)
| WeatherBody (weather_data : WeatherService.WeatherData)
    (city : option CitySerializer.Data)
| PopularBody (popular_cities : list PopularRow).

Record Response : Type := {
  status : Z;
  body : Body
}.

Definition HTTP_200_OK : Z := 200.
Definition HTTP_400_BAD_REQUEST : Z := 400.
Definition HTTP_404_NOT_FOUND : Z := 404.
Definition HTTP_500_INTERNAL_SERVER_ERROR : Z := 500.

Module CitySearchView.

(** [post]: the response, and the outbound requests made on the way. *)
Definition post (upstream : Upstream) (query : option string)
  : Response * list Request :=
  match CitySearchSerializer.is_valid query with
  | inr errors =>
      ({| status := HTTP_400_BAD_REQUEST; body := SerializerErrors errors |}, [])
  | inl query =>
      let (outcome, calls) := WeatherService.search_cities upstream query in
      match outcome with
      | Ok cities =>
          ({| status := HTTP_200_OK;
              body := CitiesBody cities (List.length cities) |}, calls)
      | Raise e =>
          ({| status := HTTP_500_INTERNAL_SERVER_ERROR; body := ErrorOf e |}, calls)
      end
  end.

End CitySearchView.

Module WeatherView.

(** The part of [post] after the coordinates are known: fetch the
    weather, then save the search when the request named a city. *)
Definition fetch_and_save (upstream : Upstream) (now : timestamp) (st : Store)
    (user : User) (latitude longitude : float) (city : option City)
  : Response * Store * list Request :=
  let (outcome, calls) := WeatherService.get_weather_data upstream latitude longitude in
  match outcome with
  | Raise e =>
      ({| status := HTTP_500_INTERNAL_SERVER_ERROR; body := ErrorOf e |}, st, calls)
  | Ok weather_data =>
      match city with
      | Some city =>
          let city_data := {| UserService.cd_name := city_name city;
                              UserService.cd_country := city_country city;
                              UserService.cd_admin1 := Some (city_admin1 city);
                              UserService.cd_latitude := city_latitude city;
                              UserService.cd_longitude := city_longitude city |} in
          match UserService.save_search now st user city_data with
          | (Raise e, st') =>
              ({| status := HTTP_500_INTERNAL_SERVER_ERROR; body := ErrorOf e |},
               st', calls)
          | (Ok _, st') =>
              ({| status := HTTP_200_OK;
                  body := WeatherBody weather_data (Some (CitySerializer.data city)) |},
               st', calls)
          end
      | None =>
          ({| status := HTTP_200_OK; body := WeatherBody weather_data None |},
           st, calls)
      end
  end.

(** [post]. [session_key] is [request.session.session_key] and
    [created_key] the key that [request.session.create()] would make.
    The outcome is the response, or the exception that leaves the view
    (the call of [get_or_create_user] is outside the [try]), with the
    persisted state afterwards and the outbound requests made. Inside
    the [try], a missing key of [validated_data] is a KeyError, which
    the [except Exception] clause answers with 500 like any other. *)
Definition post (upstream : Upstream) (now : timestamp) (created_key : string)
    (st : Store) (session_key : option string) (data : WeatherRequestSerializer.Data)
  : result Response * Store * list Request :=
  match WeatherRequestSerializer.is_valid data with
  | inr errors =>
      (Ok {| status := HTTP_400_BAD_REQUEST; body := SerializerErrors errors |}, st, [])
  | inl validated_data =>
      let session_key :=
        match session_key with
        | Some k => if String.eqb k EmptyString then created_key else k
        | None => created_key
        end in
      match UserService.get_or_create_user now st session_key with
      | (Raise e, st1) => (Raise e, st1, [])
      | (Ok user, st1) =>
          if WeatherRequestSerializer.int_given
               (WeatherRequestSerializer.city_id validated_data)
          then
            (* Get weather by city ID *)
            match WeatherRequestSerializer.city_id validated_data with
            | None =>
                (Ok {| status := HTTP_500_INTERNAL_SERVER_ERROR;
                       body := ErrorOf KeyError |}, st1, [])
            | Some wanted =>
                match objects_get (fun c => city_id c =? wanted) (cities st1) with
                | Raise DoesNotExist =>
                    (Ok {| status := HTTP_404_NOT_FOUND;
                           body := ErrorMessage "City not found" |}, st1, [])
                | Raise e =>
                    (Ok {| status := HTTP_500_INTERNAL_SERVER_ERROR;
                           body := ErrorOf e |}, st1, [])
                | Ok city =>
                    let '(response, st2, calls) :=
                      fetch_and_save upstream now st1 user
                        (city_latitude city) (city_longitude city) (Some city) in
                    (Ok response, st2, calls)
                end
            end
          else
            (* Get weather by coordinates *)
            match WeatherRequestSerializer.latitude validated_data,
                  WeatherRequestSerializer.longitude validated_data with
            | Some latitude, Some longitude =>
                let '(response, st2, calls) :=
                  fetch_and_save upstream now st1 user latitude longitude None in
                (Ok response, st2, calls)
            | _, _ =>
                (Ok {| status := HTTP_500_INTERNAL_SERVER_ERROR;
                       body := ErrorOf KeyError |}, st1, [])
            end
      end
  end.

End WeatherView.

(** [order_by('-total_searches')]: a row comes no later than another
    when its total is at least the other's. *)
Module PopularOrder <: Orders.TotalLeBool.

Definition t : Type := PopularRow.

Definition leb (x y : t) : bool := total_searches y <=? total_searches x.

Lemma leb_total : forall x y : t, leb x y = true \/ leb y x = true.
Proof. intros x y. unfold leb. rewrite !Z.leb_le. lia. Qed.

End PopularOrder.

Module PopularSort := Mergesort.Sort PopularOrder.

Module PopularCitiesView.

(** The rows of SearchHistory joined with their City (the inner join
    that the columns [city__name] and [city__country] need). *)
Definition joined (st : Store) : list (SearchHistory * City) :=
  flat_map
    (fun h => map (fun c => (h, c)) (filter (fun c => city_id c =? sh_city h) (cities st)))
    (searches st).

(** [values('city__name', 'city__country', 'city__id')]: the columns
    that the rows are grouped by. *)
Definition group_key : Type := string * string * Z.

Definition key_of (r : SearchHistory * City) : group_key :=
  (city_name (snd r), city_country (snd r), sh_city (fst r)).

Definition key_eq_dec (a b : group_key) : {a = b} + {a <> b}.
Proof. repeat decide equality. Defined.

Definition in_group (k : group_key) (r : SearchHistory * City) : bool :=
  if key_eq_dec (key_of r) k then true else false.

(** The groups, one per key that occurs. *)
Definition groups (rows : list (SearchHistory * City)) : list group_key :=
  nodup key_eq_dec (map key_of rows).

Definition Sum (zs : list Z) : Z := fold_right Z.add 0 zs.

(** [Count(..., distinct=True)]. *)
Definition CountDistinct (zs : list Z) : Z :=
  Z.of_nat (List.length (nodup Z.eq_dec zs)).

(** [annotate(total_searches=Sum('search_count'),
              unique_users=Count('user', distinct=True))] for one group. *)
Definition annotate (rows : list (SearchHistory * City)) (k : group_key) : PopularRow :=
  let members := map fst (filter (in_group k) rows) in
  {| city__name := fst (fst k);
     city__country := snd (fst k);
     city__id := snd k;
     total_searches := Sum (map sh_search_count members);
     unique_users := CountDistinct (map sh_user members) |}.

(** The queryset [popular_cities]; rows with equal totals come in the
    order that the sort leaves them in. *)
Definition popular_cities (st : Store) : list PopularRow :=
  let rows := joined st in
  firstn 10 (PopularSort.sort (map (annotate rows) (groups rows))).

Definition get (st : Store) : Response :=
  {| status := HTTP_200_OK; body := PopularBody (popular_cities st) |}.

End PopularCitiesView.

(* ===================================================================== *)
(** ** views.py: the views that read the ledger *)
(* ===================================================================== *)

(** [order_by('-key')]: the rows by descending key; rows with equal
    keys keep the order they had. *)
Fixpoint insert_desc {A : Type} (key : A -> Z) (x : A) (l : list A) : list A :=
  match l with
  | [] => [x]
  | y :: l' => if key x <? key y then y :: insert_desc key x l' else x :: l
  end.

Fixpoint order_by_desc {A : Type} (key : A -> Z) (l : list A) : list A :=
  match l with
  | [] => []
  | x :: l' => insert_desc key x (order_by_desc key l')
  end.

Module SearchHistorySerializer.

(** [SearchHistorySerializer(entry).data]. *)
Record Data : Type := {
  id : Z;
  city : CitySerializer.Data;
  search_count : Z;
  last_searched : timestamp;
  created_at : timestamp
}.

(** The nested [CitySerializer] reads the related row [entry.city],
    which the ORM fetches by its primary key. *)
Definition data (st : Store) (entry : SearchHistory) : result Data :=
  related <- objects_get (fun c => city_id c =? sh_city entry) (cities st) ;;
  Ok {| id := sh_id entry;
        city := CitySerializer.data related;
        search_count := sh_search_count entry;
        last_searched := sh_last_searched entry;
        created_at := sh_created_at entry |}.

End SearchHistorySerializer.

Module SearchHistoryView.

(** [get]: the list under 'history' of the response (whose status is
    always 200), or the exception that leaves the view. [session_key]
    is [request.session.session_key]. Only [User.objects.get] can raise
    User.DoesNotExist, which the [except] clause answers with the empty
    list. *)
Definition get (st : Store) (session_key : option string)
  : result (list SearchHistorySerializer.Data) :=
  match session_key with
  | None => Ok []
  | Some key =>
      if String.eqb key EmptyString then Ok []
      else
        match objects_get (fun u => String.eqb (user_session_key u) key) (users st) with
        | Raise DoesNotExist => Ok []
        | Raise e => Raise e
        | Ok user =>
            let history :=
              firstn 10
                (order_by_desc sh_last_searched
                   (filter (fun h => sh_user h =? user_id user) (searches st))) in
            mapM (SearchHistorySerializer.data st) history
        end
  end.

End SearchHistoryView.

Module RecentSearchesView.

(** One element of [suggestions]. *)
Record Suggestion : Type := {
  city_id : Z;
  display_name : string;
  last_searched : timestamp
}.

(** [get]: the list under 'recent_searches' of the response.
    [select_related('city')] joins each entry with its city. *)
Definition get (st : Store) (session_key : option string) : result (list Suggestion) :=
  match session_key with
  | None => Ok []
  | Some key =>
      if String.eqb key EmptyString then Ok []
      else
        match objects_get (fun u => String.eqb (user_session_key u) key) (users st) with
        | Raise DoesNotExist => Ok []
        | Raise e => Raise e
        | Ok user =>
            let recent_searches :=
              firstn 5
                (order_by_desc (fun r => sh_last_searched (fst r))
                   (filter (fun r => sh_user (fst r) =? user_id user)
                      (PopularCitiesView.joined st))) in
            Ok (map (fun search =>
                       {| city_id := Models.city_id (snd search);
                          display_name :=
                            city_name (snd search) ++ ", " ++ city_country (snd search);
                          last_searched := sh_last_searched (fst search) |})
                    recent_searches)
        end
  end.

End RecentSearchesView.

Module StatsView.

(** One element of the queryset [city_stats]. *)
Record CityStat : Type := {
  city__name : string;
  city__country : string;
  search_count : Z;
  unique_users : Z
}.

(** The dict of the response. *)
Record Data : Type := {
  city_stats : list CityStat;
  total_searches : Z;
  total_users : Z;
  total_cities : Z
}.

(** [values('city__name', 'city__country')]: the grouping columns. *)
Definition group_key : Type := string * string.

Definition key_of (r : SearchHistory * City) : group_key :=
  (city_name (snd r), city_country (snd r)).

Definition key_eq_dec (a b : group_key) : {a = b} + {a <> b}.
Proof. repeat decide equality. Defined.

Definition in_group (k : group_key) (r : SearchHistory * City) : bool :=
  if key_eq_dec (key_of r) k then true else false.

Definition groups (rows : list (SearchHistory * City)) : list group_key :=
  nodup key_eq_dec (map key_of rows).

Definition annotate (rows : list (SearchHistory * City)) (k : group_key) : CityStat :=
  let members := map fst (filter (in_group k) rows) in
  {| city__name := fst k;
     city__country := snd k;
     search_count := PopularCitiesView.Sum (map sh_search_count members);
     unique_users := PopularCitiesView.CountDistinct (map sh_user members) |}.

(** [SearchHistory.objects.aggregate(total=Sum('search_count'))['total']]:
    None on an empty table. *)
Definition aggregate_total (st : Store) : option Z :=
  match searches st with
  | [] => None
  | rows => Some (PopularCitiesView.Sum (map sh_search_count rows))
  end.

Definition get (st : Store) : Data :=
  let rows := PopularCitiesView.joined st in
  {| city_stats := order_by_desc search_count (map (annotate rows) (groups rows));
     total_searches :=
       match aggregate_total st with
       | Some total => if total =? 0 then 0 else total      (* total or 0 *)
       | None => 0
       end;
     total_users := Z.of_nat (List.length (users st));
     total_cities := Z.of_nat (List.length (cities st)) |}.

End StatsView.

(* ===================================================================== *)
(** * Vocabulary of the properties *)
(* ===================================================================== *)

Definition is_dict (v : value) : Prop :=
  match v with
  | PyDict _ => True
  | _ => False
  end.

(** ** The constraints that the storage layer enforces

    Primary keys are unique; [session_key] is unique; the
    [unique_together] tuples of City and of SearchHistory are unique;
    a foreign key refers to a row that exists. *)

(** The value that a float column stands for in a comparison: the two
    zeros are one value. *)
Definition float_key (x : float) : float :=
  match x with
  | S754_zero _ => S754_zero false
  | _ => x
  end.

(** The [unique_together] tuple of a City, compared as the database
    compares it. *)
Definition city_key (c : City) : string * string * float * float :=
  (city_name c, city_country c,
   float_key (city_latitude c), float_key (city_longitude c)).

(** The tuple that [save_search] looks a City up by. *)
Definition lookup_key (city_data : UserService.CityData)
  : string * string * float * float :=
  (UserService.cd_name city_data, UserService.cd_country city_data,
   float_key (UserService.cd_latitude city_data),
   float_key (UserService.cd_longitude city_data)).

Definition history_key (h : SearchHistory) : Z * Z :=
  (sh_user h, sh_city h).

Record wf_store (st : Store) : Prop := {
  wf_user_ids : NoDup (map user_id (users st));
  wf_city_ids : NoDup (map city_id (cities st));
  wf_history_ids : NoDup (map sh_id (searches st));
  wf_sessions : NoDup (map user_session_key (users st));
  wf_city_keys : NoDup (map city_key (cities st));
  wf_history_keys : NoDup (map history_key (searches st));
  wf_history_user :
    forall h, In h (searches st) -> In (sh_user h) (map user_id (users st));
  wf_history_city :
    forall h, In h (searches st) -> In (sh_city h) (map city_id (cities st))
}.

(** The SearchHistory entries of one city. *)
Definition entries_of (st : Store) (city : Z) : list SearchHistory :=
  filter (fun h => sh_city h =? city) (searches st).

(** ** Forecast responses

    A forecast response of the provider is a JSON object whose members
    'current', 'hourly' and 'daily', where present, are objects; in
    'hourly' and 'daily' the member 'time' and the requested metrics,
    where present, are arrays; a weather code is a scalar. *)

Definition hashable (v : value) : bool :=
  match v with
  | PyList _ | PyDict _ => false
  | _ => true
  end.

(** The object under [key] of the response (empty when absent). *)
Definition block (raw : value) (key : string) : list (string * value) :=
  match raw with
  | PyDict kv =>
      match assoc key kv with
      | Some (PyDict b) => b
      | _ => []
      end
  | _ => []
  end.

(** The array under [key] of a block (no entries when absent). *)
Definition series (b : list (string * value)) (key : string) : list value :=
  match assoc key b with
  | Some (PyList l) => l
  | _ => []
  end.

Definition object_or_absent (kv : list (string * value)) (key : string) : bool :=
  match assoc key kv with
  | None | Some (PyDict _) => true
  | Some _ => false
  end.

Definition array_or_absent (b : list (string * value)) (key : string) : bool :=
  match assoc key b with
  | None | Some (PyList _) => true
  | Some _ => false
  end.

(** The metric arrays that the normalizer reads, with the field of the
    entry that each of them fills. *)
Definition hourly_fields : list (string * (WeatherService.HourlyEntry -> value)) :=
  [ ("temperature_2m", WeatherService.h_temperature);
    ("relative_humidity_2m", WeatherService.h_humidity);
    ("precipitation_probability", WeatherService.h_precipitation_probability);
    ("precipitation", WeatherService.h_precipitation);
    ("weather_code", WeatherService.h_weather_code);
    ("wind_speed_10m", WeatherService.h_wind_speed) ].

Definition daily_fields : list (string * (WeatherService.DailyEntry -> value)) :=
  [ ("temperature_2m_max", WeatherService.d_temperature_max);
    ("temperature_2m_min", WeatherService.d_temperature_min);
    ("apparent_temperature_max", WeatherService.d_feels_like_max);
    ("apparent_temperature_min", WeatherService.d_feels_like_min);
    ("precipitation_sum", WeatherService.d_precipitation);
    ("wind_speed_10m_max", WeatherService.d_wind_speed_max);
    ("wind_direction_10m_dominant", WeatherService.d_wind_direction);
    ("weather_code", WeatherService.d_weather_code) ].

Definition well_formed_block {E : Type} (b : list (string * value))
    (fields : list (string * (E -> value))) : bool :=
  forallb (array_or_absent b) ("time" :: map fst fields)
  && forallb hashable (series b "weather_code").

Definition well_formed_response (raw : value) : bool :=
  match raw with
  | PyDict kv =>
      object_or_absent kv "current"
      && object_or_absent kv "hourly"
      && object_or_absent kv "daily"
      && match assoc "weather_code" (block raw "current") with
         | Some code => hashable code
         | None => true
         end
      && well_formed_block (block raw "hourly") hourly_fields
      && well_formed_block (block raw "daily") daily_fields
  | _ => false
  end.

(** The computation does not stop with an out-of-bounds failure. *)
Definition no_index_error {A : Type} (c : result A) : Prop :=
  c <> Raise IndexError.

(** The session key under which the view looks the user up. *)
Definition effective_session_key (session_key : option string) (created_key : string)
  : string :=
  match session_key with
  | Some k => if String.eqb k EmptyString then created_key else k
  | None => created_key
  end.

(** The failures of reading a value of the wrong shape: a missing
    method, a missing key, an operation that the type does not have. *)
Definition lookup_failure (e : exn) : Prop :=
  e = TypeError \/ e = KeyError \/ e = AttributeError.

Definition fails_only_by_lookup {A : Type} (c : result A) : Prop :=
  match c with
  | Ok _ => True
  | Raise e => lookup_failure e
  end.

(** An entry joined with its city, as the history view serializes it. *)
Definition serialized_row (r : SearchHistory * City) : SearchHistorySerializer.Data :=
  {| SearchHistorySerializer.id := sh_id (fst r);
     SearchHistorySerializer.city := CitySerializer.data (snd r);
     SearchHistorySerializer.search_count := sh_search_count (fst r);
     SearchHistorySerializer.last_searched := sh_last_searched (fst r);
     SearchHistorySerializer.created_at := sh_created_at (fst r) |}.

(** The joined rows of a user, the most recently searched first. *)
Definition recent_rows (st : Store) (u : User) : list (SearchHistory * City) :=
  order_by_desc (fun r => sh_last_searched (fst r))
    (filter (fun r => sh_user (fst r) =? user_id u) (PopularCitiesView.joined st)).

(** ** Sample inputs *)

(** A response of the provider with eleven matches. *)
Definition eleven_results : value :=
  PyDict [("results", PyList (repeat (PyDict [("name", PyStr "Springfield")]) 11))].

(** A query of 201 letters. *)
Definition long_query : string :=
  string_of_list_ascii (repeat "a"%char 201).

(** The city of the tests; 51.5074 and -0.1278 as binary64 data. *)
Definition london : UserService.CityData :=
  {| UserService.cd_name := "London";
     UserService.cd_country := "United Kingdom";
     UserService.cd_admin1 := Some (Some "England");
     UserService.cd_latitude := S754_finite false 7249022107713221 (-47);
     UserService.cd_longitude := S754_finite true 4604480259023595 (-55) |}.

Definition test_user : User :=
  {| user_id := 1; user_session_key := "test_session_123"; user_created_at := 0 |}.

(** The state after [User.objects.create(session_key=...)] on an empty
    database. *)
Definition one_user_store : Store :=
  {| users := [test_user]; cities := []; searches := [] |}.

(** A place on the equator, stored with the latitude 0.0 and searched
    once by the user of the tests. *)
Definition equator_store : Store :=
  {| users := [test_user];
     cities := [ {| city_id := 1; city_name := "Quito"; city_country := "Ecuador";
                    city_admin1 := Some EmptyString;
                    city_latitude := S754_zero false;
                    city_longitude := S754_finite true 5522241494126592 (-46) |} ];
     searches := [ {| sh_id := 1; sh_user := 1; sh_city := 1; sh_search_count := 1;
                      sh_last_searched := 1; sh_created_at := 1 |} ] |}.

(** The same place with the latitude -0.0. *)
Definition equator_south : UserService.CityData :=
  {| UserService.cd_name := "Quito";
     UserService.cd_country := "Ecuador";
     UserService.cd_admin1 := None;
     UserService.cd_latitude := S754_zero true;
     UserService.cd_longitude := S754_finite true 5522241494126592 (-46) |}.

(** Two sessions and two cities: London was searched 3 times by the
    first session and once by the second, Paris 5 times by the first. *)
Definition sample_store : Store :=
  {| users := [ {| user_id := 1; user_session_key := "session-a"; user_created_at := 0 |};
                {| user_id := 2; user_session_key := "session-b"; user_created_at := 1 |} ];
     cities := [ {| city_id := 1; city_name := "London"; city_country := "United Kingdom";
                    city_admin1 := Some "England";
                    city_latitude := S754_finite false 7249022107713221 (-47);
                    city_longitude := S754_finite true 4604480259023595 (-55) |};
                 {| city_id := 2; city_name := "Paris"; city_country := "France";
                    city_admin1 := None;
                    city_latitude := S754_finite false 6875955173580918 (-47);
                    city_longitude := S754_finite false 5296683521750440 (-51) |} ];
     searches := [ {| sh_id := 1; sh_user := 1; sh_city := 1; sh_search_count := 3;
                      sh_last_searched := 10; sh_created_at := 2 |};
                   {| sh_id := 2; sh_user := 2; sh_city := 1; sh_search_count := 1;
                      sh_last_searched := 11; sh_created_at := 11 |};
                   {| sh_id := 3; sh_user := 1; sh_city := 2; sh_search_count := 5;
                      sh_last_searched := 12; sh_created_at := 3 |} ] |}.

(** A forecast response with three hours and two days, in which some
    metric arrays are shorter than the time arrays or absent. *)
Definition short_response : value :=
  PyDict
    [ ("timezone", PyStr "Europe/London");
      ("current", PyDict [ ("time", PyStr "2024-01-15T12:00");
                           ("temperature_2m", PyFloat (S754_finite false 31 (-1)));
                           ("weather_code", PyInt 1) ]);
      ("hourly", PyDict [ ("time", PyList [ PyStr "2024-01-15T13:00";
                                            PyStr "2024-01-15T14:00";
                                            PyStr "2024-01-15T15:00" ]);
                          ("temperature_2m", PyList [ PyInt 16; PyInt 17 ]);
                          ("weather_code", PyList [ PyInt 1 ]);
                          ("precipitation_probability", PyList [ PyInt 10; PyInt 20; PyInt 30 ]) ]);
      ("daily", PyDict [ ("time", PyList [ PyStr "2024-01-15"; PyStr "2024-01-16" ]);
                         ("temperature_2m_max", PyList [ PyInt 18 ]);
                         ("temperature_2m_min", PyList []);
                         ("weather_code", PyList [ PyInt 1 ]) ]) ].

(** A provider that answers every request with an empty JSON object. *)
Definition empty_upstream : Upstream := fun _ => HttpJson (PyDict []).

(* ===================================================================== *)
(** * Properties *)
(* ===================================================================== *)

(** ** The weather code dictionary *)

Lemma assocZ_absent (A : Type) (z : Z) (kv : list (Z * A)) :
  ~ In z (map fst kv) -> assocZ z kv = None.
Proof.
  induction kv as [|[k v] kv IH]; simpl; intros Hnot.
  - reflexivity.
  - destruct (Z.eqb_spec z k) as [->|Hne].
    + exfalso. apply Hnot. now left.
    + apply IH. intros Hin. apply Hnot. now right.
Qed.

(** The keys of the dictionary are the 28 documented codes. *)
Lemma weather_codes_keys :
  map fst WeatherService.weather_codes =
  [0; 1; 2; 3; 45; 48; 51; 53; 55; 56; 57; 61; 63; 65; 66; 67; 71; 73; 75; 77;
   80; 81; 82; 85; 86; 95; 96; 99].
Proof. reflexivity. Qed.

(** C3. For an integer code or an absent code (None), the description
    is the documented string of the code when the code is one of the 28
    codes of the fixed mapping, and "Unknown" for every other integer
    and for None. *)
Theorem weather_description_exact (code : option Z) :
  WeatherService._get_weather_description
    (match code with Some z => PyInt z | None => PyNone end)
  = Ok match code with
       | Some 0 => "Clear sky"
       | Some 1 => "Mainly clear"
       | Some 2 => "Partly cloudy"
       | Some 3 => "Overcast"
       | Some 45 => "Fog"
       | Some 48 => "Depositing rime fog"
       | Some 51 => "Light drizzle"
       | Some 53 => "Moderate drizzle"
       | Some 55 => "Dense drizzle"
       | Some 56 => "Light freezing drizzle"
       | Some 57 => "Dense freezing drizzle"
       | Some 61 => "Slight rain"
       | Some 63 => "Moderate rain"
       | Some 65 => "Heavy rain"
       | Some 66 => "Light freezing rain"
       | Some 67 => "Heavy freezing rain"
       | Some 71 => "Slight snow fall"
       | Some 73 => "Moderate snow fall"
       | Some 75 => "Heavy snow fall"
       | Some 77 => "Snow grains"
       | Some 80 => "Slight rain showers"
       | Some 81 => "Moderate rain showers"
       | Some 82 => "Violent rain showers"
       | Some 85 => "Slight snow showers"
       | Some 86 => "Heavy snow showers"
       | Some 95 => "Thunderstorm"
       | Some 96 => "Thunderstorm with slight hail"
       | Some 99 => "Thunderstorm with heavy hail"
       | _ => "Unknown"
       end.
Proof.
  destruct code as [z|]; [|reflexivity].
  destruct z as [|p|p]; try reflexivity.
  do 7 (destruct p as [p|p|]; try reflexivity).
Qed.

(** Outside the 28 keys the dictionary has no entry. *)
Lemma weather_description_outside (z : Z) :
  ~ In z [0; 1; 2; 3; 45; 48; 51; 53; 55; 56; 57; 61; 63; 65; 66; 67; 71; 73; 75; 77;
          80; 81; 82; 85; 86; 95; 96; 99] ->
  WeatherService._get_weather_description (PyInt z) = Ok "Unknown".
Proof.
  rewrite <- weather_codes_keys. intros Hout.
  unfold WeatherService._get_weather_description, Py.bind, int_key.
  now rewrite (assocZ_absent _ z _ Hout).
Qed.

(** A 'current' block without the key 'weather_code' is described as
    "Unknown": [current.get('weather_code')] is None. *)
Lemma absent_code_is_unknown (current : list (string * value))
    (cw : WeatherService.CurrentWeather) :
  assoc "weather_code" current = None ->
  WeatherService.format_current (PyDict current) = Ok cw ->
  WeatherService.cw_weather_code cw = PyNone
  /\ WeatherService.cw_weather_description cw = "Unknown".
Proof.
  intros Habsent. unfold WeatherService.format_current, Py.get, get_default.
  cbn [Py.bind]. rewrite Habsent. cbn. intros H. inversion H. now split.
Qed.

(** Values that are not integers: a bool or an integral float is equal
    to an int key, and a list or a dict cannot be hashed. *)
Remark weather_description_other_values :
  WeatherService._get_weather_description (PyBool true) = Ok "Mainly clear"
  /\ WeatherService._get_weather_description (PyFloat (S754_finite false 3 0)) = Ok "Overcast"
  /\ WeatherService._get_weather_description (PyStr "1") = Ok "Unknown"
  /\ WeatherService._get_weather_description (PyList [PyInt 1]) = Raise TypeError.
Proof. repeat split. Qed.

(** ** City search: the provider's list is passed on entry by entry *)

Lemma mapM_length (A B : Type) (f : A -> result B) (xs : list A) (ys : list B) :
  mapM f xs = Ok ys -> List.length ys = List.length xs.
Proof.
  revert ys. induction xs as [|x xs IH]; simpl; intros ys H.
  - now inversion H.
  - destruct (f x) as [y|e]; simpl in H; [|discriminate].
    destruct (mapM f xs) as [ys'|e]; simpl in H; [|discriminate].
    inversion H; subst. simpl. now rewrite (IH ys').
Qed.

Lemma mapM_total (A B : Type) (f : A -> result B) (xs : list A) :
  (forall x, In x xs -> exists y, f x = Ok y) ->
  exists ys, mapM f xs = Ok ys.
Proof.
  induction xs as [|x xs IH]; simpl; intros Hf.
  - now exists [].
  - destruct (Hf x (or_introl eq_refl)) as [y ->].
    destruct IH as [ys ->]; [intros; apply Hf; now right|].
    simpl. now exists (y :: ys).
Qed.

Lemma mapM_nth_error (A B : Type) (f : A -> result B) (xs : list A) (ys : list B) :
  mapM f xs = Ok ys ->
  forall i x, nth_error xs i = Some x ->
  exists y, nth_error ys i = Some y /\ f x = Ok y.
Proof.
  revert ys. induction xs as [|x0 xs IH]; simpl; intros ys H i x Hi.
  - destruct i; discriminate.
  - destruct (f x0) as [y0|e] eqn:Hx0; simpl in H; [|discriminate].
    destruct (mapM f xs) as [ys'|e]; simpl in H; [|discriminate].
    inversion H; subst. destruct i as [|i]; simpl in *.
    + inversion Hi; subst. now exists y0.
    + now apply (IH ys').
Qed.

Lemma city_match_total (r : value) :
  is_dict r -> exists m, WeatherService.city_match r = Ok m.
Proof.
  destruct r; simpl; try contradiction. intros _.
  unfold WeatherService.city_match. simpl. eauto.
Qed.

(** A response without the key 'results' yields no match, and a failure
    of the request is re-raised with the message of [search_cities]. *)
Lemma search_cities_no_results (upstream : Upstream) (query : string)
    (kv : list (string * value)) :
  upstream (WeatherService.geocoding_request query) = HttpJson (PyDict kv) ->
  assoc "results" kv = None ->
  fst (WeatherService.search_cities upstream query) = Ok [].
Proof.
  intros Hup Hres. unfold WeatherService.search_cities. simpl fst. rewrite Hup.
  unfold contains, Py.bind. now rewrite Hres.
Qed.

Lemma search_cities_failure (upstream : Upstream) (query msg : string) :
  upstream (WeatherService.geocoding_request query) = HttpError msg ->
  fst (WeatherService.search_cities upstream query)
  = Raise (Exception ("Failed to search cities: " ++ msg)).
Proof.
  intros Hup. unfold WeatherService.search_cities. simpl fst. now rewrite Hup.
Qed.

(** C6, as stated, fails: the function passes on all eleven matches of
    a response that holds eleven. *)
Lemma search_cities_returns_eleven :
  exists cities,
    fst (WeatherService.search_cities (fun _ => HttpJson eleven_results) "Springfield")
      = Ok cities
    /\ (10 < List.length cities)%nat.
Proof. eexists. split; [reflexivity|]. simpl. lia. Qed.

(** C6, amended. [search_cities] sends one request, which asks the
    provider for at most 10 matches ([count] is 10), and returns one
    entry per element of the response's 'results' list, in the order of
    the list, without cutting it: the number of entries returned is the
    number of results received. *)
Theorem search_cities_one_per_result
    (upstream : Upstream) (query : string) (kv : list (string * value))
    (results : list value) :
  upstream (WeatherService.geocoding_request query) = HttpJson (PyDict kv) ->
  assoc "results" kv = Some (PyList results) ->
  Forall is_dict results ->
  snd (WeatherService.search_cities upstream query) = [Geocoding query 10 "en" "json"]
  /\ exists cities,
       fst (WeatherService.search_cities upstream query) = Ok cities
       /\ List.length cities = List.length results
       /\ forall i r, nth_error results i = Some r ->
            exists m, nth_error cities i = Some m /\ WeatherService.city_match r = Ok m.
Proof.
  intros Hup Hres Hdict. split; [reflexivity|].
  unfold WeatherService.search_cities. simpl fst. rewrite Hup.
  unfold contains, getitem_str, Py.bind. rewrite Hres. simpl iter.
  destruct (mapM_total _ _ WeatherService.city_match results) as [cities Hc].
  { intros r Hr. apply city_match_total. rewrite Forall_forall in Hdict. now apply Hdict. }
  exists cities. rewrite Hc. split; [reflexivity|]. split.
  - now apply mapM_length with (f := WeatherService.city_match).
  - intros i r Hi. now apply mapM_nth_error with (xs := results).
Qed.

Lemma search_cities_one_per_result_witness :
  exists cities,
    fst (WeatherService.search_cities (fun _ => HttpJson eleven_results) "Springfield")
      = Ok cities
    /\ List.length cities = 11%nat.
Proof.
  destruct (search_cities_one_per_result (fun _ => HttpJson eleven_results) "Springfield"
              [("results", PyList (repeat (PyDict [("name", PyStr "Springfield")]) 11))]
              (repeat (PyDict [("name", PyStr "Springfield")]) 11)
              eq_refl eq_refl) as [_ [cities [H1 [H2 _]]]].
  - repeat constructor.
  - exists cities. split; [exact H1 | exact H2].
Defined.

(** ** The search ledger: the region of an inserted City *)

(** C7, as stated, fails: on a store without cities, a search for
    London with the region 'England' inserts a City whose region is
    'England', not the empty string. *)
Lemma save_search_inserts_given_region :
  filter (UserService.city_matches london) (cities one_user_store) = []
  /\ exists c,
       cities (snd (UserService.save_search 0 one_user_store test_user london)) = [c]
       /\ city_admin1 c = Some "England"
       /\ city_admin1 c <> Some EmptyString.
Proof.
  split; [reflexivity|]. eexists. split; [reflexivity|]. split; [reflexivity|].
  discriminate.
Qed.

(** C7, amended. When the City lookup of [save_search] finds no row
    (no stored City has the name, the country and, by value, the
    latitude and the longitude searched for), one City is inserted;
    it carries the name, country, latitude and longitude of
    [city_data], and its region is the 'admin1' entry of
    [city_data] when [city_data] has that key (None is stored as NULL),
    and the empty string only when the key is absent. *)
Theorem save_search_inserted_region
    (now : timestamp) (st : Store) (user : User) (city_data : UserService.CityData) :
  filter (UserService.city_matches city_data) (cities st) = [] ->
  exists c,
    cities (snd (UserService.save_search now st user city_data)) = (cities st ++ [c])%list
    /\ city_name c = UserService.cd_name city_data
    /\ city_country c = UserService.cd_country city_data
    /\ city_latitude c = UserService.cd_latitude city_data
    /\ city_longitude c = UserService.cd_longitude city_data
    /\ city_admin1 c = match UserService.cd_admin1 city_data with
                       | Some region => region
                       | None => Some EmptyString
                       end.
Proof.
  intros Hnone.
  exists {| city_id := next_id (map city_id (cities st));
            city_name := UserService.cd_name city_data;
            city_country := UserService.cd_country city_data;
            city_admin1 := UserService.admin1_default city_data;
            city_latitude := UserService.cd_latitude city_data;
            city_longitude := UserService.cd_longitude city_data |}.
  split; [|repeat split].
  unfold UserService.save_search, objects_get_or_create at 1, objects_get at 1.
  rewrite Hnone.
  match goal with
  | |- context [objects_get_or_create ?p ?f (searches st)] =>
      destruct (objects_get_or_create p f (searches st)) as [[[h created]|e] rows]
  end; [destruct created|]; reflexivity.
Qed.

Lemma save_search_inserted_region_witness :
  exists c,
    cities (snd (UserService.save_search 0 one_user_store test_user london)) = [c]
    /\ city_admin1 c = Some "England".
Proof.
  destruct (save_search_inserted_region 0 one_user_store test_user london eq_refl)
    as [c [H1 [_ [_ [_ [_ H3]]]]]].
  exists c. split; [exact H1 | exact H3].
Defined.

(** ** The weather request: the presence check *)

(** C10. A request without city_id whose latitude or longitude is a
    zero (0.0 or -0.0) fails [validate], so the view answers 400 with
    the validation message, the persisted state is untouched and no
    outbound request is made. *)
Theorem zero_coordinate_rejected
    (upstream : Upstream) (now : timestamp) (created_key : string) (st : Store)
    (session_key : option string) (data : WeatherRequestSerializer.Data) :
  WeatherRequestSerializer.city_id data = None ->
  (exists s, WeatherRequestSerializer.latitude data = Some (S754_zero s))
  \/ (exists s, WeatherRequestSerializer.longitude data = Some (S754_zero s)) ->
  WeatherRequestSerializer.validate data
    = Invalid "Either city_id or both latitude and longitude must be provided"
  /\ WeatherView.post upstream now created_key st session_key data
     = (Ok {| status := 400;
              body := SerializerErrors
                        [("non_field_errors",
                          ["Either city_id or both latitude and longitude must be provided"])] |},
        st, []).
Proof.
  intros Hid Hzero.
  assert (Hv : WeatherRequestSerializer.validate data
               = Invalid "Either city_id or both latitude and longitude must be provided").
  { unfold WeatherRequestSerializer.validate. rewrite Hid. simpl.
    destruct Hzero as [[s ->]|[s ->]]; simpl.
    - reflexivity.
    - now rewrite andb_false_r. }
  split; [exact Hv|].
  unfold WeatherView.post, WeatherRequestSerializer.is_valid. now rewrite Hv.
Qed.

Lemma zero_coordinate_rejected_witness :
  fst (WeatherView.post empty_upstream 0 "fresh" one_user_store None
         {| WeatherRequestSerializer.city_id := None;
            WeatherRequestSerializer.latitude := Some (S754_zero false);
            WeatherRequestSerializer.longitude :=
              Some (S754_finite false 4604480259023595 (-55)) |})
  = (Ok {| status := 400;
           body := SerializerErrors
                     [("non_field_errors",
                       ["Either city_id or both latitude and longitude must be provided"])] |},
     one_user_store).
Proof.
  rewrite (proj2 (zero_coordinate_rejected empty_upstream 0 "fresh" one_user_store None
                    {| WeatherRequestSerializer.city_id := None;
                       WeatherRequestSerializer.latitude := Some (S754_zero false);
                       WeatherRequestSerializer.longitude :=
                         Some (S754_finite false 4604480259023595 (-55)) |}
                    eq_refl (or_introl (ex_intro _ false eq_refl)))).
  reflexivity.
Defined.

(** ** City search: which queries are refused *)

Lemma rstrip_idempotent (s : string) : rstrip (rstrip s) = rstrip s.
Proof.
  induction s as [|c s IH]; simpl; [reflexivity|].
  destruct (rstrip s) as [|d r] eqn:Hr.
  - destruct (is_space c) eqn:Hc; simpl; [reflexivity|]. now rewrite Hc.
  - change (rstrip (String c (String d r)))
      with (match rstrip (String d r) with
            | EmptyString => if is_space c then EmptyString else String c EmptyString
            | String a b => String c (String a b)
            end).
    now rewrite IH.
Qed.

Lemma lstrip_head (s : string) :
  lstrip s = EmptyString \/ exists c t, lstrip s = String c t /\ is_space c = false.
Proof.
  induction s as [|c s IH]; simpl; [now left|].
  destruct (is_space c) eqn:Hc; [exact IH|]. right. now exists c, s.
Qed.

Lemma lstrip_rstrip_head (c : ascii) (t : string) :
  is_space c = false -> lstrip (rstrip (String c t)) = rstrip (String c t).
Proof.
  intros Hc. simpl. destruct (rstrip t); rewrite ?Hc; simpl; now rewrite Hc.
Qed.

Lemma strip_idempotent (s : string) : strip (strip s) = strip s.
Proof.
  unfold strip. destruct (lstrip_head s) as [->|[c [t [-> Hc]]]]; [reflexivity|].
  rewrite lstrip_rstrip_head by exact Hc. apply rstrip_idempotent.
Qed.

(** C5, as stated, fails: a query of 201 letters has at least 2
    characters after trimming, and is refused with status 400 without
    any outbound request, because the field allows 200 characters. *)
Lemma long_query_rejected :
  (2 <= String.length (strip long_query))%nat
  /\ CitySearchView.post empty_upstream (Some long_query)
     = ({| status := 400;
           body := SerializerErrors
                     [("query", ["Ensure this field has no more than 200 characters."])] |},
        []).
Proof. split; [vm_compute; lia | reflexivity]. Qed.

(** C5, amended. A query string is refused with status 400 and without
    an outbound request if and only if, after trimming, it has fewer
    than 2 characters, or more than 200 characters, or holds a NUL
    character; every other query string leads to exactly one outbound
    request, the geocoding request for the trimmed query. *)
Theorem city_search_rejected_iff (upstream : Upstream) (query : string) :
  ((exists errors,
       CitySearchView.post upstream (Some query)
       = ({| status := 400; body := SerializerErrors errors |}, []))
   <-> ((String.length (strip query) < 2)%nat
        \/ (200 < String.length (strip query))%nat
        \/ has_null (strip query) = true))
  /\ (~ ((String.length (strip query) < 2)%nat
         \/ (200 < String.length (strip query))%nat
         \/ has_null (strip query) = true) ->
      snd (CitySearchView.post upstream (Some query))
      = [Geocoding (strip query) 10 "en" "json"]).
Proof.
  assert (Hgo : ~ ((String.length (strip query) < 2)%nat
                   \/ (200 < String.length (strip query))%nat
                   \/ has_null (strip query) = true) ->
                snd (CitySearchView.post upstream (Some query))
                = [Geocoding (strip query) 10 "en" "json"]).
  { intros Hok.
    unfold CitySearchView.post, CitySearchSerializer.is_valid,
      CitySearchSerializer.query_field, CitySearchSerializer.validate_query.
    destruct (String.eqb_spec (strip query) EmptyString) as [He|_].
    { exfalso. apply Hok. left. rewrite He. simpl. lia. }
    destruct (Nat.ltb_spec 200 (String.length (strip query))) as [Hl|_].
    { exfalso. apply Hok. right. now left. }
    destruct (has_null (strip query)) eqn:Hn.
    { exfalso. apply Hok. right. now right. }
    simpl. rewrite strip_idempotent.
    destruct (Nat.ltb_spec (String.length (strip query)) 2) as [Hs|_].
    { exfalso. apply Hok. now left. }
    unfold WeatherService.search_cities, WeatherService.geocoding_request.
    match goal with
    | |- context [match ?r with Ok _ => _ | Raise _ => _ end] => destruct r
    end; reflexivity. }
  split; [|exact Hgo]. split.
  - intros [errors Hpost].
    destruct (Nat.ltb_spec (String.length (strip query)) 2) as [Hs|Hs]; [now left|].
    destruct (Nat.ltb_spec 200 (String.length (strip query))) as [Hl|Hl]; [right; now left|].
    destruct (has_null (strip query)) eqn:Hn; [right; now right|].
    exfalso. rewrite Hpost in Hgo. simpl in Hgo.
    assert (Hnil : @nil Request = [Geocoding (strip query) 10 "en" "json"]).
    { apply Hgo. intros [H|[H|H]]; [lia|lia|discriminate]. }
    discriminate.
  - intros Hbad.
    unfold CitySearchView.post, CitySearchSerializer.is_valid,
      CitySearchSerializer.query_field, CitySearchSerializer.validate_query.
    destruct (String.eqb_spec (strip query) EmptyString) as [He|_]; [eauto|].
    destruct (Nat.ltb_spec 200 (String.length (strip query))) as [Hl|Hl];
      [destruct (has_null (strip query)); simpl; eauto|].
    destruct (has_null (strip query)) eqn:Hn; simpl; [eauto|].
    rewrite strip_idempotent.
    destruct (Nat.ltb_spec (String.length (strip query)) 2) as [Hs|Hs]; [eauto|].
    exfalso. destruct Hbad as [H|[H|H]]; [lia|lia|discriminate].
Qed.

Lemma city_search_rejected_iff_witness :
  snd (CitySearchView.post empty_upstream (Some " London "))
  = [Geocoding "London" 10 "en" "json"].
Proof.
  apply (proj2 (city_search_rejected_iff empty_upstream " London ")).
  simpl. intros [H|[H|H]]; [lia | lia | discriminate H].
Defined.

(** ** Lookups in a table whose key is unique *)

Lemma float_eqb_eq (x y : float) : float_eqb x y = true <-> float_key x = float_key y.
Proof.
  split.
  - destruct x, y; simpl; try discriminate; try reflexivity.
    + intros H. apply Bool.eqb_prop in H. now subst.
    + intros H. apply andb_prop in H. destruct H as [H He].
      apply andb_prop in H. destruct H as [Hs Hm].
      apply Bool.eqb_prop in Hs. apply Pos.eqb_eq in Hm. apply Z.eqb_eq in He.
      now subst.
  - destruct x, y; simpl; try discriminate; try reflexivity.
    + intros H. inversion H. apply Bool.eqb_reflx.
    + intros H. inversion H. now rewrite Bool.eqb_reflx, Pos.eqb_refl, Z.eqb_refl.
Qed.

Lemma filter_none (A : Type) (p : A -> bool) (rows : list A) :
  filter p rows = [] <-> forall r, In r rows -> p r = false.
Proof.
  induction rows as [|r rows IH]; simpl.
  - split; [intros _ r []|reflexivity].
  - destruct (p r) eqn:Hr; split.
    + discriminate.
    + intros H. specialize (H r (or_introl eq_refl)). congruence.
    + intros H x [<-|Hx]; [exact Hr|]. now apply IH.
    + intros H. apply IH. intros x Hx. apply H. now right.
Qed.

Section UniqueKey.

Variables (A K : Type) (key : A -> K) (p : A -> bool) (k : K).
Hypothesis p_key : forall r, p r = true <-> key r = k.

Lemma filter_unique_key (rows : list A) :
  NoDup (map key rows) ->
  filter p rows = [] \/ exists r, filter p rows = [r].
Proof.
  induction rows as [|r rows IH]; simpl; intros Hnd; [now left|].
  inversion Hnd as [|? ? Hnotin Hnd']; subst.
  destruct (p r) eqn:Hr.
  - right. exists r. f_equal. apply filter_none. intros x Hx.
    destruct (p x) eqn:Hpx; [|reflexivity].
    exfalso. apply Hnotin. apply p_key in Hr. apply p_key in Hpx.
    rewrite Hr, <- Hpx. now apply in_map.
  - now apply IH.
Qed.

Lemma objects_get_unique_key (rows : list A) :
  NoDup (map key rows) ->
  (filter p rows = [] /\ objects_get p rows = Raise DoesNotExist)
  \/ exists r, filter p rows = [r] /\ objects_get p rows = Ok r.
Proof.
  intros Hnd. unfold objects_get.
  destruct (filter_unique_key rows Hnd) as [H|[r H]]; rewrite H.
  - now left.
  - right. now exists r.
Qed.

End UniqueKey.

Lemma city_matches_key (city_data : UserService.CityData) (c : City) :
  UserService.city_matches city_data c = true
  <-> city_key c = lookup_key city_data.
Proof.
  unfold UserService.city_matches, city_key, lookup_key.
  rewrite !andb_true_iff, !String.eqb_eq, !float_eqb_eq.
  split.
  - intros [[[-> ->] ->] ->]. reflexivity.
  - intros H. inversion H. auto.
Qed.

Lemma history_matches_key (user : User) (city : City) (h : SearchHistory) :
  UserService.history_matches user city h = true
  <-> history_key h = (user_id user, city_id city).
Proof.
  unfold UserService.history_matches, history_key.
  rewrite andb_true_iff, !Z.eqb_eq.
  split.
  - intros [-> ->]. reflexivity.
  - intros H. inversion H. auto.
Qed.

Lemma filter_In_singleton (A : Type) (p : A -> bool) (rows : list A) (r : A) :
  filter p rows = [r] -> In r rows /\ p r = true.
Proof.
  intros H. apply filter_In. rewrite H. now left.
Qed.

(** ** The session's user *)

Lemma get_or_create_user_ok (now : timestamp) (st : Store) (session_key : string) :
  NoDup (map user_session_key (users st)) ->
  exists user st',
    UserService.get_or_create_user now st session_key = (Ok user, st')
    /\ cities st' = cities st
    /\ searches st' = searches st
    /\ user_session_key user = session_key
    /\ In user (users st').
Proof.
  intros Hnd. unfold UserService.get_or_create_user, objects_get_or_create.
  destruct (objects_get_unique_key User string user_session_key
              (fun u => String.eqb (user_session_key u) session_key) session_key
              (fun u => String.eqb_eq (user_session_key u) session_key)
              (users st) Hnd) as [[_ ->]|[u [Hf ->]]].
  - eexists. eexists. split; [reflexivity|]. simpl.
    repeat split. apply in_or_app. right. now left.
  - apply filter_In_singleton in Hf. destruct Hf as [Hin Hkey].
    apply String.eqb_eq in Hkey.
    exists u, {| users := users st; cities := cities st; searches := searches st |}.
    repeat split; assumption.
Qed.

Lemma one_user_store_wf : wf_store one_user_store.
Proof.
  constructor; simpl; try (intros ? []); repeat constructor; intros [].
Qed.

(** ** Weather for a city id that is not in the database *)

(** C8. The view departs from the claim at the city id 0: it is the id
    of no City of the empty store (and of no City ever, the keys being
    given from 1 on), yet a request that carries it together with
    coordinates is not answered with 404 as every other unknown id is
    ([City.DoesNotExist] is caught for that): [validate] and [post]
    test the presence of the id by its truthiness, so the request is
    served from the coordinates, the forecast request is made and the
    answer is 200. *)
Lemma zero_city_id_reaches_forecast :
  let data := {| WeatherRequestSerializer.city_id := Some 0;
                 WeatherRequestSerializer.latitude := Some (UserService.cd_latitude london);
                 WeatherRequestSerializer.longitude := Some (UserService.cd_longitude london) |} in
  let outcome := WeatherView.post empty_upstream 0 "fresh" empty_store None data in
  (forall c, In c (cities empty_store) -> city_id c <> 0)
  /\ snd outcome
     = [WeatherService.forecast_request (UserService.cd_latitude london)
          (UserService.cd_longitude london)]
  /\ exists b, fst (fst outcome) = Ok {| status := 200; body := b |}.
Proof.
  split; [intros c []|]. split; [reflexivity|]. eexists. reflexivity.
Qed.

(** The failure of the provider is answered with 500. *)
Lemma upstream_failure_is_500 (upstream : Upstream) (now : timestamp) (st : Store)
    (user : User) (latitude longitude : float) (city : option City) (msg : string) :
  upstream (WeatherService.forecast_request latitude longitude) = HttpError msg ->
  fst (fst (WeatherView.fetch_and_save upstream now st user latitude longitude city))
  = {| status := 500;
       body := ErrorOf (Exception ("Failed to fetch weather data: " ++ msg)) |}.
Proof.
  intros Hup. unfold WeatherView.fetch_and_save, WeatherService.get_weather_data.
  now rewrite Hup.
Qed.

(** ** The search ledger: rows and their keys *)

Lemma fold_max_bound (ids : list Z) (x : Z) :
  In x ids -> x <= fold_right Z.max 0 ids.
Proof.
  induction ids as [|y ids IH]; simpl; [intros []|].
  intros [->|Hin]; [lia|]. specialize (IH Hin). lia.
Qed.

Lemma next_id_fresh (ids : list Z) : ~ In (next_id ids) ids.
Proof.
  intros Hin. apply fold_max_bound in Hin. unfold next_id in Hin. lia.
Qed.

Lemma NoDup_snoc (A : Type) (l : list A) (a : A) :
  NoDup l -> ~ In a l -> NoDup (l ++ [a]).
Proof.
  induction l as [|x l IH]; simpl; intros Hnd Hnot.
  - constructor; [intros []|constructor].
  - inversion Hnd as [|? ? Hx Hl]; subst. constructor.
    + intros Hin. apply in_app_or in Hin. destruct Hin as [Hin|[->|[]]].
      * now apply Hx.
      * apply Hnot. now left.
    + apply IH; [exact Hl|]. intros Hin. apply Hnot. now right.
Qed.

Lemma map_ext_on (A B : Type) (f g : A -> B) (l : list A) :
  (forall x, In x l -> f x = g x) -> map f l = map g l.
Proof.
  induction l as [|x l IH]; simpl; intros H; [reflexivity|].
  rewrite (H x (or_introl eq_refl)). f_equal. apply IH. intros; apply H. now right.
Qed.

Lemma filter_map_on (A : Type) (p : A -> bool) (g : A -> A) (l : list A) :
  (forall x, In x l -> p (g x) = p x) ->
  filter p (map g l) = map g (filter p l).
Proof.
  induction l as [|x l IH]; simpl; intros H; [reflexivity|].
  rewrite (H x (or_introl eq_refl)).
  destruct (p x); simpl; rewrite IH; auto.
Qed.

Lemma NoDup_map_injective_on (A K : Type) (key : A -> K) (l : list A) (x y : A) :
  NoDup (map key l) -> In x l -> In y l -> key x = key y -> x = y.
Proof.
  induction l as [|a l IH]; simpl; intros Hnd Hx Hy Hk; [contradiction|].
  inversion Hnd as [|? ? Ha Hl]; subst.
  destruct Hx as [->|Hx], Hy as [->|Hy].
  - reflexivity.
  - exfalso. apply Ha. rewrite Hk. now apply in_map.
  - exfalso. apply Ha. rewrite <- Hk. now apply in_map.
  - now apply IH.
Qed.

(** Saving a changed copy of a stored row: the row is replaced in
    place, and nothing else moves. *)
Section SaveRow.

Variables (rows : list SearchHistory) (h0 h' : SearchHistory).
Hypothesis ids_unique : NoDup (map sh_id rows).
Hypothesis stored : In h0 rows.
Hypothesis same_id : sh_id h' = sh_id h0.
Hypothesis same_key : history_key h' = history_key h0.

Lemma save_row_pointwise (r : SearchHistory) :
  In r rows ->
  (if sh_id r =? sh_id h' then h' else r) = (if sh_id r =? sh_id h0 then h' else r)
  /\ (sh_id r = sh_id h0 -> r = h0).
Proof.
  intros Hr. rewrite same_id. split; [reflexivity|].
  intros Hid. now apply (NoDup_map_injective_on _ _ sh_id rows).
Qed.

Lemma save_row_ids : map sh_id (UserService.save_row h' rows) = map sh_id rows.
Proof.
  unfold UserService.save_row. rewrite map_map. apply map_ext_on.
  intros r _. destruct (Z.eqb_spec (sh_id r) (sh_id h')) as [E|_]; congruence.
Qed.

Lemma save_row_keys : map history_key (UserService.save_row h' rows) = map history_key rows.
Proof.
  unfold UserService.save_row. rewrite map_map. apply map_ext_on.
  intros r Hr. destruct (Z.eqb_spec (sh_id r) (sh_id h')) as [E|_]; [|reflexivity].
  rewrite same_id in E. apply (save_row_pointwise r Hr) in E. now subst.
Qed.

Lemma save_row_filter (p : SearchHistory -> bool) :
  p h' = p h0 ->
  filter p rows = [h0] ->
  filter p (UserService.save_row h' rows) = [h'].
Proof.
  intros Hp Hf. unfold UserService.save_row. rewrite filter_map_on.
  - rewrite Hf. simpl. now rewrite same_id, Z.eqb_refl.
  - intros r Hr. destruct (Z.eqb_spec (sh_id r) (sh_id h')) as [E|_]; [|reflexivity].
    rewrite same_id in E. apply (save_row_pointwise r Hr) in E. now subst.
Qed.

Lemma save_row_In (r : SearchHistory) :
  In r (UserService.save_row h' rows) -> exists r0, In r0 rows /\ history_key r = history_key r0.
Proof.
  unfold UserService.save_row. intros Hin. apply in_map_iff in Hin.
  destruct Hin as [r0 [Hr0 Hin]]. exists r0. split; [exact Hin|].
  destruct (Z.eqb_spec (sh_id r0) (sh_id h')) as [E|_]; [|now subst].
  rewrite same_id in E. apply (save_row_pointwise r0 Hin) in E. subst. exact same_key.
Qed.

End SaveRow.

Lemma key_absent (A K : Type) (key : A -> K) (p : A -> bool) (k : K) (rows : list A) :
  (forall r, p r = true <-> key r = k) ->
  filter p rows = [] -> ~ In k (map key rows).
Proof.
  intros Hp Hf Hin. apply in_map_iff in Hin. destruct Hin as [r [Hk Hr]].
  apply Hp in Hk. rewrite filter_none in Hf. specialize (Hf r Hr). congruence.
Qed.

(** The constraints survive the three writes of [save_search]. *)
Lemma wf_add_city (st : Store) (c : City) :
  wf_store st ->
  ~ In (city_id c) (map city_id (cities st)) ->
  ~ In (city_key c) (map city_key (cities st)) ->
  wf_store {| users := users st; cities := cities st ++ [c]; searches := searches st |}.
Proof.
  intros [H1 H2 H3 H4 H5 H6 H7 H8] Hid Hkey.
  constructor; simpl; try assumption.
  - rewrite map_app. now apply NoDup_snoc.
  - rewrite map_app. now apply NoDup_snoc.
  - intros h Hh. rewrite map_app. apply in_or_app. left. now apply H8.
Qed.

Lemma wf_add_history (st : Store) (h : SearchHistory) :
  wf_store st ->
  ~ In (sh_id h) (map sh_id (searches st)) ->
  ~ In (history_key h) (map history_key (searches st)) ->
  In (sh_user h) (map user_id (users st)) ->
  In (sh_city h) (map city_id (cities st)) ->
  wf_store {| users := users st; cities := cities st; searches := searches st ++ [h] |}.
Proof.
  intros [H1 H2 H3 H4 H5 H6 H7 H8] Hid Hkey Hu Hc.
  constructor; simpl; try assumption.
  - rewrite map_app. now apply NoDup_snoc.
  - rewrite map_app. now apply NoDup_snoc.
  - intros r Hr. apply in_app_or in Hr. destruct Hr as [Hr|[<-|[]]]; auto.
  - intros r Hr. apply in_app_or in Hr. destruct Hr as [Hr|[<-|[]]]; auto.
Qed.

Lemma wf_save_row (st : Store) (h0 h' : SearchHistory) :
  wf_store st ->
  In h0 (searches st) ->
  sh_id h' = sh_id h0 ->
  history_key h' = history_key h0 ->
  wf_store {| users := users st; cities := cities st;
              searches := UserService.save_row h' (searches st) |}.
Proof.
  intros [H1 H2 H3 H4 H5 H6 H7 H8] Hin Hid Hkey.
  constructor; simpl; try assumption.
  - now rewrite (save_row_ids (searches st) h').
  - now rewrite (save_row_keys (searches st) h0 h' H3 Hin Hid Hkey).
  - intros r Hr.
    destruct (save_row_In (searches st) h0 h' H3 Hin Hid Hkey r Hr) as [r0 [Hr0 Hk]].
    unfold history_key in Hk. inversion Hk as [[Hu Hc]]. rewrite Hu. now apply H7.
  - intros r Hr.
    destruct (save_row_In (searches st) h0 h' H3 Hin Hid Hkey r Hr) as [r0 [Hr0 Hk]].
    unfold history_key in Hk. inversion Hk as [[Hu Hc]]. rewrite Hc. now apply H8.
Qed.

(** One call of [save_search] on a store that meets the constraints,
    for a user of the store: the call returns the entry [h] of the pair
    (user, city), where [c] is the one City with the attributes; either
    the entry existed and its count went up by one, or the user had no
    entry for such a city and the count is 1. *)
Lemma save_search_step
    (now : timestamp) (st : Store) (user : User) (city_data : UserService.CityData) :
  wf_store st ->
  In user (users st) ->
  exists c h st',
    UserService.save_search now st user city_data = (Ok h, st')
    /\ wf_store st'
    /\ users st' = users st
    /\ filter (UserService.city_matches city_data) (cities st') = [c]
    /\ filter (UserService.history_matches user c) (searches st') = [h]
    /\ ((exists h0,
           In c (cities st)
           /\ filter (UserService.history_matches user c) (searches st) = [h0]
           /\ sh_search_count h = sh_search_count h0 + 1)
        \/ ((forall c0 h0,
               In c0 (cities st) -> UserService.city_matches city_data c0 = true ->
               In h0 (searches st) -> UserService.history_matches user c0 h0 = false)
            /\ sh_search_count h = 1)).
Proof.
  intros Hwf Huser.
  assert (Huid : In (user_id user) (map user_id (users st))) by now apply in_map.
  unfold UserService.save_search.
  set (fresh_city := {| city_id := next_id (map city_id (cities st));
                        city_name := UserService.cd_name city_data;
                        city_country := UserService.cd_country city_data;
                        city_admin1 := UserService.admin1_default city_data;
                        city_latitude := UserService.cd_latitude city_data;
                        city_longitude := UserService.cd_longitude city_data |}).
  unfold objects_get_or_create at 1.
  destruct (objects_get_unique_key City _ city_key
              (UserService.city_matches city_data) _
              (city_matches_key city_data) (cities st) (wf_city_keys st Hwf))
    as [[Hnone ->]|[c [Hone ->]]].
  - (* the city is inserted; no entry can refer to it yet *)
    assert (Hfresh : ~ In (city_id fresh_city) (map city_id (cities st)))
      by apply next_id_fresh.
    assert (Hnoh : filter (UserService.history_matches user fresh_city) (searches st) = []).
    { apply filter_none. intros h Hh. unfold UserService.history_matches.
      destruct (Z.eqb_spec (sh_city h) (city_id fresh_city)) as [E|_];
        [|now rewrite andb_false_r].
      exfalso. apply Hfresh. rewrite <- E. now apply (wf_history_city st Hwf). }
    unfold objects_get_or_create, objects_get. rewrite Hnoh. simpl negb. cbv iota.
    set (fresh_history := {| sh_id := next_id (map sh_id (searches st));
                             sh_user := user_id user;
                             sh_city := city_id fresh_city;
                             sh_search_count := 1;
                             sh_last_searched := now;
                             sh_created_at := now |}).
    exists fresh_city, fresh_history. eexists. split; [reflexivity|].
    assert (Hmatch : UserService.city_matches city_data fresh_city = true)
      by now apply city_matches_key.
    assert (Hwf1 : wf_store {| users := users st; cities := cities st ++ [fresh_city];
                               searches := searches st |}).
    { apply wf_add_city; [exact Hwf|exact Hfresh|].
      now apply (key_absent _ _ city_key _ _ _ (city_matches_key city_data)). }
    split; [|split; [reflexivity|split; [|split]]].
    + apply (wf_add_history _ fresh_history Hwf1); simpl.
      * apply next_id_fresh.
      * now apply (key_absent _ _ history_key _ _ _ (history_matches_key user fresh_city)).
      * exact Huid.
      * rewrite map_app. apply in_or_app. right. now left.
    + simpl. rewrite filter_app, Hnone. simpl. now rewrite Hmatch.
    + simpl. rewrite filter_app, Hnoh. simpl.
      assert (Hm : UserService.history_matches user fresh_city fresh_history = true)
        by now apply history_matches_key.
      now rewrite Hm.
    + right. split; [|reflexivity].
      intros c0 h0 Hc0 Hm0 _. rewrite filter_none in Hnone.
      specialize (Hnone c0 Hc0). congruence.
  - (* the city is in the table *)
    destruct (filter_In_singleton _ _ _ _ Hone) as [Hcin Hcm].
    assert (Hcid : In (city_id c) (map city_id (cities st))) by now apply in_map.
    destruct (objects_get_unique_key SearchHistory _ history_key
                (UserService.history_matches user c) _
                (history_matches_key user c) (searches st) (wf_history_keys st Hwf))
      as [[Hnoh Hget]|[h0 [Hh0 Hget]]];
      unfold objects_get_or_create; rewrite Hget; simpl negb; cbv iota.
    + set (fresh_history := {| sh_id := next_id (map sh_id (searches st));
                               sh_user := user_id user;
                               sh_city := city_id c;
                               sh_search_count := 1;
                               sh_last_searched := now;
                               sh_created_at := now |}).
      exists c, fresh_history. eexists. split; [reflexivity|].
      split; [|split; [reflexivity|split; [exact Hone|split]]].
      * apply (wf_add_history st fresh_history Hwf); simpl.
        -- apply next_id_fresh.
        -- now apply (key_absent _ _ history_key _ _ _ (history_matches_key user c)).
        -- exact Huid.
        -- exact Hcid.
      * simpl. rewrite filter_app, Hnoh. simpl.
        assert (Hm : UserService.history_matches user c fresh_history = true)
          by now apply history_matches_key.
        now rewrite Hm.
      * right. split; [|reflexivity].
        intros c0 h1 Hc0 Hm0 Hh1.
        assert (Hc0' : In c0 (filter (UserService.city_matches city_data) (cities st)))
          by (apply filter_In; now split).
        rewrite Hone in Hc0'. destruct Hc0' as [<-|[]].
        rewrite filter_none in Hnoh. now apply Hnoh.
    + destruct (filter_In_singleton _ _ _ _ Hh0) as [Hh0in Hh0m].
      set (updated := {| sh_id := sh_id h0;
                         sh_user := sh_user h0;
                         sh_city := sh_city h0;
                         sh_search_count := sh_search_count h0 + 1;
                         sh_last_searched := now;
                         sh_created_at := sh_created_at h0 |}).
      exists c, updated. eexists. split; [reflexivity|].
      split; [|split; [reflexivity|split; [exact Hone|split]]].
      * now apply (wf_save_row st h0 updated Hwf).
      * simpl. apply (save_row_filter (searches st) h0 updated); auto.
        exact (wf_history_ids st Hwf).
      * left. exists h0. repeat split; assumption.
Qed.

(** The storage constraints are an invariant: they hold of the empty
    database and survive [get_or_create_user] and [save_search]. *)
Lemma empty_store_wf : wf_store empty_store.
Proof. constructor; simpl; try constructor; intros ? []. Qed.

Lemma get_or_create_user_wf (now : timestamp) (st : Store) (session_key : string) :
  wf_store st -> wf_store (snd (UserService.get_or_create_user now st session_key)).
Proof.
  intros Hwf. unfold UserService.get_or_create_user, objects_get_or_create.
  destruct (objects_get_unique_key User string user_session_key
              (fun u => String.eqb (user_session_key u) session_key) session_key
              (fun u => String.eqb_eq (user_session_key u) session_key)
              (users st) (wf_sessions st Hwf)) as [[Hnone ->]|[u [_ ->]]]; simpl.
  - destruct Hwf as [H1 H2 H3 H4 H5 H6 H7 H8]. constructor; simpl; try assumption.
    + rewrite map_app. apply NoDup_snoc; [exact H1|apply next_id_fresh].
    + rewrite map_app. apply NoDup_snoc; [exact H4|].
      now apply (key_absent _ _ user_session_key _ _ _
                   (fun u => String.eqb_eq (user_session_key u) session_key)).
    + intros h Hh. rewrite map_app. apply in_or_app. left. now apply H7.
  - now destruct st.
Qed.

Lemma save_search_wf (now : timestamp) (st : Store) (user : User)
    (city_data : UserService.CityData) :
  wf_store st -> In user (users st) ->
  wf_store (snd (UserService.save_search now st user city_data)).
Proof.
  intros Hwf Huser.
  destruct (save_search_step now st user city_data Hwf Huser)
    as [c [h [st' [-> [Hwf' _]]]]].
  exact Hwf'.
Qed.

(** A repeated search increments the entry that the first search left. *)
Lemma save_search_again
    (now1 now2 : timestamp) (st : Store) (user : User)
    (city_data : UserService.CityData) :
  wf_store st ->
  In user (users st) ->
  exists c h1 h2 st1 st2,
    UserService.save_search now1 st user city_data = (Ok h1, st1)
    /\ UserService.save_search now2 st1 user city_data = (Ok h2, st2)
    /\ wf_store st2
    /\ filter (UserService.city_matches city_data) (cities st2) = [c]
    /\ filter (UserService.history_matches user c) (searches st2) = [h2]
    /\ sh_search_count h2 = sh_search_count h1 + 1
    /\ ((exists h0,
           In c (cities st)
           /\ filter (UserService.history_matches user c) (searches st) = [h0]
           /\ sh_search_count h1 = sh_search_count h0 + 1)
        \/ sh_search_count h1 = 1).
Proof.
  intros Hwf Huser.
  destruct (save_search_step now1 st user city_data Hwf Huser)
    as [c [h1 [st1 [Hrun1 [Hwf1 [Hu1 [Hc1 [Hh1 Hfirst]]]]]]]].
  assert (Huser1 : In user (users st1)) by now rewrite Hu1.
  destruct (save_search_step now2 st1 user city_data Hwf1 Huser1)
    as [c' [h2 [st2 [Hrun2 [Hwf2 [_ [Hc2 [Hh2 Hcount]]]]]]]].
  destruct (filter_In_singleton _ _ _ _ Hc1) as [Hcin Hcm].
  destruct (filter_In_singleton _ _ _ _ Hh1) as [Hh1in Hh1m].
  assert (Hsame : c' = c).
  { destruct Hcount as [[h0 [Hc'in _]]|[Hnone _]].
    - destruct (filter_In_singleton _ _ _ _ Hc2) as [_ Hc'm].
      assert (Hin : In c' (filter (UserService.city_matches city_data) (cities st1)))
        by (apply filter_In; now split).
      rewrite Hc1 in Hin. now destruct Hin as [->|[]].
    - specialize (Hnone c h1 Hcin Hcm Hh1in). congruence. }
  subst c'.
  exists c, h1, h2, st1, st2.
  split; [exact Hrun1|]. split; [exact Hrun2|]. split; [exact Hwf2|].
  split; [exact Hc2|]. split; [exact Hh2|]. split.
  - destruct Hcount as [[h0 [_ [Hh0 Hcount]]]|[Hnone _]].
    + rewrite Hh1 in Hh0. inversion Hh0; subst. exact Hcount.
    + specialize (Hnone c h1 Hcin Hcm Hh1in). congruence.
  - destruct Hfirst as [Hold|[_ Hone]]; [now left | now right].
Qed.

(** The lookup compares coordinates by value: a search at the
    latitude -0.0 finds the City stored at 0.0, so no City is inserted
    and the entry of the pair is counted up. *)
Lemma save_search_signed_zero :
  wf_store equator_store
  /\ cities (snd (UserService.save_search 2 equator_store test_user equator_south))
     = cities equator_store
  /\ exists h,
       UserService.save_search 2 equator_store test_user equator_south
       = (Ok h, {| users := users equator_store;
                   cities := cities equator_store;
                   searches := [h] |})
       /\ sh_search_count h = 2.
Proof.
  split; [|split; [reflexivity|eexists; split; reflexivity]].
  constructor; simpl; try (repeat constructor; simpl; intuition discriminate).
  - intros h [<-|[]]. simpl. now left.
  - intros h [<-|[]]. simpl. now left.
Qed.

(** C1. On a store that meets the storage constraints, for a user of
    the store who has no entry yet for a city with the given attributes,
    two calls of [save_search] with the same attributes both succeed and
    leave exactly one City with the tuple (name, country, latitude,
    longitude), exactly one SearchHistory entry for the pair (user,
    city), and that entry, which the second call returns, has
    search_count 2. (The tuple is compared as the lookup compares it,
    by value: see [float_eqb].) *)
Theorem save_search_twice
    (now1 now2 : timestamp) (st : Store) (user : User)
    (city_data : UserService.CityData) :
  wf_store st ->
  In user (users st) ->
  (forall c0 h0,
     In c0 (cities st) -> UserService.city_matches city_data c0 = true ->
     In h0 (searches st) -> UserService.history_matches user c0 h0 = false) ->
  exists c h1 h2 st1 st2,
    UserService.save_search now1 st user city_data = (Ok h1, st1)
    /\ UserService.save_search now2 st1 user city_data = (Ok h2, st2)
    /\ filter (UserService.city_matches city_data) (cities st2) = [c]
    /\ filter (UserService.history_matches user c) (searches st2) = [h2]
    /\ sh_search_count h2 = 2.
Proof.
  intros Hwf Huser Hnew.
  destruct (save_search_again now1 now2 st user city_data Hwf Huser)
    as [c [h1 [h2 [st1 [st2 [Hrun1 [Hrun2 [_ [Hc2 [Hh2 [Hcount Hfirst]]]]]]]]]]].
  exists c, h1, h2, st1, st2. repeat split; try assumption.
  destruct Hfirst as [[h0 [Hcin [Hh0 _]]]|Hone]; [exfalso|lia].
  destruct (filter_In_singleton _ _ _ _ Hh0) as [Hh0in Hh0m].
  destruct (filter_In_singleton _ _ _ _ Hc2) as [_ Hcm].
  specialize (Hnew c h0 Hcin Hcm Hh0in). congruence.
Qed.

Lemma save_search_twice_witness :
  exists c h st2,
    snd (UserService.save_search 2
           (snd (UserService.save_search 1 one_user_store test_user london))
           test_user london) = st2
    /\ filter (UserService.city_matches london) (cities st2) = [c]
    /\ filter (UserService.history_matches test_user c) (searches st2) = [h]
    /\ sh_search_count h = 2.
Proof.
  destruct (save_search_twice 1 2 one_user_store test_user london one_user_store_wf)
    as [c [h1 [h2 [st1 [st2 [H1 [H2 [Hc [Hh Hn]]]]]]]]].
  - simpl. now left.
  - intros c0 h0 [].
  - exists c, h2, st2. rewrite H1. simpl. rewrite H2. simpl. repeat split; assumption.
Defined.

(** ** Popular cities *)

Import PopularCitiesView.

Lemma in_joined (st : Store) (h : SearchHistory) (c : City) :
  In (h, c) (joined st)
  <-> In h (searches st) /\ In c (cities st) /\ city_id c = sh_city h.
Proof.
  unfold joined. rewrite in_flat_map. split.
  - intros [h' [Hh' Hin]]. apply in_map_iff in Hin. destruct Hin as [c' [Heq Hc']].
    inversion Heq; subst. apply filter_In in Hc'. destruct Hc' as [Hc' E].
    apply Z.eqb_eq in E. auto.
  - intros [Hh [Hc E]]. exists h. split; [exact Hh|].
    apply in_map_iff. exists c. split; [reflexivity|].
    apply filter_In. split; [exact Hc|]. now apply Z.eqb_eq.
Qed.

(** Each entry is joined with exactly one city. *)
Lemma city_of_entry (st : Store) (h : SearchHistory) :
  wf_store st -> In h (searches st) ->
  exists c, filter (fun c => city_id c =? sh_city h) (cities st) = [c].
Proof.
  intros Hwf Hh.
  destruct (filter_unique_key City Z city_id (fun c => city_id c =? sh_city h)
              (sh_city h) (fun c => Z.eqb_eq (city_id c) (sh_city h))
              (cities st) (wf_city_ids st Hwf)) as [Hnone|Hone]; [|exact Hone].
  exfalso. pose proof (wf_history_city st Hwf h Hh) as Hin.
  apply in_map_iff in Hin. destruct Hin as [c [E Hc]].
  rewrite filter_none in Hnone. specialize (Hnone c Hc).
  apply Z.eqb_neq in Hnone. contradiction.
Qed.

Lemma joined_fst (st : Store) : wf_store st -> map fst (joined st) = searches st.
Proof.
  intros Hwf. unfold joined.
  assert (H : forall hs, (forall h, In h hs -> In h (searches st)) ->
            map fst (flat_map
                       (fun h => map (fun c => (h, c))
                                   (filter (fun c => city_id c =? sh_city h) (cities st)))
                       hs) = hs).
  { induction hs as [|h hs IH]; simpl; intros Hsub; [reflexivity|].
    destruct (city_of_entry st h Hwf (Hsub h (or_introl eq_refl))) as [c ->].
    simpl. f_equal. apply IH. intros; apply Hsub; now right. }
  apply H. auto.
Qed.

Lemma in_group_key (k : group_key) (r : SearchHistory * City) :
  in_group k r = true <-> key_of r = k.
Proof.
  unfold in_group. destruct (key_eq_dec (key_of r) k); split; congruence.
Qed.

(** In the join, the city id determines the other two grouping columns. *)
Lemma same_city_same_key (st : Store) (r1 r2 : SearchHistory * City) :
  wf_store st -> In r1 (joined st) -> In r2 (joined st) ->
  sh_city (fst r1) = sh_city (fst r2) -> key_of r1 = key_of r2.
Proof.
  intros Hwf H1 H2 E. destruct r1 as [h1 c1], r2 as [h2 c2]. simpl in E.
  apply in_joined in H1. destruct H1 as [_ [Hc1 E1]].
  apply in_joined in H2. destruct H2 as [_ [Hc2 E2]].
  assert (c1 = c2).
  { apply (NoDup_map_injective_on _ _ city_id (cities st)); auto.
    - exact (wf_city_ids st Hwf).
    - congruence. }
  subst c2. unfold key_of. simpl. now rewrite E.
Qed.

(** The members of a group are the entries of its city. *)
Lemma group_members (st : Store) (r0 : SearchHistory * City) :
  wf_store st -> In r0 (joined st) ->
  map fst (filter (in_group (key_of r0)) (joined st)) = entries_of st (sh_city (fst r0)).
Proof.
  intros Hwf Hr0. unfold entries_of. rewrite <- (joined_fst st Hwf).
  rewrite filter_map_swap. f_equal. apply filter_ext_in.
  intros r Hr.
  destruct (Z.eqb_spec (sh_city (fst r)) (sh_city (fst r0))) as [E|N].
  - apply in_group_key. now apply (same_city_same_key st).
  - destruct (in_group (key_of r0) r) eqn:G; [|reflexivity].
    apply in_group_key in G. exfalso. apply N.
    unfold key_of in G. now inversion G.
Qed.

Lemma annotate_group (st : Store) (r0 : SearchHistory * City) :
  wf_store st -> In r0 (joined st) ->
  annotate (joined st) (key_of r0)
  = {| city__name := city_name (snd r0);
       city__country := city_country (snd r0);
       city__id := sh_city (fst r0);
       total_searches := Sum (map sh_search_count (entries_of st (sh_city (fst r0))));
       unique_users := CountDistinct (map sh_user (entries_of st (sh_city (fst r0)))) |}.
Proof.
  intros Hwf Hr0. unfold annotate. now rewrite (group_members st r0 Hwf Hr0).
Qed.

Lemma in_groups (st : Store) (k : group_key) :
  In k (groups (joined st)) <-> exists r0, In r0 (joined st) /\ key_of r0 = k.
Proof.
  unfold groups. rewrite nodup_In, in_map_iff. split; intros [r0 [H1 H2]]; eauto.
Qed.

Lemma NoDup_map_on (A B : Type) (f : A -> B) (l : list A) :
  NoDup l -> (forall x y, In x l -> In y l -> f x = f y -> x = y) -> NoDup (map f l).
Proof.
  induction l as [|a l IH]; simpl; intros Hnd Hinj; [constructor|].
  inversion Hnd as [|? ? Ha Hl]; subst. constructor.
  - intros Hin. apply in_map_iff in Hin. destruct Hin as [x [E Hx]].
    assert (x = a) by (apply Hinj; auto). subst. contradiction.
  - apply IH; auto.
Qed.

(** One group per city. *)
Lemma groups_city_ids (st : Store) :
  wf_store st ->
  NoDup (map city__id (map (annotate (joined st)) (groups (joined st)))).
Proof.
  intros Hwf. rewrite map_map. simpl.
  apply NoDup_map_on; [apply NoDup_nodup|].
  intros k1 k2 H1 H2 E. apply in_groups in H1. apply in_groups in H2.
  destruct H1 as [r1 [Hr1 <-]], H2 as [r2 [Hr2 <-]].
  now apply (same_city_same_key st).
Qed.

Section Sorted.

Variables (A : Type) (R : A -> A -> Prop).

Lemma StronglySorted_app_left (l1 l2 : list A) :
  StronglySorted R (l1 ++ l2) -> StronglySorted R l1.
Proof.
  induction l1 as [|a l1 IH]; simpl; intros H; [constructor|].
  apply StronglySorted_inv in H. destruct H as [Hs Hf]. constructor.
  - now apply IH.
  - apply Forall_app in Hf. tauto.
Qed.

Lemma StronglySorted_app_cross (l1 l2 : list A) :
  StronglySorted R (l1 ++ l2) ->
  forall a b, In a l1 -> In b l2 -> R a b.
Proof.
  induction l1 as [|x l1 IH]; simpl; intros H a b Ha Hb; [contradiction|].
  apply StronglySorted_inv in H. destruct H as [Hs Hf].
  destruct Ha as [->|Ha].
  - rewrite Forall_forall in Hf. apply Hf. apply in_or_app. now right.
  - now apply IH.
Qed.

Lemma StronglySorted_weaken (R' : A -> A -> Prop) (l : list A) :
  (forall a b, R a b -> R' a b) -> StronglySorted R l -> StronglySorted R' l.
Proof.
  intros Himp. induction 1 as [|a l Hs IH Hf]; constructor; [exact IH|].
  rewrite Forall_forall in *. auto.
Qed.

End Sorted.

Lemma popular_leb_transitive :
  Relations.Relation_Definitions.transitive PopularRow
    (fun x y => is_true (PopularOrder.leb x y)).
Proof.
  intros x y z. unfold is_true, PopularOrder.leb. rewrite !Z.leb_le. lia.
Qed.

(** All the groups in the order of [order_by('-total_searches')]. *)
Lemma sorted_groups (st : Store) :
  StronglySorted (fun a b => total_searches b <= total_searches a)
    (PopularSort.sort (map (annotate (joined st)) (groups (joined st)))).
Proof.
  apply (StronglySorted_weaken _ (fun x y => is_true (PopularOrder.leb x y))).
  - intros a b. unfold is_true, PopularOrder.leb. now rewrite Z.leb_le.
  - apply PopularSort.StronglySorted_sort. exact popular_leb_transitive.
Qed.

Lemma sample_store_wf : wf_store sample_store.
Proof.
  constructor; simpl.
  - repeat constructor; simpl; intuition discriminate.
  - repeat constructor; simpl; intuition discriminate.
  - repeat constructor; simpl; intuition discriminate.
  - repeat constructor; simpl; intuition discriminate.
  - repeat constructor; simpl; intuition discriminate.
  - repeat constructor; simpl; intuition discriminate.
  - intros h [<-|[<-|[<-|[]]]]; simpl; auto.
  - intros h [<-|[<-|[<-|[]]]]; simpl; auto.
Qed.

(** C9. On a store that meets the storage constraints, the
    popular-cities queryset has at most 10 rows, in descending order of
    total_searches, one row per city; each row stands for a city that
    has entries, carries that city's name and country, the sum of the
    search_count of the city's entries as total_searches and the number
    of distinct users (sessions) among them as unique_users; and a city
    with entries is left out only when 10 rows are returned, all of them
    with a total at least as large as that city's. *)
Theorem popular_cities_top_ten (st : Store) :
  wf_store st ->
  (List.length (popular_cities st) <= 10)%nat
  /\ StronglySorted (fun a b => total_searches b <= total_searches a) (popular_cities st)
  /\ NoDup (map city__id (popular_cities st))
  /\ (forall r, In r (popular_cities st) ->
        entries_of st (city__id r) <> []
        /\ (exists c, In c (cities st) /\ city_id c = city__id r
                      /\ city_name c = city__name r /\ city_country c = city__country r)
        /\ total_searches r = Sum (map sh_search_count (entries_of st (city__id r)))
        /\ unique_users r
           = Z.of_nat (List.length (nodup Z.eq_dec (map sh_user (entries_of st (city__id r))))))
  /\ (forall h, In h (searches st) ->
        ~ In (sh_city h) (map city__id (popular_cities st)) ->
        List.length (popular_cities st) = 10%nat
        /\ forall r, In r (popular_cities st) ->
             Sum (map sh_search_count (entries_of st (sh_city h))) <= total_searches r).
Proof.
  intros Hwf. unfold popular_cities.
  set (all := map (annotate (joined st)) (groups (joined st))).
  set (sorted := PopularSort.sort all).
  assert (Hperm : Permutation all sorted) by apply PopularSort.Permuted_sort.
  assert (Hsorted : StronglySorted (fun a b => total_searches b <= total_searches a) sorted)
    by apply sorted_groups.
  assert (Hsplit : (firstn 10 sorted ++ skipn 10 sorted)%list = sorted)
    by apply firstn_skipn.
  assert (Hin_all : forall r, In r (firstn 10 sorted) -> In r all).
  { intros r Hr. apply (Permutation_in _ (Permutation_sym Hperm)).
    rewrite <- Hsplit. apply in_or_app. now left. }
  split; [apply firstn_le_length|].
  split; [apply (StronglySorted_app_left _ _ _ (skipn 10 sorted)); now rewrite Hsplit|].
  split.
  { apply (NoDup_app_remove_r _ (map city__id (skipn 10 sorted))).
    rewrite <- map_app, Hsplit.
    apply (Permutation_NoDup (Permutation_map city__id Hperm)).
    now apply groups_city_ids. }
  split.
  - intros r Hr. apply Hin_all in Hr. unfold all in Hr.
    apply in_map_iff in Hr. destruct Hr as [k [<- Hk]].
    apply in_groups in Hk. destruct Hk as [[h c] [Hr0 <-]].
    rewrite (annotate_group st (h, c) Hwf Hr0). simpl.
    apply in_joined in Hr0. destruct Hr0 as [Hh [Hc E]].
    split; [|split; [|split]].
    + intros Hnil. unfold entries_of in Hnil. rewrite filter_none in Hnil.
      specialize (Hnil h Hh). now rewrite Z.eqb_refl in Hnil.
    + now exists c.
    + reflexivity.
    + reflexivity.
  - intros h Hh Hout.
    destruct (city_of_entry st h Hwf Hh) as [c Hc].
    destruct (filter_In_singleton _ _ _ _ Hc) as [Hcin Hcid]. apply Z.eqb_eq in Hcid.
    assert (Hr0 : In (h, c) (joined st)) by (apply in_joined; auto).
    assert (Hrow : In (annotate (joined st) (key_of (h, c))) sorted).
    { apply (Permutation_in _ Hperm). unfold all. apply in_map.
      apply in_groups. now exists (h, c). }
    rewrite (annotate_group st (h, c) Hwf Hr0) in Hrow. simpl in Hrow.
    rewrite <- Hsplit in Hrow. apply in_app_or in Hrow.
    destruct Hrow as [Hrow|Hrow].
    { exfalso. apply Hout. apply in_map_iff. eexists. split; [|exact Hrow]. reflexivity. }
    split.
    + rewrite length_firstn. apply Nat.min_l.
      destruct (Nat.le_gt_cases 10 (List.length sorted)) as [Hle|Hgt]; [exact Hle|].
      rewrite skipn_all2 in Hrow by lia. contradiction.
    + intros r Hr. rewrite <- Hsplit in Hsorted.
      apply (StronglySorted_app_cross _ _ _ _ Hsorted r _ Hr Hrow).
Qed.

Lemma popular_cities_top_ten_witness :
  map (fun r => (city__name r, total_searches r, unique_users r))
    (popular_cities sample_store)
  = [("Paris", 5, 1); ("London", 4, 2)]
  /\ (List.length (popular_cities sample_store) <= 10)%nat.
Proof.
  split; [reflexivity|].
  exact (proj1 (popular_cities_top_ten sample_store sample_store_wf)).
Defined.

(** ** The forecast normalizer on well-formed responses *)

Lemma describe_hashable (v : value) :
  hashable v = true -> exists d, WeatherService._get_weather_description v = Ok d.
Proof.
  destruct v; simpl; try discriminate; intros _;
    unfold WeatherService._get_weather_description; simpl; eauto.
Qed.

Lemma nth_hashable (l : list value) (i : nat) :
  forallb hashable l = true -> hashable (nth i l PyNone) = true.
Proof.
  intros H. destruct (nth_in_or_default i l PyNone) as [Hin| ->]; [|reflexivity].
  rewrite forallb_forall in H. now apply H.
Qed.

(** The guarded read of a metric array: the element, or None past the
    end of the array and when the array is absent. *)
Lemma metric_at_series (b : list (string * value)) (key : string) (i : nat) :
  array_or_absent b key = true ->
  WeatherService.metric_at (PyDict b) key i = Ok (nth i (series b key) PyNone).
Proof.
  unfold array_or_absent, WeatherService.metric_at, series, get_default, getitem_str.
  destruct (assoc key b) as [v|] eqn:E.
  - destruct v; try discriminate. intros _. cbn [Py.bind len].
    destruct (Nat.ltb_spec i (List.length l)) as [Hlt|Hge].
    + cbn [Py.bind getitem_int]. now rewrite (nth_error_nth' l PyNone Hlt).
    + now rewrite nth_overflow by lia.
  - intros _. cbn [Py.bind len List.length]. destruct i; reflexivity.
Qed.

Lemma time_array (b : list (string * value)) (i : nat) :
  (i < List.length (series b "time"))%nat ->
  getitem_str (PyDict b) "time" = Ok (PyList (series b "time")).
Proof.
  unfold series, getitem_str. destruct (assoc "time" b) as [v|]; simpl; [|lia].
  destruct v; simpl; try lia. reflexivity.
Qed.

Ltac split_andb :=
  repeat match goal with
         | H : (_ && _)%bool = true |- _ => apply andb_prop in H; destruct H
         end.

Lemma hourly_entry_ok (b : list (string * value)) (i : nat) :
  well_formed_block b hourly_fields = true ->
  (i < List.length (series b "time"))%nat ->
  exists d,
    WeatherService._get_weather_description (nth i (series b "weather_code") PyNone) = Ok d
    /\ WeatherService.hourly_entry (PyDict b) i
       = Ok {| WeatherService.h_time := nth i (series b "time") PyNone;
               WeatherService.h_temperature := nth i (series b "temperature_2m") PyNone;
               WeatherService.h_humidity := nth i (series b "relative_humidity_2m") PyNone;
               WeatherService.h_precipitation_probability :=
                 nth i (series b "precipitation_probability") PyNone;
               WeatherService.h_precipitation := nth i (series b "precipitation") PyNone;
               WeatherService.h_weather_code := nth i (series b "weather_code") PyNone;
               WeatherService.h_weather_description := d;
               WeatherService.h_wind_speed := nth i (series b "wind_speed_10m") PyNone |}.
Proof.
  intros Hwf Hi. unfold well_formed_block in Hwf. simpl forallb in Hwf at 1.
  apply andb_prop in Hwf. destruct Hwf as [Harr Hcodes]. split_andb.
  destruct (describe_hashable _ (nth_hashable _ i Hcodes)) as [d Hd].
  exists d. split; [exact Hd|].
  unfold WeatherService.hourly_entry.
  rewrite (time_array b i Hi). cbn [Py.bind getitem_int].
  rewrite (nth_error_nth' _ PyNone Hi). cbn [Py.bind].
  repeat (rewrite metric_at_series by assumption; cbn [Py.bind]).
  rewrite Hd. reflexivity.
Qed.

Lemma daily_entry_ok (b : list (string * value)) (i : nat) :
  well_formed_block b daily_fields = true ->
  (i < List.length (series b "time"))%nat ->
  exists d,
    WeatherService._get_weather_description (nth i (series b "weather_code") PyNone) = Ok d
    /\ WeatherService.daily_entry (PyDict b) i
       = Ok {| WeatherService.d_date := nth i (series b "time") PyNone;
               WeatherService.d_temperature_max := nth i (series b "temperature_2m_max") PyNone;
               WeatherService.d_temperature_min := nth i (series b "temperature_2m_min") PyNone;
               WeatherService.d_feels_like_max :=
                 nth i (series b "apparent_temperature_max") PyNone;
               WeatherService.d_feels_like_min :=
                 nth i (series b "apparent_temperature_min") PyNone;
               WeatherService.d_precipitation := nth i (series b "precipitation_sum") PyNone;
               WeatherService.d_wind_speed_max := nth i (series b "wind_speed_10m_max") PyNone;
               WeatherService.d_wind_direction :=
                 nth i (series b "wind_direction_10m_dominant") PyNone;
               WeatherService.d_weather_code := nth i (series b "weather_code") PyNone;
               WeatherService.d_weather_description := d |}.
Proof.
  intros Hwf Hi. unfold well_formed_block in Hwf. simpl forallb in Hwf at 1.
  apply andb_prop in Hwf. destruct Hwf as [Harr Hcodes]. split_andb.
  destruct (describe_hashable _ (nth_hashable _ i Hcodes)) as [d Hd].
  exists d. split; [exact Hd|].
  unfold WeatherService.daily_entry.
  rewrite (time_array b i Hi). cbn [Py.bind getitem_int].
  rewrite (nth_error_nth' _ PyNone Hi). cbn [Py.bind].
  repeat (rewrite metric_at_series by assumption; cbn [Py.bind]).
  rewrite Hd. reflexivity.
Qed.

(** A loop over [range(m)] whose body succeeds at every counter. *)
Lemma mapM_range (B : Type) (f : nat -> result B) (m : nat) :
  (forall i, (i < m)%nat -> exists y, f i = Ok y) ->
  exists ys,
    mapM f (seq 0 m) = Ok ys
    /\ List.length ys = m
    /\ forall i e, nth_error ys i = Some e -> f i = Ok e /\ (i < m)%nat.
Proof.
  intros Hf.
  destruct (mapM_total _ _ f (seq 0 m)) as [ys Hys].
  { intros i Hi. apply in_seq in Hi. apply Hf. lia. }
  exists ys. split; [exact Hys|].
  assert (Hlen : List.length ys = m).
  { rewrite (mapM_length _ _ f (seq 0 m) ys Hys). apply length_seq. }
  split; [exact Hlen|].
  intros i e Hi.
  assert (Him : (i < m)%nat).
  { rewrite <- Hlen. apply nth_error_Some. congruence. }
  split; [|exact Him].
  destruct (mapM_nth_error _ _ f (seq 0 m) ys Hys i i) as [y [Hy Hfy]].
  { rewrite nth_error_seq. destruct (Nat.ltb_spec i m); [reflexivity|lia]. }
  congruence.
Qed.

Lemma format_hourly_ok (b : list (string * value)) :
  well_formed_block b hourly_fields = true ->
  exists hf,
    WeatherService.format_hourly (PyDict b) = Ok hf
    /\ List.length hf = Nat.min 24 (List.length (series b "time"))
    /\ forall i e, nth_error hf i = Some e ->
         WeatherService.hourly_entry (PyDict b) i = Ok e
         /\ (i < List.length (series b "time"))%nat.
Proof.
  intros Hwf.
  destruct (mapM_range _ (WeatherService.hourly_entry (PyDict b))
              (Nat.min 24 (List.length (series b "time")))) as [hf [Hrun [Hlen Hnth]]].
  { intros i Hi. destruct (hourly_entry_ok b i Hwf) as [d [_ Hd]]; [lia|eauto]. }
  assert (Harr : array_or_absent b "time" = true).
  { unfold well_formed_block in Hwf. simpl forallb in Hwf at 1. now split_andb. }
  unfold WeatherService.format_hourly, Py.get, get_default, getitem_str. cbn [Py.bind].
  unfold series, array_or_absent in *.
  destruct (assoc "time" b) as [v|].
  - destruct v as [|?|?|?|?|l|?]; try discriminate Harr.
    destruct l as [|x l].
    + exists []. split; [reflexivity|]. split; [reflexivity|]. intros [|i] e; discriminate.
    + cbn [truthy Py.bind len]. exists hf. split; [exact Hrun|]. split; [exact Hlen|].
      intros i e Hi. destruct (Hnth i e Hi). split; [assumption|lia].
  - exists []. split; [reflexivity|]. split; [reflexivity|]. intros [|i] e; discriminate.
Qed.

Lemma format_daily_ok (b : list (string * value)) :
  well_formed_block b daily_fields = true ->
  exists df,
    WeatherService.format_daily (PyDict b) = Ok df
    /\ List.length df = List.length (series b "time")
    /\ forall i e, nth_error df i = Some e ->
         WeatherService.daily_entry (PyDict b) i = Ok e
         /\ (i < List.length (series b "time"))%nat.
Proof.
  intros Hwf.
  destruct (mapM_range _ (WeatherService.daily_entry (PyDict b))
              (List.length (series b "time"))) as [df [Hrun [Hlen Hnth]]].
  { intros i Hi. destruct (daily_entry_ok b i Hwf) as [d [_ Hd]]; [lia|eauto]. }
  assert (Harr : array_or_absent b "time" = true).
  { unfold well_formed_block in Hwf. simpl forallb in Hwf at 1. now split_andb. }
  unfold WeatherService.format_daily, Py.get, get_default, getitem_str. cbn [Py.bind].
  unfold series, array_or_absent in *.
  destruct (assoc "time" b) as [v|].
  - destruct v as [|?|?|?|?|l|?]; try discriminate Harr.
    destruct l as [|x l].
    + exists []. split; [reflexivity|]. split; [reflexivity|]. intros [|i] e; discriminate.
    + cbn [truthy Py.bind len]. exists df. split; [exact Hrun|]. split; [exact Hlen|].
      exact Hnth.
  - exists []. split; [reflexivity|]. split; [reflexivity|]. intros [|i] e; discriminate.
Qed.

Lemma get_block (kv : list (string * value)) (key : string) :
  object_or_absent kv key = true ->
  get_default (PyDict kv) key (PyDict []) = Ok (PyDict (block (PyDict kv) key)).
Proof.
  unfold object_or_absent, get_default, block.
  destruct (assoc key kv) as [v|]; [|reflexivity].
  destruct v; try discriminate. reflexivity.
Qed.

Lemma format_current_ok (b : list (string * value)) :
  match assoc "weather_code" b with
  | Some code => hashable code
  | None => true
  end = true ->
  exists cw, WeatherService.format_current (PyDict b) = Ok cw.
Proof.
  intros Hcode. unfold WeatherService.format_current, Py.get, get_default. cbn [Py.bind].
  destruct (describe_hashable
              (match assoc "weather_code" b with Some v => v | None => PyNone end))
    as [d Hd].
  { destruct (assoc "weather_code" b); [exact Hcode|reflexivity]. }
  rewrite Hd. cbn [Py.bind]. eauto.
Qed.

(** On a well-formed response the normalizer returns, and its two
    lists are what the two loops produce. *)
Lemma format_weather_data_ok (raw : value) :
  well_formed_response raw = true ->
  exists out,
    WeatherService._format_weather_data raw = Ok out
    /\ WeatherService.format_hourly (PyDict (block raw "hourly"))
       = Ok (WeatherService.hourly_forecast out)
    /\ WeatherService.format_daily (PyDict (block raw "daily"))
       = Ok (WeatherService.daily_forecast out).
Proof.
  destruct raw as [| | | | | |kv]; try discriminate.
  unfold well_formed_response. intros Hwf. split_andb.
  destruct (format_current_ok (block (PyDict kv) "current")) as [cw Hcw]; [assumption|].
  destruct (format_hourly_ok (block (PyDict kv) "hourly")) as [hf [Hhf _]]; [assumption|].
  destruct (format_daily_ok (block (PyDict kv) "daily")) as [df [Hdf _]]; [assumption|].
  unfold WeatherService._format_weather_data.
  rewrite !get_block by assumption. cbn [Py.bind].
  rewrite Hcw. cbn [Py.bind]. rewrite Hhf. cbn [Py.bind]. rewrite Hdf. cbn [Py.bind].
  unfold Py.get, get_default. cbn [Py.bind].
  eexists. split; [reflexivity|]. split; reflexivity.
Qed.

Lemma well_formed_blocks (raw : value) :
  well_formed_response raw = true ->
  well_formed_block (block raw "hourly") hourly_fields = true
  /\ well_formed_block (block raw "daily") daily_fields = true.
Proof.
  destruct raw as [| | | | | |kv]; try discriminate.
  unfold well_formed_response. intros Hwf. split_andb. now split.
Qed.

(** C4. For a well-formed forecast response the normalizer returns a
    result whose hourly_forecast has min(24, number of entries of the
    hourly time array) entries and whose daily_forecast has as many
    entries as the daily time array (an absent time array has none). *)
Theorem forecast_lengths (raw : value) :
  well_formed_response raw = true ->
  exists out,
    WeatherService._format_weather_data raw = Ok out
    /\ List.length (WeatherService.hourly_forecast out)
       = Nat.min 24 (List.length (series (block raw "hourly") "time"))
    /\ List.length (WeatherService.daily_forecast out)
       = List.length (series (block raw "daily") "time").
Proof.
  intros Hwf.
  destruct (format_weather_data_ok raw Hwf) as [out [Hout [Hh Hd]]].
  destruct (well_formed_blocks raw Hwf) as [Hwh Hwd].
  destruct (format_hourly_ok _ Hwh) as [hf [Hhf [Hlh _]]].
  destruct (format_daily_ok _ Hwd) as [df [Hdf [Hld _]]].
  exists out. split; [exact Hout|].
  rewrite Hh in Hhf. rewrite Hd in Hdf. inversion Hhf; inversion Hdf; subst.
  now split.
Qed.

Lemma forecast_lengths_witness :
  exists out,
    WeatherService._format_weather_data short_response = Ok out
    /\ List.length (WeatherService.hourly_forecast out) = 3%nat
    /\ List.length (WeatherService.daily_forecast out) = 2%nat.
Proof.
  destruct (forecast_lengths short_response eq_refl) as [out [H1 [H2 H3]]].
  exists out. split; [exact H1|]. split; [exact H2 | exact H3].
Defined.

(** ** The forecast normalizer never reads past the end of an array *)

Create HintDb no_ie discriminated.

Lemma bind_no_index_error (A B : Type) (c : result A) (k : A -> result B) :
  no_index_error c ->
  (forall a, c = Ok a -> no_index_error (k a)) ->
  no_index_error (Py.bind c k).
Proof.
  unfold no_index_error. destruct c as [a|e]; simpl; intros Hc Hk.
  - now apply Hk.
  - intros H. apply Hc. now inversion H.
Qed.

Lemma mapM_no_index_error (A B : Type) (f : A -> result B) (xs : list A) :
  (forall x, In x xs -> no_index_error (f x)) -> no_index_error (mapM f xs).
Proof.
  induction xs as [|x xs IH]; simpl; intros Hf; [discriminate|].
  apply bind_no_index_error; [apply Hf; now left|]. intros y _.
  apply bind_no_index_error; [apply IH; intros; apply Hf; now right|].
  intros ys _. discriminate.
Qed.

Lemma get_default_no_index_error (d : value) (k : string) (default : value) :
  no_index_error (get_default d k default).
Proof. destruct d; discriminate. Qed.

Lemma get_no_index_error (d : value) (k : string) : no_index_error (Py.get d k).
Proof. apply get_default_no_index_error. Qed.

Lemma getitem_str_no_index_error (d : value) (k : string) :
  no_index_error (getitem_str d k).
Proof. destruct d; simpl; try discriminate. destruct (assoc k kv); discriminate. Qed.

Lemma len_no_index_error (v : value) : no_index_error (len v).
Proof. destruct v; discriminate. Qed.

Lemma describe_no_index_error (v : value) :
  no_index_error (WeatherService._get_weather_description v).
Proof. destruct v; discriminate. Qed.

#[local] Hint Resolve get_default_no_index_error get_no_index_error
  getitem_str_no_index_error len_no_index_error describe_no_index_error : no_ie.

Lemma string_get_in_range (s : string) (i : nat) :
  (i < String.length s)%nat -> String.get i s <> None.
Proof.
  revert i. induction s as [|c s IH]; simpl; intros i Hi; [lia|].
  destruct i as [|i]; [discriminate|]. apply IH. lia.
Qed.

(** An index below [len(v)] is in range. *)
Lemma getitem_int_in_range (v : value) (i n : nat) :
  len v = Ok n -> (i < n)%nat -> no_index_error (getitem_int v i).
Proof.
  destruct v; simpl; try discriminate; intros Hn Hi; inversion Hn; subst.
  - destruct (String.get i s) eqn:E; [discriminate|].
    now apply string_get_in_range in Hi.
  - destruct (nth_error l i) eqn:E; [discriminate|].
    apply nth_error_None in E. lia.
Qed.

Lemma metric_at_no_index_error (blk : value) (key : string) (i : nat) :
  no_index_error (WeatherService.metric_at blk key i).
Proof.
  unfold WeatherService.metric_at.
  apply bind_no_index_error; [auto with no_ie|]. intros arr Harr.
  apply bind_no_index_error; [auto with no_ie|]. intros n Hn.
  destruct (Nat.ltb_spec i n) as [Hi|_]; [|discriminate].
  apply bind_no_index_error; [auto with no_ie|]. intros a Ha.
  apply (getitem_int_in_range a i n); [|exact Hi].
  (* the array read is the one whose length was taken *)
  destruct blk; try discriminate. simpl in Harr, Ha.
  destruct (assoc key kv); [|discriminate]. congruence.
Qed.

#[local] Hint Resolve metric_at_no_index_error : no_ie.

Ltac no_ie_chain :=
  repeat (apply bind_no_index_error; [solve [auto with no_ie]|intros ? ?]);
  try discriminate.

Lemma hourly_entry_no_index_error (hourly times : value) (i n : nat) :
  getitem_str hourly "time" = Ok times -> len times = Ok n -> (i < n)%nat ->
  no_index_error (WeatherService.hourly_entry hourly i).
Proof.
  intros Ht Hn Hi. unfold WeatherService.hourly_entry. rewrite Ht. cbn [Py.bind].
  apply bind_no_index_error; [now apply (getitem_int_in_range times i n)|].
  intros t _. no_ie_chain.
Qed.

Lemma daily_entry_no_index_error (daily times : value) (i n : nat) :
  getitem_str daily "time" = Ok times -> len times = Ok n -> (i < n)%nat ->
  no_index_error (WeatherService.daily_entry daily i).
Proof.
  intros Ht Hn Hi. unfold WeatherService.daily_entry. rewrite Ht. cbn [Py.bind].
  apply bind_no_index_error; [now apply (getitem_int_in_range times i n)|].
  intros t _. no_ie_chain.
Qed.

Lemma format_hourly_no_index_error (hourly : value) :
  no_index_error (WeatherService.format_hourly hourly).
Proof.
  unfold WeatherService.format_hourly.
  apply bind_no_index_error; [auto with no_ie|]. intros t _.
  destruct (truthy t); [|discriminate].
  apply bind_no_index_error; [auto with no_ie|]. intros times Ht.
  apply bind_no_index_error; [auto with no_ie|]. intros n Hn.
  apply mapM_no_index_error. intros i Hi. apply in_seq in Hi.
  apply (hourly_entry_no_index_error hourly times i n Ht Hn). lia.
Qed.

Lemma format_daily_no_index_error (daily : value) :
  no_index_error (WeatherService.format_daily daily).
Proof.
  unfold WeatherService.format_daily.
  apply bind_no_index_error; [auto with no_ie|]. intros t _.
  destruct (truthy t); [|discriminate].
  apply bind_no_index_error; [auto with no_ie|]. intros times Ht.
  apply bind_no_index_error; [auto with no_ie|]. intros n Hn.
  apply mapM_no_index_error. intros i Hi. apply in_seq in Hi.
  apply (daily_entry_no_index_error daily times i n Ht Hn). lia.
Qed.

Lemma format_current_no_index_error (current : value) :
  no_index_error (WeatherService.format_current current).
Proof. unfold WeatherService.format_current. no_ie_chain. Qed.

#[local] Hint Resolve format_hourly_no_index_error format_daily_no_index_error
  format_current_no_index_error : no_ie.

(** Whatever the provider sends, the normalizer does not fail with an
    index out of range. *)
Lemma format_weather_data_no_index_error (raw_data : value) :
  no_index_error (WeatherService._format_weather_data raw_data).
Proof. unfold WeatherService._format_weather_data. no_ie_chain. Qed.

Lemma hourly_fields_read (b : list (string * value)) (i : nat)
    (e : WeatherService.HourlyEntry) (key : string)
    (field : WeatherService.HourlyEntry -> value) :
  well_formed_block b hourly_fields = true ->
  (i < List.length (series b "time"))%nat ->
  WeatherService.hourly_entry (PyDict b) i = Ok e ->
  In (key, field) hourly_fields ->
  field e = nth i (series b key) PyNone.
Proof.
  intros Hwf Hi He Hin.
  destruct (hourly_entry_ok b i Hwf Hi) as [d [_ Hrun]].
  rewrite Hrun in He. inversion He; subst e. clear He Hrun.
  simpl in Hin.
  repeat (destruct Hin as [Hin|Hin]; [inversion Hin; subst; reflexivity|]).
  contradiction.
Qed.

Lemma daily_fields_read (b : list (string * value)) (i : nat)
    (e : WeatherService.DailyEntry) (key : string)
    (field : WeatherService.DailyEntry -> value) :
  well_formed_block b daily_fields = true ->
  (i < List.length (series b "time"))%nat ->
  WeatherService.daily_entry (PyDict b) i = Ok e ->
  In (key, field) daily_fields ->
  field e = nth i (series b key) PyNone.
Proof.
  intros Hwf Hi He Hin.
  destruct (daily_entry_ok b i Hwf Hi) as [d [_ Hrun]].
  rewrite Hrun in He. inversion He; subst e. clear He Hrun.
  simpl in Hin.
  repeat (destruct Hin as [Hin|Hin]; [inversion Hin; subst; reflexivity|]).
  contradiction.
Qed.

(** C2. The normalizer never fails with an index out of range,
    whatever the response. On a well-formed forecast response it
    returns one hourly entry for each of the first 24 indices of the
    hourly time array and one daily entry for each index of the daily
    time array, and no other entry; in the entry of every such index,
    each metric field is None when the index is at or past the length
    of its metric array (an absent array has length 0), and is the
    array's element when the index is within the array. *)
Theorem missing_metrics_are_null (raw : value) :
  no_index_error (WeatherService._format_weather_data raw)
  /\ (well_formed_response raw = true ->
      exists out,
        WeatherService._format_weather_data raw = Ok out
        /\ List.length (WeatherService.hourly_forecast out)
           = Nat.min 24 (List.length (series (block raw "hourly") "time"))
        /\ List.length (WeatherService.daily_forecast out)
           = List.length (series (block raw "daily") "time")
        /\ (forall i,
              (i < Nat.min 24 (List.length (series (block raw "hourly") "time")))%nat ->
              exists e,
                nth_error (WeatherService.hourly_forecast out) i = Some e
                /\ forall key field,
                     In (key, field) hourly_fields ->
                     ((List.length (series (block raw "hourly") key) <= i)%nat ->
                      field e = PyNone)
                     /\ (forall v,
                           nth_error (series (block raw "hourly") key) i = Some v ->
                           field e = v))
        /\ (forall i,
              (i < List.length (series (block raw "daily") "time"))%nat ->
              exists e,
                nth_error (WeatherService.daily_forecast out) i = Some e
                /\ forall key field,
                     In (key, field) daily_fields ->
                     ((List.length (series (block raw "daily") key) <= i)%nat ->
                      field e = PyNone)
                     /\ (forall v,
                           nth_error (series (block raw "daily") key) i = Some v ->
                           field e = v))).
Proof.
  split; [apply format_weather_data_no_index_error|].
  intros Hwf.
  destruct (format_weather_data_ok raw Hwf) as [out [Hout [Hh Hd]]].
  destruct (well_formed_blocks raw Hwf) as [Hwh Hwd].
  destruct (format_hourly_ok _ Hwh) as [hf [Hhf [Hhlen Hhe]]].
  destruct (format_daily_ok _ Hwd) as [df [Hdf [Hdlen Hde]]].
  rewrite Hh in Hhf. rewrite Hd in Hdf. inversion Hhf; inversion Hdf; subst hf df.
  exists out. split; [exact Hout|]. split; [exact Hhlen|]. split; [exact Hdlen|]. split.
  - intros i Hi.
    destruct (nth_error (WeatherService.hourly_forecast out) i) as [e|] eqn:Hnth;
      [|apply nth_error_None in Hnth; lia].
    exists e. split; [reflexivity|]. intros key field Hin.
    destruct (Hhe i e Hnth) as [He Hlt].
    rewrite (hourly_fields_read _ i e key field Hwh Hlt He Hin). split.
    + intros Hshort. now apply nth_overflow.
    + intros v Hv. now apply nth_error_nth.
  - intros i Hi.
    destruct (nth_error (WeatherService.daily_forecast out) i) as [e|] eqn:Hnth;
      [|apply nth_error_None in Hnth; lia].
    exists e. split; [reflexivity|]. intros key field Hin.
    destruct (Hde i e Hnth) as [He Hlt].
    rewrite (daily_fields_read _ i e key field Hwd Hlt He Hin). split.
    + intros Hshort. now apply nth_overflow.
    + intros v Hv. now apply nth_error_nth.
Qed.

Lemma missing_metrics_are_null_witness :
  exists out e,
    WeatherService._format_weather_data short_response = Ok out
    /\ nth_error (WeatherService.hourly_forecast out) 2 = Some e
    /\ WeatherService.h_temperature e = PyNone
    /\ WeatherService.h_precipitation_probability e = PyInt 30.
Proof.
  destruct (proj2 (missing_metrics_are_null short_response) eq_refl)
    as [out [Hout [_ [_ [Hhourly _]]]]].
  destruct (Hhourly 2%nat) as [e [He Hfields]]; [simpl; lia|].
  exists out, e.
  split; [exact Hout|]. split; [exact He|]. split.
  - apply (proj1 (Hfields "temperature_2m" WeatherService.h_temperature
                    (or_introl eq_refl))).
    simpl. lia.
  - apply (proj2 (Hfields "precipitation_probability"
                    WeatherService.h_precipitation_probability
                    (or_intror (or_intror (or_introl eq_refl))))).
    reflexivity.
Defined.

(** ** The weather view keeps the storage constraints *)

Lemma fetch_and_save_wf (upstream : Upstream) (now : timestamp) (st : Store)
    (user : User) (latitude longitude : float) (city : option City) :
  wf_store st -> In user (users st) ->
  wf_store (snd (fst (WeatherView.fetch_and_save upstream now st user
                        latitude longitude city))).
Proof.
  intros Hwf Huser. unfold WeatherView.fetch_and_save, WeatherService.get_weather_data.
  match goal with
  | |- context [match ?r with Ok _ => _ | Raise _ => _ end] => destruct r as [w|e]
  end; [|exact Hwf].
  destruct city as [c|]; [|exact Hwf].
  match goal with
  | |- context [UserService.save_search now st user ?cd] =>
      pose proof (save_search_wf now st user cd Hwf Huser) as Hsaved;
      destruct (UserService.save_search now st user cd) as [[h|e] st']
  end; exact Hsaved.
Qed.

Lemma weather_view_post_wf (upstream : Upstream) (now : timestamp)
    (created_key : string) (st : Store) (session_key : option string)
    (data : WeatherRequestSerializer.Data) :
  wf_store st ->
  wf_store (snd (fst (WeatherView.post upstream now created_key st session_key data))).
Proof.
  intros Hwf. unfold WeatherView.post.
  destruct (WeatherRequestSerializer.is_valid data) as [validated|errors]; [|exact Hwf].
  match goal with
  | |- context [UserService.get_or_create_user now st ?k] =>
      pose proof (get_or_create_user_wf now st k Hwf) as Hwf1;
      destruct (get_or_create_user_ok now st k (wf_sessions st Hwf))
        as [user [st1 [Hrun [_ [_ [_ Huser]]]]]];
      rewrite Hrun in Hwf1 |- *; simpl in Hwf1
  end.
  destruct (WeatherRequestSerializer.int_given _).
  - destruct (WeatherRequestSerializer.city_id validated) as [wanted|]; [|exact Hwf1].
    destruct (objects_get _ (cities st1)) as [city|e].
    + pose proof (fetch_and_save_wf upstream now st1 user (city_latitude city)
                    (city_longitude city) (Some city) Hwf1 Huser) as Hdone.
      destruct (WeatherView.fetch_and_save upstream now st1 user (city_latitude city)
                  (city_longitude city) (Some city)) as [[response st2] calls].
      exact Hdone.
    + destruct e; exact Hwf1.
  - destruct (WeatherRequestSerializer.latitude validated) as [latitude|];
      [|exact Hwf1].
    destruct (WeatherRequestSerializer.longitude validated) as [longitude|];
      [|exact Hwf1].
    pose proof (fetch_and_save_wf upstream now st1 user latitude longitude None
                  Hwf1 Huser) as Hdone.
    destruct (WeatherView.fetch_and_save upstream now st1 user latitude longitude None)
      as [[response st2] calls].
    exact Hdone.
Qed.

(* ===================================================================== *)
(** * Further properties of the ledger, the views and the normalizer *)
(* ===================================================================== *)

(** ** Lookups that find a stored row *)

Lemma objects_get_found (A K : Type) (key : A -> K) (p : A -> bool) (k : K)
    (rows : list A) (r : A) :
  (forall x, p x = true <-> key x = k) ->
  NoDup (map key rows) -> In r rows -> p r = true ->
  filter p rows = [r] /\ objects_get p rows = Ok r.
Proof.
  intros Hp Hnd Hin Hr.
  destruct (objects_get_unique_key A K key p k Hp rows Hnd) as [[Hnone _]|[r' [Hone Hget]]].
  - rewrite filter_none in Hnone. specialize (Hnone r Hin). congruence.
  - assert (Hin' : In r (filter p rows)) by (apply filter_In; now split).
    rewrite Hone in Hin'. destruct Hin' as [->|[]]. now split.
Qed.

(** X1. Looking a session up twice: the second call of
    [get_or_create_user] returns the user of the first call and leaves
    the store as the first call left it. *)
Theorem get_or_create_user_idempotent
    (now1 now2 : timestamp) (st : Store) (session_key : string) :
  wf_store st ->
  exists user st1,
    UserService.get_or_create_user now1 st session_key = (Ok user, st1)
    /\ user_session_key user = session_key
    /\ UserService.get_or_create_user now2 st1 session_key = (Ok user, st1).
Proof.
  intros Hwf.
  pose proof (get_or_create_user_wf now1 st session_key Hwf) as Hwf1.
  destruct (get_or_create_user_ok now1 st session_key (wf_sessions st Hwf))
    as [user [st1 [Hrun [_ [_ [Hkey Hin]]]]]].
  rewrite Hrun in Hwf1. simpl in Hwf1.
  exists user, st1. split; [exact Hrun|]. split; [exact Hkey|].
  unfold UserService.get_or_create_user, objects_get_or_create.
  destruct (objects_get_found User string user_session_key
              (fun u => String.eqb (user_session_key u) session_key) session_key
              (users st1) user
              (fun u => String.eqb_eq (user_session_key u) session_key)
              (wf_sessions st1 Hwf1) Hin) as [_ ->].
  - now apply String.eqb_eq.
  - now destruct st1.
Qed.

Lemma get_or_create_user_idempotent_witness :
  exists user st1,
    UserService.get_or_create_user 1 empty_store "session-a" = (Ok user, st1)
    /\ UserService.get_or_create_user 2 st1 "session-a" = (Ok user, st1)
    /\ List.length (users st1) = 1%nat.
Proof.
  destruct (get_or_create_user_idempotent 1 2 empty_store "session-a" empty_store_wf)
    as [user [st1 [H1 [_ H2]]]].
  exists user, st1. split; [exact H1|]. split; [exact H2|].
  vm_compute in H1. inversion H1. reflexivity.
Defined.

(** ** What one call of [save_search] writes *)

(** The rows before and after a call: the users are untouched; at most
    one City is appended; and either the entry of the pair is
    overwritten in place with its count raised by one and its
    [last_searched] set, or a new entry with count 1 is appended. *)
Lemma save_search_effect
    (now : timestamp) (st : Store) (user : User) (city_data : UserService.CityData) :
  wf_store st ->
  In user (users st) ->
  exists c h st',
    UserService.save_search now st user city_data = (Ok h, st')
    /\ users st' = users st
    /\ UserService.city_matches city_data c = true
    /\ In c (cities st')
    /\ (cities st' = cities st
        \/ (cities st' = (cities st ++ [c])%list
            /\ filter (UserService.city_matches city_data) (cities st) = []))
    /\ ((exists h0,
           In h0 (searches st)
           /\ history_key h0 = (user_id user, city_id c)
           /\ h = {| sh_id := sh_id h0;
                     sh_user := sh_user h0;
                     sh_city := sh_city h0;
                     sh_search_count := sh_search_count h0 + 1;
                     sh_last_searched := now;
                     sh_created_at := sh_created_at h0 |}
           /\ searches st' = UserService.save_row h (searches st))
        \/ ((forall h0, In h0 (searches st) ->
                        history_key h0 <> (user_id user, city_id c))
            /\ h = {| sh_id := next_id (map sh_id (searches st));
                      sh_user := user_id user;
                      sh_city := city_id c;
                      sh_search_count := 1;
                      sh_last_searched := now;
                      sh_created_at := now |}
            /\ searches st' = (searches st ++ [h])%list)).
Proof.
  intros Hwf Huser.
  unfold UserService.save_search.
  set (fresh_city := {| city_id := next_id (map city_id (cities st));
                        city_name := UserService.cd_name city_data;
                        city_country := UserService.cd_country city_data;
                        city_admin1 := UserService.admin1_default city_data;
                        city_latitude := UserService.cd_latitude city_data;
                        city_longitude := UserService.cd_longitude city_data |}).
  unfold objects_get_or_create at 1.
  destruct (objects_get_unique_key City _ city_key
              (UserService.city_matches city_data) _
              (city_matches_key city_data) (cities st) (wf_city_keys st Hwf))
    as [[Hnone ->]|[c [Hone ->]]].
  - assert (Hfresh : ~ In (city_id fresh_city) (map city_id (cities st)))
      by apply next_id_fresh.
    assert (Hnokey : forall h0, In h0 (searches st) ->
                       history_key h0 <> (user_id user, city_id fresh_city)).
    { intros h0 Hh0 Hk. apply Hfresh.
      replace (city_id fresh_city) with (sh_city h0)
        by (unfold history_key in Hk; congruence).
      now apply (wf_history_city st Hwf). }
    assert (Hnoh : filter (UserService.history_matches user fresh_city) (searches st) = []).
    { apply filter_none. intros h0 Hh0.
      destruct (UserService.history_matches user fresh_city h0) eqn:E; [|reflexivity].
      apply history_matches_key in E. now apply Hnokey in E. }
    unfold objects_get_or_create, objects_get. rewrite Hnoh. simpl negb. cbv iota.
    exists fresh_city. eexists. eexists. split; [reflexivity|]. simpl.
    split; [reflexivity|]. split; [now apply city_matches_key|].
    split; [apply in_or_app; right; now left|].
    split; [right; now split|].
    right. split; [exact Hnokey|]. split; reflexivity.
  - destruct (filter_In_singleton _ _ _ _ Hone) as [Hcin Hcm].
    destruct (objects_get_unique_key SearchHistory _ history_key
                (UserService.history_matches user c) _
                (history_matches_key user c) (searches st) (wf_history_keys st Hwf))
      as [[Hnoh Hget]|[h0 [Hh0 Hget]]];
      unfold objects_get_or_create; rewrite Hget; simpl negb; cbv iota.
    + exists c. eexists. eexists. split; [reflexivity|]. simpl.
      split; [reflexivity|]. split; [exact Hcm|]. split; [exact Hcin|].
      split; [now left|].
      right. split; [|split; reflexivity].
      intros h0 Hh0 Hk. apply history_matches_key in Hk.
      rewrite filter_none in Hnoh. specialize (Hnoh h0 Hh0). congruence.
    + destruct (filter_In_singleton _ _ _ _ Hh0) as [Hh0in Hh0m].
      exists c. eexists. eexists. split; [reflexivity|]. simpl.
      split; [reflexivity|]. split; [exact Hcm|]. split; [exact Hcin|].
      split; [now left|].
      left. exists h0. split; [exact Hh0in|].
      split; [now apply history_matches_key|]. split; reflexivity.
Qed.

Lemma save_row_absent (h : SearchHistory) (rows : list SearchHistory) :
  ~ In (sh_id h) (map sh_id rows) -> UserService.save_row h rows = rows.
Proof.
  induction rows as [|a rows IH]; simpl; intros Hnot; [reflexivity|].
  destruct (Z.eqb_spec (sh_id a) (sh_id h)) as [E|_].
  - exfalso. apply Hnot. now left.
  - f_equal. apply IH. intros Hin. apply Hnot. now right.
Qed.

Lemma Sum_app (xs ys : list Z) : Sum (xs ++ ys) = Sum xs + Sum ys.
Proof. unfold Sum. induction xs as [|x xs IH]; simpl; lia. Qed.

(** Overwriting one stored row changes the sum of the counts by the
    difference of the two counts. *)
Lemma Sum_save_row (rows : list SearchHistory) (h0 h : SearchHistory) :
  NoDup (map sh_id rows) -> In h0 rows -> sh_id h = sh_id h0 ->
  Sum (map sh_search_count (UserService.save_row h rows))
  = Sum (map sh_search_count rows) + sh_search_count h - sh_search_count h0.
Proof.
  intros Hnd Hin Hid. induction rows as [|a rows IH]; [contradiction|].
  inversion Hnd as [|? ? Ha Hrows]; subst.
  change (UserService.save_row h (a :: rows))
    with ((if sh_id a =? sh_id h then h else a) :: UserService.save_row h rows).
  destruct Hin as [->|Hin].
  - rewrite Hid, Z.eqb_refl. rewrite save_row_absent by (now rewrite Hid).
    unfold Sum. simpl. lia.
  - assert (Hne : sh_id a <> sh_id h).
    { intros E. apply Ha. rewrite E, Hid. now apply in_map. }
    destruct (Z.eqb_spec (sh_id a) (sh_id h)) as [E|_]; [contradiction|].
    specialize (IH Hrows Hin). unfold Sum in *. simpl. lia.
Qed.

Lemma save_row_leaves_others (rows : list SearchHistory) (h0 h : SearchHistory)
    (p : SearchHistory -> bool) :
  NoDup (map sh_id rows) -> In h0 rows -> sh_id h = sh_id h0 ->
  p h0 = false -> p h = false ->
  filter p (UserService.save_row h rows) = filter p rows.
Proof.
  intros Hnd Hin Hid Hp0 Hp. unfold UserService.save_row.
  assert (Hsame : forall x, In x rows -> sh_id x = sh_id h -> x = h0).
  { intros x Hx E. apply (NoDup_map_injective_on _ _ sh_id rows); auto. congruence. }
  rewrite filter_map_on.
  - rewrite <- (map_id (filter p rows)) at 2. apply map_ext_on.
    intros x Hx. apply filter_In in Hx. destruct Hx as [Hx Hpx].
    destruct (Z.eqb_spec (sh_id x) (sh_id h)) as [E|_]; [|reflexivity].
    apply (Hsame x Hx) in E. subst. congruence.
  - intros x Hx. destruct (Z.eqb_spec (sh_id x) (sh_id h)) as [E|_]; [|reflexivity].
    apply (Hsame x Hx) in E. subst. congruence.
Qed.

(** X2. A search for a city that the user has searched before changes
    only the stored entry of the pair: the call returns that entry with
    the same id, user, city and [created_at], its count raised by one
    and [last_searched] set to the time of the call; no City is added
    and the number of entries stays the same. *)
Theorem repeated_search_updates_entry
    (now : timestamp) (st : Store) (user : User) (city_data : UserService.CityData)
    (c : City) (h0 : SearchHistory) :
  wf_store st ->
  In user (users st) ->
  In c (cities st) -> UserService.city_matches city_data c = true ->
  In h0 (searches st) -> sh_user h0 = user_id user -> sh_city h0 = city_id c ->
  fst (UserService.save_search now st user city_data)
  = Ok {| sh_id := sh_id h0;
          sh_user := sh_user h0;
          sh_city := sh_city h0;
          sh_search_count := sh_search_count h0 + 1;
          sh_last_searched := now;
          sh_created_at := sh_created_at h0 |}
  /\ cities (snd (UserService.save_search now st user city_data)) = cities st
  /\ List.length (searches (snd (UserService.save_search now st user city_data)))
     = List.length (searches st).
Proof.
  intros Hwf Huser Hc Hcm Hh0 Hu0 Hc0.
  destruct (save_search_effect now st user city_data Hwf Huser)
    as [c' [h [st' [Hrun [_ [Hcm' [Hcin' [Hcities Hentry]]]]]]]].
  rewrite Hrun. simpl.
  assert (Hnonew : cities st' = cities st).
  { destruct Hcities as [E|[_ Hnone]]; [exact E|].
    rewrite filter_none in Hnone. specialize (Hnone c Hc). congruence. }
  assert (Hsame : c' = c).
  { rewrite Hnonew in Hcin'.
    apply (NoDup_map_injective_on _ _ city_key (cities st)); auto.
    - exact (wf_city_keys st Hwf).
    - apply city_matches_key in Hcm. apply city_matches_key in Hcm'. congruence. }
  subst c'.
  destruct Hentry as [[h1 [Hh1 [Hk1 [-> ->]]]]|[Hnone _]].
  - assert (h1 = h0).
    { apply (NoDup_map_injective_on _ _ history_key (searches st)); auto.
      - exact (wf_history_keys st Hwf).
      - rewrite Hk1. unfold history_key. congruence. }
    subst h1. split; [reflexivity|]. split; [exact Hnonew|].
    unfold UserService.save_row. apply length_map.
  - exfalso. apply (Hnone h0 Hh0). unfold history_key. congruence.
Qed.

Lemma repeated_search_updates_entry_witness :
  fst (UserService.save_search 20 sample_store
         {| user_id := 2; user_session_key := "session-b"; user_created_at := 1 |}
         london)
  = Ok {| sh_id := 2; sh_user := 2; sh_city := 1; sh_search_count := 2;
          sh_last_searched := 20; sh_created_at := 11 |}.
Proof.
  refine (proj1 (repeated_search_updates_entry 20 sample_store
                   {| user_id := 2; user_session_key := "session-b"; user_created_at := 1 |}
                   london
                   {| city_id := 1; city_name := "London"; city_country := "United Kingdom";
                      city_admin1 := Some "England";
                      city_latitude := S754_finite false 7249022107713221 (-47);
                      city_longitude := S754_finite true 4604480259023595 (-55) |}
                   {| sh_id := 2; sh_user := 2; sh_city := 1; sh_search_count := 1;
                      sh_last_searched := 11; sh_created_at := 11 |}
                   sample_store_wf _ _ eq_refl _ eq_refl eq_refl)).
  - simpl. right. now left.
  - simpl. now left.
  - simpl. right. now left.
Defined.

(** X3. [save_search] never touches what belongs to others: the users
    are unchanged, the stored cities stay where they are (at most one
    City is appended), and the entries of every other user are exactly
    the ones there were. *)
Theorem save_search_leaves_others
    (now : timestamp) (st : Store) (user : User) (city_data : UserService.CityData)
    (other : Z) :
  wf_store st ->
  In user (users st) ->
  other <> user_id user ->
  users (snd (UserService.save_search now st user city_data)) = users st
  /\ (exists added,
        cities (snd (UserService.save_search now st user city_data))
        = (cities st ++ added)%list
        /\ (List.length added <= 1)%nat)
  /\ filter (fun h => sh_user h =? other)
       (searches (snd (UserService.save_search now st user city_data)))
     = filter (fun h => sh_user h =? other) (searches st).
Proof.
  intros Hwf Huser Hother.
  destruct (save_search_effect now st user city_data Hwf Huser)
    as [c [h [st' [Hrun [Hu [_ [_ [Hcities Hentry]]]]]]]].
  rewrite Hrun. simpl. split; [exact Hu|]. split.
  - destruct Hcities as [E|[E _]].
    + exists []. rewrite app_nil_r. split; [exact E|]. simpl. lia.
    + exists [c]. split; [exact E|]. simpl. lia.
  - destruct Hentry as [[h0 [Hh0 [Hk [Hh ->]]]]|[_ [Hh ->]]].
    + unfold history_key in Hk. inversion Hk as [[Hu0 Hc0]].
      apply (save_row_leaves_others (searches st) h0 h).
      * exact (wf_history_ids st Hwf).
      * exact Hh0.
      * now subst h.
      * apply Z.eqb_neq. congruence.
      * subst h. simpl. apply Z.eqb_neq. congruence.
    + rewrite filter_app. subst h. simpl.
      destruct (Z.eqb_spec (user_id user) other) as [E|_]; [congruence|].
      apply app_nil_r.
Qed.

Lemma save_search_leaves_others_witness :
  filter (fun h => sh_user h =? 1)
    (searches (snd (UserService.save_search 20 sample_store
                      {| user_id := 2; user_session_key := "session-b";
                         user_created_at := 1 |} london)))
  = filter (fun h => sh_user h =? 1) (searches sample_store).
Proof.
  refine (proj2 (proj2 (save_search_leaves_others 20 sample_store
                          {| user_id := 2; user_session_key := "session-b";
                             user_created_at := 1 |} london 1 sample_store_wf _ _))).
  - simpl. right. now left.
  - discriminate.
Defined.

Lemma stats_total_is_sum (st : Store) :
  StatsView.total_searches (StatsView.get st) = Sum (map sh_search_count (searches st)).
Proof.
  unfold StatsView.get, StatsView.aggregate_total. cbn [StatsView.total_searches].
  destruct (searches st) as [|h rows]; [reflexivity|].
  destruct (Z.eqb_spec (Sum (map sh_search_count (h :: rows))) 0) as [E|_];
    [now rewrite E | reflexivity].
Qed.

(** X4. Every call of [save_search] raises the total that the
    statistics view reports by exactly one. *)
Theorem save_search_adds_one_to_total
    (now : timestamp) (st : Store) (user : User) (city_data : UserService.CityData) :
  wf_store st ->
  In user (users st) ->
  StatsView.total_searches
    (StatsView.get (snd (UserService.save_search now st user city_data)))
  = StatsView.total_searches (StatsView.get st) + 1.
Proof.
  intros Hwf Huser. rewrite !stats_total_is_sum.
  destruct (save_search_effect now st user city_data Hwf Huser)
    as [c [h [st' [Hrun [_ [_ [_ [_ Hentry]]]]]]]].
  rewrite Hrun. simpl.
  destruct Hentry as [[h0 [Hh0 [_ [Hh ->]]]]|[_ [Hh ->]]].
  - rewrite (Sum_save_row (searches st) h0 h (wf_history_ids st Hwf) Hh0)
      by now subst h.
    subst h. simpl. lia.
  - rewrite map_app, Sum_app. subst h. unfold Sum. simpl. lia.
Qed.

Lemma save_search_adds_one_to_total_witness :
  StatsView.total_searches
    (StatsView.get (snd (UserService.save_search 1 one_user_store test_user london)))
  = 1.
Proof.
  rewrite (save_search_adds_one_to_total 1 one_user_store test_user london
             one_user_store_wf (or_introl eq_refl)).
  reflexivity.
Defined.

(** ** The weather view: what each path does *)

Lemma fetch_and_save_calls (upstream : Upstream) (now : timestamp) (st : Store)
    (user : User) (latitude longitude : float) (city : option City) :
  snd (WeatherView.fetch_and_save upstream now st user latitude longitude city)
  = [WeatherService.forecast_request latitude longitude]
  /\ (status (fst (fst (WeatherView.fetch_and_save upstream now st user
                          latitude longitude city))) = 200
      \/ status (fst (fst (WeatherView.fetch_and_save upstream now st user
                             latitude longitude city))) = 500).
Proof.
  unfold WeatherView.fetch_and_save, WeatherService.get_weather_data.
  match goal with
  | |- context [match ?r with Ok _ => _ | Raise _ => _ end] => destruct r as [w|e]
  end; [|split; [reflexivity | now right]].
  destruct city as [c|]; [|split; [reflexivity | now left]].
  match goal with
  | |- context [UserService.save_search now st user ?cd] =>
      destruct (UserService.save_search now st user cd) as [[h|e] st']
  end; (split; [reflexivity|]); [now left | now right].
Qed.

(** X5. The weather view makes at most one outbound request, and only
    a forecast request; an answer with status 200 comes with exactly
    one request, and an answer with status 400 or 404 with none. *)
Theorem weather_view_requests
    (upstream : Upstream) (now : timestamp) (created_key : string) (st : Store)
    (session_key : option string) (data : WeatherRequestSerializer.Data)
    (outcome : result Response) (st' : Store) (calls : list Request) :
  WeatherView.post upstream now created_key st session_key data = (outcome, st', calls) ->
  (calls = []
   \/ exists latitude longitude, calls = [WeatherService.forecast_request latitude longitude])
  /\ forall response, outcome = Ok response ->
       (status response = 200 -> List.length calls = 1%nat)
       /\ (status response = 400 \/ status response = 404 -> calls = []).
Proof.
  unfold WeatherView.post.
  destruct (WeatherRequestSerializer.is_valid data) as [validated|errors].
  2:{ intros H; inversion H; subst. split; [now left|].
      intros response Hr; inversion Hr; subst; simpl.
      split; [discriminate | reflexivity]. }
  match goal with
  | |- context [UserService.get_or_create_user now st ?k] =>
      destruct (UserService.get_or_create_user now st k) as [[user|e] st1]
  end.
  2:{ intros H; inversion H; subst. split; [now left|]. intros response Hr; discriminate. }
  assert (Hfetch : forall latitude longitude city,
            (let '(response, st2, calls0) :=
               WeatherView.fetch_and_save upstream now st1 user latitude longitude city in
             (Ok response, st2, calls0)) = (outcome, st', calls) ->
            (calls = []
             \/ exists latitude longitude,
                  calls = [WeatherService.forecast_request latitude longitude])
            /\ forall response, outcome = Ok response ->
                 (status response = 200 -> List.length calls = 1%nat)
                 /\ (status response = 400 \/ status response = 404 -> calls = [])).
  { intros latitude longitude city.
    destruct (fetch_and_save_calls upstream now st1 user latitude longitude city)
      as [Hcalls Hstatus].
    destruct (WeatherView.fetch_and_save upstream now st1 user latitude longitude city)
      as [[response0 st2] calls0].
    simpl in Hcalls, Hstatus. intros H; inversion H; subst.
    split; [right; eauto|].
    intros response Hr; inversion Hr; subst. split; [reflexivity|].
    intros [E|E]; rewrite E in Hstatus; destruct Hstatus; discriminate. }
  destruct (WeatherRequestSerializer.int_given _).
  - destruct (WeatherRequestSerializer.city_id validated) as [wanted|].
    + destruct (objects_get _ (cities st1)) as [city|e].
      * apply Hfetch.
      * destruct e; intros H; inversion H; subst; (split; [now left|]);
          intros response Hr; inversion Hr; subst; simpl;
          (split; [discriminate | reflexivity]).
    + intros H; inversion H; subst. split; [now left|].
      intros response Hr; inversion Hr; subst; simpl.
      split; [discriminate | intros [E|E]; discriminate].
  - destruct (WeatherRequestSerializer.latitude validated) as [latitude|];
      [destruct (WeatherRequestSerializer.longitude validated) as [longitude|]|].
    + apply Hfetch.
    + intros H; inversion H; subst. split; [now left|].
      intros response Hr; inversion Hr; subst; simpl.
      split; [discriminate | intros [E|E]; discriminate].
    + intros H; inversion H; subst. split; [now left|].
      intros response Hr; inversion Hr; subst; simpl.
      split; [discriminate | intros [E|E]; discriminate].
Qed.

Lemma weather_view_requests_witness :
  List.length
    (snd (WeatherView.post empty_upstream 0 "fresh" empty_store None
            {| WeatherRequestSerializer.city_id := None;
               WeatherRequestSerializer.latitude := Some (UserService.cd_latitude london);
               WeatherRequestSerializer.longitude := Some (UserService.cd_longitude london) |}))
  = 1%nat.
Proof.
  set (P := WeatherView.post empty_upstream 0 "fresh" empty_store None _).
  assert (H : P = (fst (fst P), snd (fst P), snd P)) by (now destruct P as [[? ?] ?]).
  destruct (weather_view_requests _ _ _ _ _ _ _ _ _ H) as [_ Hresp].
  refine (proj1 (Hresp _ _) _); [vm_compute; reflexivity | reflexivity].
Defined.

Lemma save_search_sum
    (now : timestamp) (st : Store) (user : User) (city_data : UserService.CityData) :
  wf_store st ->
  In user (users st) ->
  Sum (map sh_search_count (searches (snd (UserService.save_search now st user city_data))))
  = Sum (map sh_search_count (searches st)) + 1.
Proof.
  intros Hwf Huser.
  destruct (save_search_effect now st user city_data Hwf Huser)
    as [c [h [st' [Hrun [_ [_ [_ [_ Hentry]]]]]]]].
  rewrite Hrun. simpl.
  destruct Hentry as [[h0 [Hh0 [_ [Hh ->]]]]|[_ [Hh ->]]].
  - rewrite (Sum_save_row (searches st) h0 h (wf_history_ids st Hwf) Hh0)
      by now subst h.
    subst h. simpl. lia.
  - rewrite map_app, Sum_app. subst h. unfold Sum. simpl. lia.
Qed.

(** The search that the view saves is a search for the stored city
    itself: it succeeds and adds no City. *)
Lemma save_search_of_stored_city (now : timestamp) (st : Store) (user : User) (c : City) :
  wf_store st -> In user (users st) -> In c (cities st) ->
  exists h st',
    UserService.save_search now st user
      {| UserService.cd_name := city_name c;
         UserService.cd_country := city_country c;
         UserService.cd_admin1 := Some (city_admin1 c);
         UserService.cd_latitude := city_latitude c;
         UserService.cd_longitude := city_longitude c |} = (Ok h, st')
    /\ users st' = users st
    /\ cities st' = cities st
    /\ sh_user h = user_id user /\ sh_city h = city_id c
    /\ sh_last_searched h = now
    /\ In h (searches st').
Proof.
  intros Hwf Huser Hc.
  set (cd := {| UserService.cd_name := city_name c;
                UserService.cd_country := city_country c;
                UserService.cd_admin1 := Some (city_admin1 c);
                UserService.cd_latitude := city_latitude c;
                UserService.cd_longitude := city_longitude c |}).
  assert (Hcm : UserService.city_matches cd c = true) by now apply city_matches_key.
  destruct (save_search_effect now st user cd Hwf Huser)
    as [c' [h [st' [Hrun [Hu [Hcm' [Hcin' [Hcities Hentry]]]]]]]].
  assert (Hnonew : cities st' = cities st).
  { destruct Hcities as [E|[_ Hnone]]; [exact E|].
    rewrite filter_none in Hnone. specialize (Hnone c Hc). congruence. }
  assert (Hsame : c' = c).
  { rewrite Hnonew in Hcin'.
    apply (NoDup_map_injective_on _ _ city_key (cities st)); auto.
    - exact (wf_city_keys st Hwf).
    - apply city_matches_key in Hcm. apply city_matches_key in Hcm'. congruence. }
  subst c'. exists h, st'. split; [exact Hrun|]. split; [exact Hu|].
  split; [exact Hnonew|].
  destruct Hentry as [[h0 [Hh0 [Hk [Hh Hrows]]]]|[_ [Hh Hrows]]].
  - unfold history_key in Hk. inversion Hk as [[Hu0 Hc0]].
    subst h. simpl. repeat split; try assumption. rewrite Hrows.
    unfold UserService.save_row. apply in_map_iff. exists h0. split; [|exact Hh0].
    simpl. now rewrite Z.eqb_refl.
  - subst h. simpl. repeat split. rewrite Hrows. apply in_or_app. right. now left.
Qed.

(** A request that names a stored city reaches the fetch with the
    coordinates of that city. *)
Lemma post_city_path
    (upstream : Upstream) (now : timestamp) (created_key : string) (st : Store)
    (session_key : option string) (data : WeatherRequestSerializer.Data)
    (z : Z) (c : City) :
  wf_store st ->
  WeatherRequestSerializer.city_id data = Some z -> z <> 0 ->
  In c (cities st) -> city_id c = z ->
  exists user st1,
    wf_store st1
    /\ cities st1 = cities st /\ searches st1 = searches st
    /\ In user (users st1)
    /\ user_session_key user = effective_session_key session_key created_key
    /\ WeatherView.post upstream now created_key st session_key data
       = (let '(response, st2, calls) :=
            WeatherView.fetch_and_save upstream now st1 user
              (city_latitude c) (city_longitude c) (Some c) in
          (Ok response, st2, calls)).
Proof.
  intros Hwf Hid Hz Hc Hcid.
  unfold WeatherView.post, WeatherRequestSerializer.is_valid,
    WeatherRequestSerializer.validate.
  rewrite Hid. simpl WeatherRequestSerializer.int_given.
  destruct (Z.eqb_spec z 0) as [|_]; [contradiction|]. simpl negb. simpl andb.
  cbv iota. rewrite Hid.
  fold (effective_session_key session_key created_key).
  pose proof (get_or_create_user_wf now st
                (effective_session_key session_key created_key) Hwf) as Hwf1.
  destruct (get_or_create_user_ok now st
              (effective_session_key session_key created_key) (wf_sessions st Hwf))
    as [user [st1 [Hrun [Hc1 [Hs1 [Hkey Huser]]]]]].
  rewrite Hrun in Hwf1 |- *. simpl in Hwf1.
  simpl WeatherRequestSerializer.int_given.
  destruct (Z.eqb_spec z 0) as [|_]; [contradiction|]. simpl negb. cbv iota.
  exists user, st1. repeat (split; [assumption|]).
  destruct (objects_get_found City Z city_id (fun c0 => city_id c0 =? z) z
              (cities st1) c (fun c0 => Z.eqb_eq (city_id c0) z)
              (wf_city_ids st1 Hwf1)) as [_ ->].
  - now rewrite Hc1.
  - now apply Z.eqb_eq.
  - reflexivity.
Qed.

(** X6. Weather for a stored city when the forecast cannot be had (the
    provider fails or its response cannot be normalized): the answer is
    500 with the error, one forecast request was made for the
    coordinates of the city, and nothing is recorded: the City and
    SearchHistory tables are as before. *)
Theorem weather_by_city_failure
    (upstream : Upstream) (now : timestamp) (created_key : string) (st : Store)
    (session_key : option string) (data : WeatherRequestSerializer.Data)
    (z : Z) (c : City) (e : exn) :
  wf_store st ->
  WeatherRequestSerializer.city_id data = Some z -> z <> 0 ->
  In c (cities st) -> city_id c = z ->
  fst (WeatherService.get_weather_data upstream (city_latitude c) (city_longitude c))
  = Raise e ->
  exists st',
    WeatherView.post upstream now created_key st session_key data
    = (Ok {| status := 500; body := ErrorOf e |}, st',
       [WeatherService.forecast_request (city_latitude c) (city_longitude c)])
    /\ cities st' = cities st
    /\ searches st' = searches st.
Proof.
  intros Hwf Hid Hz Hc Hcid Hfail.
  destruct (post_city_path upstream now created_key st session_key data z c
              Hwf Hid Hz Hc Hcid) as [user [st1 [_ [Hc1 [Hs1 [_ [_ ->]]]]]]].
  unfold WeatherView.fetch_and_save.
  destruct (WeatherService.get_weather_data upstream (city_latitude c) (city_longitude c))
    as [outcome calls] eqn:Hget.
  assert (Hcalls : calls = [WeatherService.forecast_request (city_latitude c)
                              (city_longitude c)]).
  { unfold WeatherService.get_weather_data in Hget. now inversion Hget. }
  simpl in Hfail. subst outcome calls.
  exists st1. repeat split; assumption.
Qed.

Lemma weather_by_city_failure_witness :
  exists st',
    WeatherView.post (fun _ => HttpError "timeout") 30 "fresh" sample_store
      (Some "session-a")
      {| WeatherRequestSerializer.city_id := Some 2;
         WeatherRequestSerializer.latitude := None;
         WeatherRequestSerializer.longitude := None |}
    = (Ok {| status := 500;
             body := ErrorOf (Exception "Failed to fetch weather data: timeout") |}, st',
       [WeatherService.forecast_request
          (S754_finite false 6875955173580918 (-47))
          (S754_finite false 5296683521750440 (-51))])
    /\ searches st' = searches sample_store.
Proof.
  destruct (weather_by_city_failure (fun _ => HttpError "timeout") 30 "fresh" sample_store
              (Some "session-a")
              {| WeatherRequestSerializer.city_id := Some 2;
                 WeatherRequestSerializer.latitude := None;
                 WeatherRequestSerializer.longitude := None |}
              2
              {| city_id := 2; city_name := "Paris"; city_country := "France";
                 city_admin1 := None;
                 city_latitude := S754_finite false 6875955173580918 (-47);
                 city_longitude := S754_finite false 5296683521750440 (-51) |}
              (Exception "Failed to fetch weather data: timeout")
              sample_store_wf eq_refl) as [st' [H1 [_ H3]]].
  - discriminate.
  - simpl. right. now left.
  - reflexivity.
  - reflexivity.
  - exists st'. split; [exact H1 | exact H3].
Defined.

(** X7. Weather for a stored city when the forecast is had: the answer
    is 200 with the normalized forecast and the serialized city; one
    forecast request was made for the coordinates of the city; no City
    is added; the search is recorded for the user of the session, in an
    entry for that city whose [last_searched] is the time of the
    request; and the sum of all counts is one more than before. *)
Theorem weather_by_city_success
    (upstream : Upstream) (now : timestamp) (created_key : string) (st : Store)
    (session_key : option string) (data : WeatherRequestSerializer.Data)
    (z : Z) (c : City) (weather_data : WeatherService.WeatherData) :
  wf_store st ->
  WeatherRequestSerializer.city_id data = Some z -> z <> 0 ->
  In c (cities st) -> city_id c = z ->
  fst (WeatherService.get_weather_data upstream (city_latitude c) (city_longitude c))
  = Ok weather_data ->
  exists st',
    WeatherView.post upstream now created_key st session_key data
    = (Ok {| status := 200;
             body := WeatherBody weather_data (Some (CitySerializer.data c)) |}, st',
       [WeatherService.forecast_request (city_latitude c) (city_longitude c)])
    /\ cities st' = cities st
    /\ Sum (map sh_search_count (searches st'))
       = Sum (map sh_search_count (searches st)) + 1
    /\ exists user h,
         In user (users st')
         /\ user_session_key user = effective_session_key session_key created_key
         /\ In h (searches st')
         /\ sh_user h = user_id user /\ sh_city h = z /\ sh_last_searched h = now.
Proof.
  intros Hwf Hid Hz Hc Hcid Hgot.
  destruct (post_city_path upstream now created_key st session_key data z c
              Hwf Hid Hz Hc Hcid) as [user [st1 [Hwf1 [Hc1 [Hs1 [Huser [Hkey ->]]]]]]].
  unfold WeatherView.fetch_and_save.
  destruct (WeatherService.get_weather_data upstream (city_latitude c) (city_longitude c))
    as [outcome calls] eqn:Hget.
  assert (Hcalls : calls = [WeatherService.forecast_request (city_latitude c)
                              (city_longitude c)]).
  { unfold WeatherService.get_weather_data in Hget. now inversion Hget. }
  simpl in Hgot. subst outcome calls.
  assert (Hc' : In c (cities st1)) by now rewrite Hc1.
  pose proof (save_search_sum now st1 user
                {| UserService.cd_name := city_name c;
                   UserService.cd_country := city_country c;
                   UserService.cd_admin1 := Some (city_admin1 c);
                   UserService.cd_latitude := city_latitude c;
                   UserService.cd_longitude := city_longitude c |} Hwf1 Huser) as Hsum.
  destruct (save_search_of_stored_city now st1 user c Hwf1 Huser Hc')
    as [h [st2 [Hrun [Hu2 [Hc2 [Hhu [Hhc [Hhl Hhin]]]]]]]].
  rewrite Hrun in Hsum |- *. simpl in Hsum.
  exists st2. split; [reflexivity|]. split; [congruence|]. split; [congruence|].
  exists user, h. rewrite Hu2. repeat split; try assumption. congruence.
Qed.

Lemma weather_by_city_success_witness :
  exists st',
    snd (fst (WeatherView.post (fun _ => HttpJson short_response) 30 "fresh" sample_store
                (Some "session-b")
                {| WeatherRequestSerializer.city_id := Some 2;
                   WeatherRequestSerializer.latitude := None;
                   WeatherRequestSerializer.longitude := None |})) = st'
    /\ cities st' = cities sample_store
    /\ Sum (map sh_search_count (searches st')) = 10.
Proof.
  destruct (format_weather_data_ok short_response eq_refl) as [w [Hw _]].
  destruct (weather_by_city_success (fun _ => HttpJson short_response) 30 "fresh"
              sample_store (Some "session-b")
              {| WeatherRequestSerializer.city_id := Some 2;
                 WeatherRequestSerializer.latitude := None;
                 WeatherRequestSerializer.longitude := None |}
              2
              {| city_id := 2; city_name := "Paris"; city_country := "France";
                 city_admin1 := None;
                 city_latitude := S754_finite false 6875955173580918 (-47);
                 city_longitude := S754_finite false 5296683521750440 (-51) |}
              w sample_store_wf eq_refl) as [st' [H1 [H2 [H3 _]]]].
  - discriminate.
  - simpl. right. now left.
  - reflexivity.
  - exact Hw.
  - exists st'. rewrite H1. simpl. split; [reflexivity|]. split; [exact H2 | exact H3].
Defined.

(** X8. Weather by coordinates (no city id, or the city id 0, and two
    coordinates other than zero) records no search: one forecast
    request is made for the given coordinates, the answer is 200 with
    the normalized forecast and no city, or 500 with the error, and the
    City and SearchHistory tables are as before. *)
Theorem weather_by_coordinates
    (upstream : Upstream) (now : timestamp) (created_key : string) (st : Store)
    (session_key : option string) (data : WeatherRequestSerializer.Data)
    (lat lon : float) :
  wf_store st ->
  WeatherRequestSerializer.int_given (WeatherRequestSerializer.city_id data) = false ->
  WeatherRequestSerializer.latitude data = Some lat ->
  WeatherRequestSerializer.longitude data = Some lon ->
  float_truthy lat = true -> float_truthy lon = true ->
  exists st',
    WeatherView.post upstream now created_key st session_key data
    = (Ok match fst (WeatherService.get_weather_data upstream lat lon) with
          | Ok weather_data => {| status := 200; body := WeatherBody weather_data None |}
          | Raise e => {| status := 500; body := ErrorOf e |}
          end,
       st', [WeatherService.forecast_request lat lon])
    /\ cities st' = cities st
    /\ searches st' = searches st.
Proof.
  intros Hwf Hid Hlat Hlon Htlat Htlon.
  unfold WeatherView.post, WeatherRequestSerializer.is_valid,
    WeatherRequestSerializer.validate.
  rewrite Hid, Hlat, Hlon. simpl WeatherRequestSerializer.float_given.
  rewrite Htlat, Htlon. simpl negb. simpl andb. cbv iota.
  fold (effective_session_key session_key created_key).
  destruct (get_or_create_user_ok now st
              (effective_session_key session_key created_key) (wf_sessions st Hwf))
    as [user [st1 [-> [Hc1 [Hs1 _]]]]].
  rewrite Hid, Hlat, Hlon.
  unfold WeatherView.fetch_and_save.
  destruct (WeatherService.get_weather_data upstream lat lon) as [outcome calls] eqn:Hget.
  assert (Hcalls : calls = [WeatherService.forecast_request lat lon]).
  { unfold WeatherService.get_weather_data in Hget. now inversion Hget. }
  subst calls. simpl fst.
  exists st1. destruct outcome; repeat split; assumption.
Qed.

Lemma weather_by_coordinates_witness :
  exists st',
    snd (fst (WeatherView.post empty_upstream 0 "fresh" sample_store (Some "session-a")
                {| WeatherRequestSerializer.city_id := Some 0;
                   WeatherRequestSerializer.latitude := Some (UserService.cd_latitude london);
                   WeatherRequestSerializer.longitude :=
                     Some (UserService.cd_longitude london) |})) = st'
    /\ searches st' = searches sample_store.
Proof.
  destruct (weather_by_coordinates empty_upstream 0 "fresh" sample_store (Some "session-a")
              {| WeatherRequestSerializer.city_id := Some 0;
                 WeatherRequestSerializer.latitude := Some (UserService.cd_latitude london);
                 WeatherRequestSerializer.longitude :=
                   Some (UserService.cd_longitude london) |}
              (UserService.cd_latitude london) (UserService.cd_longitude london)
              sample_store_wf eq_refl eq_refl eq_refl eq_refl eq_refl)
    as [st' [H1 [_ H3]]].
  exists st'. rewrite H1. simpl. split; [reflexivity | exact H3].
Defined.

(** ** The invariants of the ledger under the weather view *)

Lemma save_search_positive_rows
    (now : timestamp) (st : Store) (user : User) (city_data : UserService.CityData) :
  wf_store st ->
  In user (users st) ->
  Forall (fun h => 1 <= sh_search_count h) (searches st) ->
  Forall (fun h => 1 <= sh_search_count h)
    (searches (snd (UserService.save_search now st user city_data))).
Proof.
  intros Hwf Huser Hpos. rewrite Forall_forall in Hpos.
  destruct (save_search_effect now st user city_data Hwf Huser)
    as [c [h [st' [Hrun [_ [_ [_ [_ Hentry]]]]]]]].
  rewrite Hrun. simpl.
  assert (Hh : 1 <= sh_search_count h).
  { destruct Hentry as [[h0 [Hh0 [_ [-> _]]]]|[_ [-> _]]]; simpl; [|lia].
    specialize (Hpos h0 Hh0). lia. }
  apply Forall_forall. intros x Hx.
  destruct Hentry as [[h0 [Hh0 [_ [_ Hrows]]]]|[_ [_ Hrows]]]; rewrite Hrows in Hx.
  - unfold UserService.save_row in Hx. apply in_map_iff in Hx.
    destruct Hx as [y [Hy Hin]].
    destruct (sh_id y =? sh_id h); subst x; [exact Hh | now apply Hpos].
  - apply in_app_or in Hx. destruct Hx as [Hx|[<-|[]]]; [now apply Hpos | exact Hh].
Qed.

Lemma fetch_and_save_positive (upstream : Upstream) (now : timestamp) (st : Store)
    (user : User) (latitude longitude : float) (city : option City) :
  wf_store st -> In user (users st) ->
  Forall (fun h => 1 <= sh_search_count h) (searches st) ->
  Forall (fun h => 1 <= sh_search_count h)
    (searches (snd (fst (WeatherView.fetch_and_save upstream now st user
                           latitude longitude city)))).
Proof.
  intros Hwf Huser Hpos.
  unfold WeatherView.fetch_and_save, WeatherService.get_weather_data.
  match goal with
  | |- context [match ?r with Ok _ => _ | Raise _ => _ end] => destruct r as [w|e]
  end; [|exact Hpos].
  destruct city as [c|]; [|exact Hpos].
  match goal with
  | |- context [UserService.save_search now st user ?cd] =>
      pose proof (save_search_positive_rows now st user cd Hwf Huser Hpos) as Hsaved;
      destruct (UserService.save_search now st user cd) as [[h|e] st']
  end; exact Hsaved.
Qed.

(** X9. The weather view keeps the ledger sound, whatever the request
    and whatever the provider answers: if the store meets the storage
    constraints (unique keys, unique session keys, unique city tuples,
    one entry per user and city, valid references) and every
    search_count is at least 1, the same holds of the store after the
    request. *)
Theorem weather_view_keeps_invariants
    (upstream : Upstream) (now : timestamp) (created_key : string) (st : Store)
    (session_key : option string) (data : WeatherRequestSerializer.Data) :
  wf_store st ->
  Forall (fun h => 1 <= sh_search_count h) (searches st) ->
  wf_store (snd (fst (WeatherView.post upstream now created_key st session_key data)))
  /\ Forall (fun h => 1 <= sh_search_count h)
       (searches (snd (fst (WeatherView.post upstream now created_key st
                              session_key data)))).
Proof.
  intros Hwf Hpos. split; [now apply weather_view_post_wf|].
  unfold WeatherView.post.
  destruct (WeatherRequestSerializer.is_valid data) as [validated|errors]; [|exact Hpos].
  match goal with
  | |- context [UserService.get_or_create_user now st ?k] =>
      pose proof (get_or_create_user_wf now st k Hwf) as Hwf1;
      destruct (get_or_create_user_ok now st k (wf_sessions st Hwf))
        as [user [st1 [Hrun [_ [Hs1 [_ Huser]]]]]];
      rewrite Hrun in Hwf1 |- *; simpl in Hwf1
  end.
  rewrite <- Hs1 in Hpos.
  destruct (WeatherRequestSerializer.int_given _).
  - destruct (WeatherRequestSerializer.city_id validated) as [wanted|]; [|exact Hpos].
    destruct (objects_get _ (cities st1)) as [city|e].
    + pose proof (fetch_and_save_positive upstream now st1 user (city_latitude city)
                    (city_longitude city) (Some city) Hwf1 Huser Hpos) as Hdone.
      destruct (WeatherView.fetch_and_save upstream now st1 user (city_latitude city)
                  (city_longitude city) (Some city)) as [[response st2] calls].
      exact Hdone.
    + destruct e; exact Hpos.
  - destruct (WeatherRequestSerializer.latitude validated) as [latitude|];
      [|exact Hpos].
    destruct (WeatherRequestSerializer.longitude validated) as [longitude|];
      [|exact Hpos].
    pose proof (fetch_and_save_positive upstream now st1 user latitude longitude None
                  Hwf1 Huser Hpos) as Hdone.
    destruct (WeatherView.fetch_and_save upstream now st1 user latitude longitude None)
      as [[response st2] calls].
    exact Hdone.
Qed.

Lemma sample_store_positive :
  Forall (fun h => 1 <= sh_search_count h) (searches sample_store).
Proof. simpl. repeat (apply Forall_cons; [simpl; lia|]). apply Forall_nil. Qed.

Lemma weather_view_keeps_invariants_witness :
  wf_store
    (snd (fst (WeatherView.post (fun _ => HttpJson short_response) 30 "fresh" sample_store
                 (Some "session-b")
                 {| WeatherRequestSerializer.city_id := Some 2;
                    WeatherRequestSerializer.latitude := None;
                    WeatherRequestSerializer.longitude := None |}))).
Proof.
  exact (proj1 (weather_view_keeps_invariants (fun _ => HttpJson short_response) 30 "fresh"
                  sample_store (Some "session-b")
                  {| WeatherRequestSerializer.city_id := Some 2;
                     WeatherRequestSerializer.latitude := None;
                     WeatherRequestSerializer.longitude := None |}
                  sample_store_wf sample_store_positive)).
Defined.

(** ** The city search view *)

(** What the serializer lets through: the trimmed query, of 2 to 200
    characters, without NUL. *)
Lemma city_search_valid_inv (query : option string) (v : string) :
  CitySearchSerializer.is_valid query = inl v ->
  exists data,
    query = Some data /\ v = strip data
    /\ (2 <= String.length v <= 200)%nat
    /\ has_null v = false.
Proof.
  unfold CitySearchSerializer.is_valid, CitySearchSerializer.query_field,
    CitySearchSerializer.validate_query.
  destruct query as [data|]; [|discriminate].
  destruct (String.eqb (strip data) EmptyString); [discriminate|].
  destruct (Nat.ltb_spec 200 (String.length (strip data))) as [Hl|Hl];
    [destruct (has_null (strip data)); discriminate|].
  destruct (has_null (strip data)) eqn:Hn; [discriminate|]. simpl.
  rewrite strip_idempotent.
  destruct (Nat.ltb_spec (String.length (strip data)) 2) as [Hs|Hs]; [discriminate|].
  intros H. inversion H; subst. exists data. repeat split; auto.
Qed.

(** X10. The city search view sends the provider nothing but a
    validated query: every outbound request is the only one, is a
    geocoding request for at most 10 matches in English, and its name
    has no surrounding whitespace, 2 to 200 characters and no NUL. *)
Theorem city_search_request_shape
    (upstream : Upstream) (query : option string) (r : Request) :
  In r (snd (CitySearchView.post upstream query)) ->
  snd (CitySearchView.post upstream query) = [r]
  /\ exists name,
       r = Geocoding name 10 "en" "json"
       /\ strip name = name
       /\ (2 <= String.length name <= 200)%nat
       /\ has_null name = false.
Proof.
  unfold CitySearchView.post.
  destruct (CitySearchSerializer.is_valid query) as [v|errors] eqn:Hvalid;
    [|intros []].
  destruct (city_search_valid_inv query v Hvalid) as [data [_ [Hv [Hlen Hnul]]]].
  unfold WeatherService.search_cities, WeatherService.geocoding_request.
  match goal with
  | |- context [match ?o with Ok _ => _ | Raise _ => _ end] => destruct o
  end; simpl; (intros [<-|[]]; split; [reflexivity|]; exists v;
               split; [reflexivity|]; split; [subst v; apply strip_idempotent|];
               split; assumption).
Qed.

Lemma city_search_request_shape_witness :
  snd (CitySearchView.post empty_upstream (Some "  New York "))
  = [Geocoding "New York" 10 "en" "json"].
Proof.
  apply (proj1 (city_search_request_shape empty_upstream (Some "  New York ")
                  (Geocoding "New York" 10 "en" "json") (or_introl eq_refl))).
Defined.

(** X11. Validation is idempotent: a value that the city search
    serializer has accepted is accepted again and comes back
    unchanged. *)
Theorem city_search_validation_idempotent (query : option string) (v : string) :
  CitySearchSerializer.is_valid query = inl v ->
  CitySearchSerializer.is_valid (Some v) = inl v.
Proof.
  intros Hvalid.
  destruct (city_search_valid_inv query v Hvalid) as [data [_ [Hv [[Hlo Hhi] Hnul]]]].
  assert (Hfix : strip v = v) by (subst v; apply strip_idempotent).
  unfold CitySearchSerializer.is_valid, CitySearchSerializer.query_field,
    CitySearchSerializer.validate_query.
  rewrite Hfix, Hnul.
  destruct (String.eqb_spec v EmptyString) as [E|_].
  { rewrite E in Hlo. simpl in Hlo. lia. }
  destruct (Nat.ltb_spec 200 (String.length v)) as [Hl|_]; [lia|]. simpl.
  rewrite Hfix.
  destruct (Nat.ltb_spec (String.length v) 2) as [Hs|_]; [lia|]. reflexivity.
Qed.

Lemma city_search_validation_idempotent_witness :
  CitySearchSerializer.is_valid (Some "New York") = inl "New York".
Proof.
  exact (city_search_validation_idempotent (Some "  New York ") "New York" eq_refl).
Defined.

(** X12. The answers of the city search view to a valid query: a
    failure of the provider is answered with 500 and the message of
    [search_cities]; a response without 'results' with 200 and no
    city; a response whose 'results' are objects with 200, one city
    per result, and a count that is the number of results. *)
Theorem city_search_answers
    (upstream : Upstream) (query : option string) (v : string) :
  CitySearchSerializer.is_valid query = inl v ->
  (forall msg,
     upstream (Geocoding v 10 "en" "json") = HttpError msg ->
     fst (CitySearchView.post upstream query)
     = {| status := 500;
          body := ErrorOf (Exception ("Failed to search cities: " ++ msg)) |})
  /\ (forall kv,
        upstream (Geocoding v 10 "en" "json") = HttpJson (PyDict kv) ->
        assoc "results" kv = None ->
        fst (CitySearchView.post upstream query)
        = {| status := 200; body := CitiesBody [] 0 |})
  /\ (forall kv results,
        upstream (Geocoding v 10 "en" "json") = HttpJson (PyDict kv) ->
        assoc "results" kv = Some (PyList results) ->
        Forall is_dict results ->
        exists cities,
          fst (CitySearchView.post upstream query)
          = {| status := 200; body := CitiesBody cities (List.length results) |}
          /\ List.length cities = List.length results).
Proof.
  intros Hvalid. unfold CitySearchView.post. rewrite Hvalid.
  unfold WeatherService.search_cities, WeatherService.geocoding_request.
  split; [|split].
  - intros msg Hup. now rewrite Hup.
  - intros kv Hup Hres. rewrite Hup. unfold contains, Py.bind. now rewrite Hres.
  - intros kv results Hup Hres Hdict. rewrite Hup.
    unfold contains, getitem_str, Py.bind. rewrite Hres. simpl iter.
    destruct (mapM_total _ _ WeatherService.city_match results) as [cities Hc].
    { intros r Hr. apply city_match_total. rewrite Forall_forall in Hdict.
      now apply Hdict. }
    rewrite Hc. exists cities. simpl.
    pose proof (mapM_length _ _ WeatherService.city_match results cities Hc) as Hlen.
    rewrite Hlen. now split.
Qed.

Lemma city_search_answers_witness :
  fst (CitySearchView.post (fun _ => HttpError "503 Server Error") (Some "London"))
  = {| status := 500;
       body := ErrorOf (Exception "Failed to search cities: 503 Server Error") |}.
Proof.
  exact (proj1 (city_search_answers (fun _ => HttpError "503 Server Error")
                  (Some "London") "London" eq_refl) "503 Server Error" eq_refl).
Defined.

(** ** The normalizer: what its output always satisfies *)

Lemma bind_Ok_inv (A B : Type) (c : result A) (k : A -> result B) (b : B) :
  Py.bind c k = Ok b -> exists a, c = Ok a /\ k a = Ok b.
Proof. destruct c as [a|e]; simpl; [eauto|discriminate]. Qed.

Lemma mapM_In_inv (A B : Type) (f : A -> result B) (xs : list A) (ys : list B) :
  mapM f xs = Ok ys -> forall y, In y ys -> exists x, In x xs /\ f x = Ok y.
Proof.
  revert ys. induction xs as [|x xs IH]; simpl; intros ys H y Hy.
  - inversion H; subst. contradiction.
  - apply bind_Ok_inv in H. destruct H as [y0 [Hy0 H]].
    apply bind_Ok_inv in H. destruct H as [ys' [Hys' H]].
    inversion H; subst. destruct Hy as [<-|Hy]; [eauto|].
    destruct (IH ys' Hys' y Hy) as [x' [Hx' Hf]]. eauto.
Qed.

Ltac invert_binds H :=
  repeat (apply bind_Ok_inv in H;
          let a := fresh "v" in
          let Ha := fresh "Hv" in
          destruct H as [a [Ha H]]).

Lemma hourly_entry_description (hourly : value) (i : nat) (e : WeatherService.HourlyEntry) :
  WeatherService.hourly_entry hourly i = Ok e ->
  WeatherService._get_weather_description (WeatherService.h_weather_code e)
  = Ok (WeatherService.h_weather_description e).
Proof.
  unfold WeatherService.hourly_entry. intros H. invert_binds H.
  inversion H; subst; simpl. congruence.
Qed.

Lemma daily_entry_description (daily : value) (i : nat) (e : WeatherService.DailyEntry) :
  WeatherService.daily_entry daily i = Ok e ->
  WeatherService._get_weather_description (WeatherService.d_weather_code e)
  = Ok (WeatherService.d_weather_description e).
Proof.
  unfold WeatherService.daily_entry. intros H. invert_binds H.
  inversion H; subst; simpl. congruence.
Qed.

Lemma format_hourly_entries (hourly : value) (hf : list WeatherService.HourlyEntry) :
  WeatherService.format_hourly hourly = Ok hf ->
  forall e, In e hf -> exists i, WeatherService.hourly_entry hourly i = Ok e.
Proof.
  unfold WeatherService.format_hourly. intros H e He.
  apply bind_Ok_inv in H. destruct H as [t [_ H]].
  destruct (truthy t); [|inversion H; subst; contradiction].
  invert_binds H.
  destruct (mapM_In_inv _ _ _ _ _ H e He) as [i [_ Hi]]. eauto.
Qed.

Lemma format_daily_entries (daily : value) (df : list WeatherService.DailyEntry) :
  WeatherService.format_daily daily = Ok df ->
  forall e, In e df -> exists i, WeatherService.daily_entry daily i = Ok e.
Proof.
  unfold WeatherService.format_daily. intros H e He.
  apply bind_Ok_inv in H. destruct H as [t [_ H]].
  destruct (truthy t); [|inversion H; subst; contradiction].
  invert_binds H.
  destruct (mapM_In_inv _ _ _ _ _ H e He) as [i [_ Hi]]. eauto.
Qed.

(** X13. In every result of the normalizer, a description is the
    description of the weather code beside it: in the current weather,
    in each hourly entry and in each daily entry,
    [weather_description] is what the dictionary gives for
    [weather_code]. *)
Theorem descriptions_match_codes (raw : value) (out : WeatherService.WeatherData) :
  WeatherService._format_weather_data raw = Ok out ->
  WeatherService._get_weather_description
    (WeatherService.cw_weather_code (WeatherService.current_weather out))
  = Ok (WeatherService.cw_weather_description (WeatherService.current_weather out))
  /\ Forall (fun e => WeatherService._get_weather_description (WeatherService.h_weather_code e)
                      = Ok (WeatherService.h_weather_description e))
       (WeatherService.hourly_forecast out)
  /\ Forall (fun e => WeatherService._get_weather_description (WeatherService.d_weather_code e)
                      = Ok (WeatherService.d_weather_description e))
       (WeatherService.daily_forecast out).
Proof.
  unfold WeatherService._format_weather_data. intros H.
  apply bind_Ok_inv in H. destruct H as [current [_ H]].
  apply bind_Ok_inv in H. destruct H as [hourly [_ H]].
  apply bind_Ok_inv in H. destruct H as [daily [_ H]].
  apply bind_Ok_inv in H. destruct H as [cw [Hcw H]].
  apply bind_Ok_inv in H. destruct H as [hf [Hhf H]].
  apply bind_Ok_inv in H. destruct H as [df [Hdf H]].
  invert_binds H. inversion H; subst; simpl. clear H.
  split; [|split].
  - unfold WeatherService.format_current in Hcw. invert_binds Hcw.
    inversion Hcw; subst; simpl. congruence.
  - apply Forall_forall. intros e He.
    destruct (format_hourly_entries hourly hf Hhf e He) as [i Hi].
    now apply (hourly_entry_description hourly i).
  - apply Forall_forall. intros e He.
    destruct (format_daily_entries daily df Hdf e He) as [i Hi].
    now apply (daily_entry_description daily i).
Qed.

Lemma descriptions_match_codes_witness :
  exists out,
    WeatherService._format_weather_data short_response = Ok out
    /\ WeatherService._get_weather_description
         (WeatherService.cw_weather_code (WeatherService.current_weather out))
       = Ok (WeatherService.cw_weather_description (WeatherService.current_weather out)).
Proof.
  destruct (format_weather_data_ok short_response eq_refl) as [out [Hout _]].
  exists out. split; [exact Hout|].
  exact (proj1 (descriptions_match_codes short_response out Hout)).
Defined.

Lemma nth_firstn_below (A : Type) (l : list A) (n i : nat) (d : A) :
  (i < n)%nat -> nth i (firstn n l) d = nth i l d.
Proof.
  revert n i. induction l as [|x l IH]; intros n i Hi.
  - rewrite firstn_nil. reflexivity.
  - destruct n as [|n]; [lia|]. destruct i as [|i]; simpl; [reflexivity|].
    apply IH. lia.
Qed.

(** A list read entry by entry from another is a projection of it. *)
Lemma map_by_index (A B : Type) (f : A -> B) (l : list A) (src : list B) (d : B) :
  List.length l = List.length src ->
  (forall i e, nth_error l i = Some e -> f e = nth i src d) ->
  map f l = src.
Proof.
  intros Hlen Hread. apply (nth_ext _ _ d d).
  - now rewrite length_map.
  - intros i Hi. rewrite length_map in Hi.
    destruct (nth_error l i) as [e|] eqn:He.
    + rewrite (nth_error_nth _ _ d (map_nth_error f i l He)). now apply Hread.
    + apply nth_error_None in He. lia.
Qed.

(** X14. On a well-formed forecast response the entries follow the
    time arrays: the times of the hourly entries are the first 24
    entries of the hourly time array, in order, and the dates of the
    daily entries are the daily time array. *)
Theorem entries_follow_time_arrays (raw : value) :
  well_formed_response raw = true ->
  exists out,
    WeatherService._format_weather_data raw = Ok out
    /\ map WeatherService.h_time (WeatherService.hourly_forecast out)
       = firstn 24 (series (block raw "hourly") "time")
    /\ map WeatherService.d_date (WeatherService.daily_forecast out)
       = series (block raw "daily") "time".
Proof.
  intros Hwf.
  destruct (format_weather_data_ok raw Hwf) as [out [Hout [Hh Hd]]].
  destruct (well_formed_blocks raw Hwf) as [Hwh Hwd].
  destruct (format_hourly_ok _ Hwh) as [hf [Hhf [Hlh Hhe]]].
  destruct (format_daily_ok _ Hwd) as [df [Hdf [Hld Hde]]].
  rewrite Hh in Hhf. rewrite Hd in Hdf. inversion Hhf; inversion Hdf; subst hf df.
  exists out. split; [exact Hout|]. split.
  - apply (map_by_index _ _ _ _ _ PyNone).
    + now rewrite length_firstn.
    + intros i e Hi. destruct (Hhe i e Hi) as [He Hlt].
      destruct (hourly_entry_ok _ i Hwh Hlt) as [d [_ Hrun]].
      rewrite Hrun in He. inversion He; subst e. cbn [WeatherService.h_time].
      rewrite nth_firstn_below; [reflexivity|].
      assert (Hi' : (i < List.length (WeatherService.hourly_forecast out))%nat)
        by (apply nth_error_Some; congruence).
      lia.
  - apply (map_by_index _ _ _ _ _ PyNone).
    + exact Hld.
    + intros i e Hi. destruct (Hde i e Hi) as [He Hlt].
      destruct (daily_entry_ok _ i Hwd Hlt) as [d [_ Hrun]].
      rewrite Hrun in He. inversion He; subst e. reflexivity.
Qed.

Lemma entries_follow_time_arrays_witness :
  exists out,
    WeatherService._format_weather_data short_response = Ok out
    /\ map WeatherService.h_time (WeatherService.hourly_forecast out)
       = [PyStr "2024-01-15T13:00"; PyStr "2024-01-15T14:00"; PyStr "2024-01-15T15:00"].
Proof.
  destruct (entries_follow_time_arrays short_response eq_refl) as [out [H1 [H2 _]]].
  exists out. split; [exact H1 | exact H2].
Defined.

(** ** The normalizer: how it can fail *)

Lemma bind_fails_only_by_lookup (A B : Type) (c : result A) (k : A -> result B) :
  fails_only_by_lookup c ->
  (forall a, c = Ok a -> fails_only_by_lookup (k a)) ->
  fails_only_by_lookup (Py.bind c k).
Proof. destruct c as [a|e]; simpl; intros Hc Hk; [now apply Hk | exact Hc]. Qed.

Lemma mapM_fails_only_by_lookup (A B : Type) (f : A -> result B) (xs : list A) :
  (forall x, In x xs -> fails_only_by_lookup (f x)) -> fails_only_by_lookup (mapM f xs).
Proof.
  induction xs as [|x xs IH]; simpl; intros Hf; [exact I|].
  apply bind_fails_only_by_lookup; [apply Hf; now left|]. intros y _.
  apply bind_fails_only_by_lookup; [apply IH; intros; apply Hf; now right|].
  intros ys _. exact I.
Qed.

Lemma get_default_fails_only_by_lookup (d : value) (k : string) (default : value) :
  fails_only_by_lookup (get_default d k default).
Proof. destruct d; simpl; unfold lookup_failure; auto. Qed.

Lemma get_fails_only_by_lookup (d : value) (k : string) :
  fails_only_by_lookup (Py.get d k).
Proof. apply get_default_fails_only_by_lookup. Qed.

Lemma getitem_str_fails_only_by_lookup (d : value) (k : string) :
  fails_only_by_lookup (getitem_str d k).
Proof.
  destruct d; simpl; unfold lookup_failure; auto.
  destruct (assoc k kv); simpl; unfold lookup_failure; auto.
Qed.

Lemma len_fails_only_by_lookup (v : value) : fails_only_by_lookup (len v).
Proof. destruct v; simpl; unfold lookup_failure; auto. Qed.

Lemma describe_fails_only_by_lookup (v : value) :
  fails_only_by_lookup (WeatherService._get_weather_description v).
Proof. destruct v; simpl; unfold lookup_failure; auto. Qed.

Lemma getitem_int_fails_only_by_lookup (v : value) (i n : nat) :
  len v = Ok n -> (i < n)%nat -> fails_only_by_lookup (getitem_int v i).
Proof.
  intros Hn Hi.
  pose proof (getitem_int_in_range v i n Hn Hi) as Hno. unfold no_index_error in Hno.
  destruct v; simpl in *; unfold lookup_failure; auto.
  - destruct (String.get i s); [exact I | congruence].
  - destruct (nth_error l i); [exact I | congruence].
Qed.

Lemma metric_at_fails_only_by_lookup (blk : value) (key : string) (i : nat) :
  fails_only_by_lookup (WeatherService.metric_at blk key i).
Proof.
  unfold WeatherService.metric_at.
  apply bind_fails_only_by_lookup; [apply get_default_fails_only_by_lookup|].
  intros arr Harr.
  apply bind_fails_only_by_lookup; [apply len_fails_only_by_lookup|]. intros n Hn.
  destruct (Nat.ltb_spec i n) as [Hi|_]; [|exact I].
  apply bind_fails_only_by_lookup; [apply getitem_str_fails_only_by_lookup|].
  intros a Ha.
  apply (getitem_int_fails_only_by_lookup a i n); [|exact Hi].
  destruct blk; try discriminate. simpl in Harr, Ha.
  destruct (assoc key kv); [|discriminate]. congruence.
Qed.

#[local] Hint Resolve get_default_fails_only_by_lookup get_fails_only_by_lookup
  getitem_str_fails_only_by_lookup len_fails_only_by_lookup
  describe_fails_only_by_lookup metric_at_fails_only_by_lookup : no_ie.

Ltac lookup_chain :=
  repeat (apply bind_fails_only_by_lookup; [solve [auto with no_ie]|intros ? ?]);
  try exact I.

Lemma hourly_entry_fails_only_by_lookup (hourly times : value) (i n : nat) :
  getitem_str hourly "time" = Ok times -> len times = Ok n -> (i < n)%nat ->
  fails_only_by_lookup (WeatherService.hourly_entry hourly i).
Proof.
  intros Ht Hn Hi. unfold WeatherService.hourly_entry. rewrite Ht. cbn [Py.bind].
  apply bind_fails_only_by_lookup;
    [now apply (getitem_int_fails_only_by_lookup times i n)|].
  intros t _. lookup_chain.
Qed.

Lemma daily_entry_fails_only_by_lookup (daily times : value) (i n : nat) :
  getitem_str daily "time" = Ok times -> len times = Ok n -> (i < n)%nat ->
  fails_only_by_lookup (WeatherService.daily_entry daily i).
Proof.
  intros Ht Hn Hi. unfold WeatherService.daily_entry. rewrite Ht. cbn [Py.bind].
  apply bind_fails_only_by_lookup;
    [now apply (getitem_int_fails_only_by_lookup times i n)|].
  intros t _. lookup_chain.
Qed.

Lemma format_hourly_fails_only_by_lookup (hourly : value) :
  fails_only_by_lookup (WeatherService.format_hourly hourly).
Proof.
  unfold WeatherService.format_hourly.
  apply bind_fails_only_by_lookup; [auto with no_ie|]. intros t _.
  destruct (truthy t); [|exact I].
  apply bind_fails_only_by_lookup; [auto with no_ie|]. intros times Ht.
  apply bind_fails_only_by_lookup; [auto with no_ie|]. intros n Hn.
  apply mapM_fails_only_by_lookup. intros i Hi. apply in_seq in Hi.
  apply (hourly_entry_fails_only_by_lookup hourly times i n Ht Hn). lia.
Qed.

Lemma format_daily_fails_only_by_lookup (daily : value) :
  fails_only_by_lookup (WeatherService.format_daily daily).
Proof.
  unfold WeatherService.format_daily.
  apply bind_fails_only_by_lookup; [auto with no_ie|]. intros t _.
  destruct (truthy t); [|exact I].
  apply bind_fails_only_by_lookup; [auto with no_ie|]. intros times Ht.
  apply bind_fails_only_by_lookup; [auto with no_ie|]. intros n Hn.
  apply mapM_fails_only_by_lookup. intros i Hi. apply in_seq in Hi.
  apply (daily_entry_fails_only_by_lookup daily times i n Ht Hn). lia.
Qed.

Lemma format_current_fails_only_by_lookup (current : value) :
  fails_only_by_lookup (WeatherService.format_current current).
Proof. unfold WeatherService.format_current. lookup_chain. Qed.

#[local] Hint Resolve format_hourly_fails_only_by_lookup
  format_daily_fails_only_by_lookup format_current_fails_only_by_lookup : no_ie.

(** X15. Whatever the provider sends, the normalizer either returns or
    fails with a TypeError, a KeyError or an AttributeError, and
    [get_weather_data] either returns or fails with one of these or
    with the Exception that reports a failed request. *)
Theorem normalizer_failures (upstream : Upstream) (latitude longitude : float)
    (raw : value) :
  fails_only_by_lookup (WeatherService._format_weather_data raw)
  /\ match fst (WeatherService.get_weather_data upstream latitude longitude) with
     | Ok _ => True
     | Raise e =>
         lookup_failure e
         \/ exists msg, e = Exception ("Failed to fetch weather data: " ++ msg)
     end.
Proof.
  assert (Hall : forall r, fails_only_by_lookup (WeatherService._format_weather_data r)).
  { intros r. unfold WeatherService._format_weather_data. lookup_chain. }
  split; [apply Hall|].
  unfold WeatherService.get_weather_data. simpl.
  destruct (upstream (WeatherService.forecast_request latitude longitude)) as [msg|data].
  - right. now exists msg.
  - specialize (Hall data).
    destruct (WeatherService._format_weather_data data); [exact I | now left].
Qed.

(** ** Ordering by a descending key *)

Section OrderBy.

Variables (A : Type) (key : A -> Z).

Lemma insert_desc_perm (x : A) (l : list A) :
  Permutation (insert_desc key x l) (x :: l).
Proof.
  induction l as [|a l IH]; simpl; [reflexivity|].
  destruct (key x <? key a); [|reflexivity].
  apply perm_trans with (a :: x :: l); [now apply perm_skip | apply perm_swap].
Qed.

Lemma order_by_desc_perm (l : list A) : Permutation (order_by_desc key l) l.
Proof.
  induction l as [|x l IH]; simpl; [reflexivity|].
  apply perm_trans with (x :: order_by_desc key l);
    [apply insert_desc_perm | now apply perm_skip].
Qed.

Lemma insert_desc_sorted (x : A) (l : list A) :
  StronglySorted (fun a b => key b <= key a) l ->
  StronglySorted (fun a b => key b <= key a) (insert_desc key x l).
Proof.
  induction 1 as [|a l Hs IH Hf]; simpl.
  - constructor; constructor.
  - destruct (Z.ltb_spec (key x) (key a)) as [Hlt|Hge].
    + constructor; [exact IH|].
      apply (Permutation_Forall (Permutation_sym (insert_desc_perm x l))).
      constructor; [lia | exact Hf].
    + constructor; [now constructor|].
      constructor; [lia|].
      rewrite Forall_forall in *. intros b Hb. specialize (Hf b Hb). lia.
Qed.

Lemma order_by_desc_sorted (l : list A) :
  StronglySorted (fun a b => key b <= key a) (order_by_desc key l).
Proof.
  induction l as [|x l IH]; simpl; [constructor | now apply insert_desc_sorted].
Qed.

(** A row whose key is above the key of every other row comes first. *)
Lemma order_by_desc_head (l : list A) (x : A) :
  In x l ->
  (forall y, In y l -> y = x \/ key y < key x) ->
  exists rest, order_by_desc key l = x :: rest.
Proof.
  intros Hx Hmax.
  pose proof (order_by_desc_sorted l) as Hs.
  pose proof (order_by_desc_perm l) as Hp.
  assert (Hx' : In x (order_by_desc key l))
    by (apply (Permutation_in _ (Permutation_sym Hp)); exact Hx).
  destruct (order_by_desc key l) as [|a s]; [contradiction|].
  assert (Ha : In a l) by (apply (Permutation_in _ Hp); now left).
  destruct (Hmax a Ha) as [->|Hlt]; [now exists s|].
  exfalso. destruct Hx' as [->|Hin]; [lia|].
  apply StronglySorted_inv in Hs. destruct Hs as [_ Hf].
  rewrite Forall_forall in Hf. specialize (Hf x Hin). lia.
Qed.

End OrderBy.

Lemma insert_desc_map (A B : Type) (f : A -> B) (key : B -> Z) (x : A) (l : list A) :
  insert_desc key (f x) (map f l) = map f (insert_desc (fun a => key (f a)) x l).
Proof.
  induction l as [|a l IH]; simpl; [reflexivity|].
  destruct (key (f x) <? key (f a)); simpl; [now rewrite IH | reflexivity].
Qed.

Lemma order_by_desc_map (A B : Type) (f : A -> B) (key : B -> Z) (l : list A) :
  order_by_desc key (map f l) = map f (order_by_desc (fun a => key (f a)) l).
Proof.
  induction l as [|x l IH]; simpl; [reflexivity|].
  now rewrite IH, insert_desc_map.
Qed.

(** ** Serializing the entries of a sound store *)

Lemma mapM_Forall2 (A B : Type) (f : A -> result B) (xs : list A) (ys : list B) :
  mapM f xs = Ok ys -> Forall2 (fun x y => f x = Ok y) xs ys.
Proof.
  revert ys. induction xs as [|x xs IH]; simpl; intros ys H.
  - inversion H. constructor.
  - apply bind_Ok_inv in H. destruct H as [y [Hy H]].
    apply bind_Ok_inv in H. destruct H as [ys' [Hys' H]].
    inversion H; subst. constructor; [exact Hy | now apply IH].
Qed.

Lemma Forall2_In_right (A B : Type) (P : A -> B -> Prop) (xs : list A) (ys : list B)
    (y : B) :
  Forall2 P xs ys -> In y ys -> exists x, In x xs /\ P x y.
Proof.
  induction 1 as [|x0 y0 xs ys Hxy Hrest IH]; simpl; [contradiction|].
  intros [<-|Hin]; [eauto|]. destruct (IH Hin) as [x [Hx Hp]]. eauto.
Qed.

Lemma Forall2_sorted (A B : Type) (P : A -> B -> Prop) (ka : A -> Z) (kb : B -> Z)
    (xs : list A) (ys : list B) :
  (forall x y, P x y -> kb y = ka x) ->
  Forall2 P xs ys ->
  StronglySorted (fun a b => ka b <= ka a) xs ->
  StronglySorted (fun a b => kb b <= kb a) ys.
Proof.
  intros Hk. induction 1 as [|x y xs ys Hxy Hrest IH]; intros Hs; [constructor|].
  apply StronglySorted_inv in Hs. destruct Hs as [Hs Hf]. constructor; [now apply IH|].
  rewrite Forall_forall in *. intros b Hb.
  destruct (Forall2_In_right _ _ _ _ _ b Hrest Hb) as [a [Ha Hab]].
  rewrite (Hk _ _ Hxy), (Hk _ _ Hab). now apply Hf.
Qed.

Lemma entry_serializes (st : Store) (h : SearchHistory) :
  wf_store st -> In h (searches st) ->
  exists c,
    In c (cities st) /\ city_id c = sh_city h
    /\ SearchHistorySerializer.data st h
       = Ok {| SearchHistorySerializer.id := sh_id h;
               SearchHistorySerializer.city := CitySerializer.data c;
               SearchHistorySerializer.search_count := sh_search_count h;
               SearchHistorySerializer.last_searched := sh_last_searched h;
               SearchHistorySerializer.created_at := sh_created_at h |}.
Proof.
  intros Hwf Hh. destruct (city_of_entry st h Hwf Hh) as [c Hc].
  destruct (filter_In_singleton _ _ _ _ Hc) as [Hcin Hcid]. apply Z.eqb_eq in Hcid.
  exists c. split; [exact Hcin|]. split; [exact Hcid|].
  unfold SearchHistorySerializer.data, objects_get. now rewrite Hc.
Qed.

(** The entries that the history view serializes for a user. *)
Lemma history_rows (st : Store) (u : User) (n : nat) (h : SearchHistory) :
  In h (firstn n (order_by_desc sh_last_searched
                    (filter (fun h => sh_user h =? user_id u) (searches st)))) ->
  In h (searches st) /\ sh_user h = user_id u.
Proof.
  intros Hin.
  assert (Hin' : In h (filter (fun h => sh_user h =? user_id u) (searches st))).
  { apply (Permutation_in _ (order_by_desc_perm _ sh_last_searched _)).
    rewrite <- (firstn_skipn n (order_by_desc _ _)). apply in_or_app. now left. }
  apply filter_In in Hin'. destruct Hin' as [H1 H2]. apply Z.eqb_eq in H2. now split.
Qed.

Lemma session_lookup (st : Store) (key : string) :
  wf_store st ->
  (objects_get (fun u => String.eqb (user_session_key u) key) (users st)
   = Raise DoesNotExist
   /\ forall u, In u (users st) -> user_session_key u <> key)
  \/ exists u,
       objects_get (fun u => String.eqb (user_session_key u) key) (users st) = Ok u
       /\ In u (users st) /\ user_session_key u = key
       /\ forall u', In u' (users st) -> user_session_key u' = key -> u' = u.
Proof.
  intros Hwf.
  destruct (objects_get_unique_key User string user_session_key
              (fun u => String.eqb (user_session_key u) key) key
              (fun u => String.eqb_eq (user_session_key u) key)
              (users st) (wf_sessions st Hwf)) as [[Hnone Hget]|[u [Hone Hget]]].
  - left. split; [exact Hget|]. intros u Hu E.
    rewrite filter_none in Hnone. specialize (Hnone u Hu).
    apply String.eqb_eq in E. congruence.
  - right. exists u. destruct (filter_In_singleton _ _ _ _ Hone) as [Hu Hk].
    apply String.eqb_eq in Hk. repeat split; try assumption.
    intros u' Hu' Hk'.
    apply (NoDup_map_injective_on _ _ user_session_key (users st)); auto.
    + exact (wf_sessions st Hwf).
    + congruence.
Qed.

(** X16. The history view on a sound store always answers: with at
    most 10 entries, the most recently searched first, each the
    serialized form of an entry of the user of the session together
    with its city; for a session with a user the number of entries is
    min(10, number of the user's entries). *)
Theorem history_view_lists_recent_entries (st : Store) (key : string) :
  wf_store st ->
  exists ds,
    SearchHistoryView.get st (Some key) = Ok ds
    /\ (List.length ds <= 10)%nat
    /\ StronglySorted
         (fun a b => SearchHistorySerializer.last_searched b
                     <= SearchHistorySerializer.last_searched a) ds
    /\ (forall d, In d ds ->
          exists u h c,
            In u (users st) /\ user_session_key u = key
            /\ In h (searches st) /\ sh_user h = user_id u
            /\ In c (cities st) /\ city_id c = sh_city h
            /\ d = {| SearchHistorySerializer.id := sh_id h;
                      SearchHistorySerializer.city := CitySerializer.data c;
                      SearchHistorySerializer.search_count := sh_search_count h;
                      SearchHistorySerializer.last_searched := sh_last_searched h;
                      SearchHistorySerializer.created_at := sh_created_at h |})
    /\ (forall u, In u (users st) -> user_session_key u = key -> key <> EmptyString ->
          List.length ds
          = Nat.min 10 (List.length (filter (fun h => sh_user h =? user_id u)
                                       (searches st)))).
Proof.
  intros Hwf.
  unfold SearchHistoryView.get.
  destruct (String.eqb_spec key EmptyString) as [Hkey|Hkey].
  { exists []. split; [reflexivity|]. split; [simpl; lia|]. split; [constructor|].
    split; [intros d []|]. intros u Hu Hk Hne. contradiction. }
  destruct (session_lookup st key Hwf) as [[-> Hnone]|[u [-> [Hu [Hk Huniq]]]]].
  { exists []. split; [reflexivity|]. split; [simpl; lia|]. split; [constructor|].
    split; [intros d []|]. intros u Hu Hk Hne. exfalso. now apply (Hnone u Hu). }
  set (history := firstn 10 (order_by_desc sh_last_searched
                               (filter (fun h => sh_user h =? user_id u) (searches st)))).
  destruct (mapM_total _ _ (SearchHistorySerializer.data st) history) as [ds Hds].
  { intros h Hh. destruct (history_rows st u 10 h Hh) as [Hin _].
    destruct (entry_serializes st h Hwf Hin) as [c [_ [_ Hc]]]. eauto. }
  pose proof (mapM_length _ _ _ _ _ Hds) as Hlen.
  pose proof (mapM_Forall2 _ _ _ _ _ Hds) as Hall.
  exists ds. split; [exact Hds|]. split.
  { rewrite Hlen. apply firstn_le_length. }
  split.
  { apply (Forall2_sorted _ _ _ sh_last_searched _ history ds) with (2 := Hall).
    - intros h d Hd. pose proof Hd as Hd'. unfold SearchHistorySerializer.data in Hd'.
      apply bind_Ok_inv in Hd'. destruct Hd' as [c [_ Hd']]. now inversion Hd'.
    - apply (StronglySorted_app_left _ _ _ (skipn 10 (order_by_desc sh_last_searched
               (filter (fun h => sh_user h =? user_id u) (searches st))))).
      unfold history. rewrite firstn_skipn. apply order_by_desc_sorted. }
  split.
  { intros d Hd. destruct (Forall2_In_right _ _ _ _ _ d Hall Hd) as [h [Hh Hhd]].
    destruct (history_rows st u 10 h Hh) as [Hin Hhu].
    destruct (entry_serializes st h Hwf Hin) as [c [Hc [Hcid Hser]]].
    exists u, h, c. repeat (split; [assumption|]). congruence. }
  intros u' Hu' Hk' _. rewrite (Huniq u' Hu' Hk'). rewrite Hlen. unfold history.
  rewrite length_firstn.
  now rewrite (Permutation_length (order_by_desc_perm _ sh_last_searched _)).
Qed.

Lemma history_view_lists_recent_entries_witness :
  exists ds,
    SearchHistoryView.get sample_store (Some "session-a") = Ok ds
    /\ map (fun d => (CitySerializer.name (SearchHistorySerializer.city d),
                      SearchHistorySerializer.search_count d)) ds
       = [("Paris", 5); ("London", 3)].
Proof.
  destruct (history_view_lists_recent_entries sample_store "session-a" sample_store_wf)
    as [ds [Hds _]].
  exists ds. split; [exact Hds|].
  vm_compute in Hds. inversion Hds. reflexivity.
Defined.

(** ** The two views of a session's history *)

Lemma mapM_cons (A B : Type) (f : A -> result B) (x : A) (xs : list A) :
  mapM f (x :: xs)
  = Py.bind (f x) (fun y => Py.bind (mapM f xs) (fun ys => Ok (y :: ys))).
Proof. reflexivity. Qed.

Lemma mapM_map_Ok (A B C : Type) (f : B -> result C) (g : A -> B) (d : A -> C)
    (l : list A) :
  (forall x, In x l -> f (g x) = Ok (d x)) ->
  mapM f (map g l) = Ok (map d l).
Proof.
  induction l as [|x l IH]; simpl; intros H; [reflexivity|].
  rewrite (H x (or_introl eq_refl)). simpl.
  rewrite IH by (intros; apply H; now right). reflexivity.
Qed.

Lemma recent_rows_joined (st : Store) (u : User) (r : SearchHistory * City) :
  In r (recent_rows st u) -> In r (joined st) /\ sh_user (fst r) = user_id u.
Proof.
  unfold recent_rows. intros Hin.
  apply (Permutation_in _ (order_by_desc_perm _ _ _)) in Hin.
  apply filter_In in Hin. destruct Hin as [H1 H2]. apply Z.eqb_eq in H2. now split.
Qed.

(** The entries of a user in the order of the history view are the
    joined rows of the user without their cities. *)
Lemma recent_rows_fst (st : Store) (u : User) :
  wf_store st ->
  map fst (recent_rows st u)
  = order_by_desc sh_last_searched
      (filter (fun h => sh_user h =? user_id u) (searches st)).
Proof.
  intros Hwf. unfold recent_rows.
  rewrite <- (joined_fst st Hwf).
  rewrite filter_map_swap, order_by_desc_map. reflexivity.
Qed.

Lemma joined_row_serializes (st : Store) (r : SearchHistory * City) :
  wf_store st -> In r (joined st) ->
  SearchHistorySerializer.data st (fst r) = Ok (serialized_row r).
Proof.
  intros Hwf Hr. destruct r as [h c]. apply in_joined in Hr.
  destruct Hr as [Hh [Hc Hid]].
  unfold SearchHistorySerializer.data, serialized_row. simpl.
  destruct (objects_get_found City Z city_id (fun c0 => city_id c0 =? sh_city h)
              (sh_city h) (cities st) c
              (fun c0 => Z.eqb_eq (city_id c0) (sh_city h))
              (wf_city_ids st Hwf) Hc) as [_ ->]; [now apply Z.eqb_eq|reflexivity].
Qed.

Lemma in_firstn (A : Type) (n : nat) (l : list A) (x : A) :
  In x (firstn n l) -> In x l.
Proof.
  intros H. rewrite <- (firstn_skipn n l). apply in_or_app. now left.
Qed.

(** The history of a user, in terms of the joined rows. *)
Lemma history_of_user (st : Store) (u : User) :
  wf_store st ->
  mapM (SearchHistorySerializer.data st)
    (firstn 10 (order_by_desc sh_last_searched
                  (filter (fun h => sh_user h =? user_id u) (searches st))))
  = Ok (map serialized_row (firstn 10 (recent_rows st u))).
Proof.
  intros Hwf. rewrite <- (recent_rows_fst st u Hwf), firstn_map.
  apply mapM_map_Ok. intros r Hr. apply in_firstn in Hr.
  apply joined_row_serializes; [exact Hwf|]. now apply (recent_rows_joined st u).
Qed.

(** X17. The recent-searches view shows the head of the history view:
    on a sound store both views answer, the suggestions are at most 5,
    and their city ids, display names ("Name, Country") and
    [last_searched] times are those of the first 5 entries of the
    history, in the same order. *)
Theorem recent_searches_head_history (st : Store) (key : string) :
  wf_store st ->
  exists ds ss,
    SearchHistoryView.get st (Some key) = Ok ds
    /\ RecentSearchesView.get st (Some key) = Ok ss
    /\ (List.length ss <= 5)%nat
    /\ map (fun s => (RecentSearchesView.city_id s,
                      RecentSearchesView.display_name s,
                      RecentSearchesView.last_searched s)) ss
       = firstn 5
           (map (fun d =>
                   (CitySerializer.id (SearchHistorySerializer.city d),
                    CitySerializer.name (SearchHistorySerializer.city d) ++ ", "
                    ++ CitySerializer.country (SearchHistorySerializer.city d),
                    SearchHistorySerializer.last_searched d)) ds).
Proof.
  intros Hwf. unfold SearchHistoryView.get, RecentSearchesView.get.
  destruct (String.eqb_spec key EmptyString) as [Hkey|Hkey].
  { exists [], []. repeat split. simpl. lia. }
  destruct (session_lookup st key Hwf) as [[-> _]|[u [-> _]]].
  { exists [], []. repeat split. simpl. lia. }
  rewrite (history_of_user st u Hwf). fold (recent_rows st u).
  eexists. eexists. split; [reflexivity|]. split; [reflexivity|]. split.
  - rewrite length_map. apply firstn_le_length.
  - rewrite !map_map, firstn_map, firstn_firstn. reflexivity.
Qed.

Lemma recent_searches_head_history_witness :
  exists ss,
    RecentSearchesView.get sample_store (Some "session-a") = Ok ss
    /\ map RecentSearchesView.display_name ss = ["Paris, France"; "London, United Kingdom"].
Proof.
  destruct (recent_searches_head_history sample_store "session-a" sample_store_wf)
    as [ds [ss [_ [Hss _]]]].
  exists ss. split; [exact Hss|].
  vm_compute in Hss. inversion Hss. reflexivity.
Defined.

(** X18. Recording a search and reading the history back: when the
    search is made at a time later than every earlier search of the
    user, the history of the user's session starts with the entry that
    [save_search] returned, carrying its count, the time of the search
    and the name and country that were searched for. *)
Theorem latest_search_heads_history
    (now : timestamp) (st : Store) (user : User) (city_data : UserService.CityData) :
  wf_store st ->
  In user (users st) ->
  user_session_key user <> EmptyString ->
  (forall h, In h (searches st) -> sh_user h = user_id user ->
             sh_last_searched h < now) ->
  exists h d rest,
    fst (UserService.save_search now st user city_data) = Ok h
    /\ SearchHistoryView.get (snd (UserService.save_search now st user city_data))
         (Some (user_session_key user)) = Ok (d :: rest)
    /\ SearchHistorySerializer.id d = sh_id h
    /\ SearchHistorySerializer.search_count d = sh_search_count h
    /\ SearchHistorySerializer.last_searched d = now
    /\ CitySerializer.name (SearchHistorySerializer.city d) = UserService.cd_name city_data
    /\ CitySerializer.country (SearchHistorySerializer.city d)
       = UserService.cd_country city_data.
Proof.
  intros Hwf Huser Hkey Hlater.
  pose proof (save_search_wf now st user city_data Hwf Huser) as Hwf'.
  destruct (save_search_effect now st user city_data Hwf Huser)
    as [c [h [st' [Hrun [Hu [Hcm [Hcin [_ Hentry]]]]]]]].
  rewrite Hrun in Hwf' |- *. simpl in Hwf'. cbn [fst snd].
  assert (Hh : In h (searches st') /\ sh_user h = user_id user
               /\ sh_city h = city_id c /\ sh_last_searched h = now).
  { destruct Hentry as [[h0 [Hh0 [Hk [Hh Hrows]]]]|[_ [Hh Hrows]]].
    - unfold history_key in Hk. inversion Hk as [[Hu0 Hc0]]. subst h. simpl.
      repeat split; try assumption. rewrite Hrows. unfold UserService.save_row.
      apply in_map_iff. exists h0. split; [|exact Hh0]. simpl. now rewrite Z.eqb_refl.
    - subst h. simpl. repeat split. rewrite Hrows. apply in_or_app. right. now left. }
  destruct Hh as [Hhin [Hhu [Hhc Hhl]]].
  assert (Hmax : forall y,
            In y (filter (fun x => sh_user x =? user_id user) (searches st')) ->
            y = h \/ sh_last_searched y < sh_last_searched h).
  { intros y Hy. apply filter_In in Hy. destruct Hy as [Hy Hyu].
    apply Z.eqb_eq in Hyu. rewrite Hhl.
    destruct Hentry as [[h0 [Hh0 [_ [_ Hrows]]]]|[_ [_ Hrows]]]; rewrite Hrows in Hy.
    - unfold UserService.save_row in Hy. apply in_map_iff in Hy.
      destruct Hy as [r [Hr Hrin]].
      destruct (sh_id r =? sh_id h); [now left|]. subst y. right. now apply Hlater.
    - apply in_app_or in Hy. destruct Hy as [Hy|[<-|[]]]; [|now left].
      right. now apply Hlater. }
  destruct (order_by_desc_head _ sh_last_searched
              (filter (fun x => sh_user x =? user_id user) (searches st')) h)
    as [rest0 Horder]; [apply filter_In; split; [exact Hhin | now apply Z.eqb_eq]
                       | exact Hmax |].
  destruct (entry_serializes st' h Hwf' Hhin) as [c' [Hc'in [Hc'id Hser]]].
  assert (c' = c).
  { apply (NoDup_map_injective_on _ _ city_id (cities st')); auto.
    - exact (wf_city_ids st' Hwf').
    - congruence. }
  subst c'.
  unfold SearchHistoryView.get.
  destruct (String.eqb_spec (user_session_key user) EmptyString) as [E|_];
    [contradiction|].
  destruct (objects_get_found User string user_session_key
              (fun u => String.eqb (user_session_key u) (user_session_key user))
              (user_session_key user) (users st') user
              (fun u => String.eqb_eq (user_session_key u) (user_session_key user))
              (wf_sessions st' Hwf')) as [_ ->];
    [now rewrite Hu | apply String.eqb_refl |].
  pose proof (history_rows st' user 10) as Hrows. rewrite Horder in Hrows |- *.
  rewrite firstn_cons in Hrows |- *.
  destruct (mapM_total _ _ (SearchHistorySerializer.data st') (firstn 9 rest0))
    as [rest Hrest].
  { intros x Hx. destruct (Hrows x (or_intror Hx)) as [Hxin _].
    destruct (entry_serializes st' x Hwf' Hxin) as [cx [_ [_ Hx']]]. eauto. }
  apply city_matches_key in Hcm. unfold city_key in Hcm. inversion Hcm.
  eexists. eexists. exists rest. split; [reflexivity|]. split.
  { rewrite mapM_cons, Hser. cbn [Py.bind]. rewrite Hrest. reflexivity. }
  simpl. repeat split; assumption.
Qed.

Lemma latest_search_heads_history_witness :
  exists d rest,
    SearchHistoryView.get
      (snd (UserService.save_search 20 sample_store
              {| user_id := 1; user_session_key := "session-a"; user_created_at := 0 |}
              london))
      (Some "session-a") = Ok (d :: rest)
    /\ CitySerializer.name (SearchHistorySerializer.city d) = "London"
    /\ SearchHistorySerializer.search_count d = 4.
Proof.
  destruct (latest_search_heads_history 20 sample_store
              {| user_id := 1; user_session_key := "session-a"; user_created_at := 0 |}
              london sample_store_wf)
    as [h [d [rest [Hh [Hget [_ [Hcount [_ [Hname _]]]]]]]]].
  - simpl. now left.
  - discriminate.
  - intros h0 [<-|[<-|[<-|[]]]]; simpl; intros; lia.
  - exists d, rest. split; [exact Hget|]. split; [exact Hname|].
    rewrite Hcount. vm_compute in Hh. inversion Hh. reflexivity.
Defined.

(** ** The statistics view *)



Section Groups.

Variables (A K : Type) (key : A -> K) (v : A -> Z).
Hypothesis K_eq_dec : forall a b : K, {a = b} + {a <> b}.



End Groups.




(** ** Weather for an unknown city *)

(** X20. A request that carries a city id other than 0 which is the
    id of no persisted City is answered with 404 'City not found', a
    status other than the 500 of a provider failure; no outbound
    request is made, and the City and SearchHistory tables are left as
    they were. *)
Theorem unknown_city_not_found
    (upstream : Upstream) (now : timestamp) (created_key : string) (st : Store)
    (session_key : option string) (data : WeatherRequestSerializer.Data) (z : Z) :
  wf_store st ->
  WeatherRequestSerializer.city_id data = Some z ->
  z <> 0 ->
  (forall c, In c (cities st) -> city_id c <> z) ->
  exists st',
    WeatherView.post upstream now created_key st session_key data
    = (Ok {| status := 404; body := ErrorMessage "City not found" |}, st', [])
    /\ cities st' = cities st
    /\ searches st' = searches st
    /\ HTTP_404_NOT_FOUND <> HTTP_500_INTERNAL_SERVER_ERROR.
Proof.
  intros Hwf Hid Hz Hnone.
  unfold WeatherView.post, WeatherRequestSerializer.is_valid,
    WeatherRequestSerializer.validate.
  rewrite Hid. simpl WeatherRequestSerializer.int_given.
  destruct (Z.eqb_spec z 0) as [|_]; [contradiction|]. simpl negb. simpl andb.
  cbv iota. rewrite Hid.
  match goal with
  | |- context [UserService.get_or_create_user now st ?k] =>
      destruct (get_or_create_user_ok now st k (wf_sessions st Hwf))
        as [user [st1 [-> [Hc [Hs _]]]]]
  end.
  simpl WeatherRequestSerializer.int_given.
  destruct (Z.eqb_spec z 0) as [|_]; [contradiction|]. simpl negb. cbv iota.
  assert (Hfilter : filter (fun c => city_id c =? z) (cities st1) = []).
  { apply filter_none. intros c Hin. rewrite Hc in Hin.
    apply Z.eqb_neq. now apply Hnone. }
  unfold objects_get. rewrite Hfilter.
  exists st1. repeat split; try assumption. discriminate.
Qed.

Lemma unknown_city_not_found_witness :
  exists st',
    WeatherView.post empty_upstream 0 "fresh" one_user_store (Some "test_session_123")
      {| WeatherRequestSerializer.city_id := Some 99999;
         WeatherRequestSerializer.latitude := None;
         WeatherRequestSerializer.longitude := None |}
    = (Ok {| status := 404; body := ErrorMessage "City not found" |}, st', [])
    /\ searches st' = [].
Proof.
  destruct (unknown_city_not_found empty_upstream 0 "fresh" one_user_store
              (Some "test_session_123")
              {| WeatherRequestSerializer.city_id := Some 99999;
                 WeatherRequestSerializer.latitude := None;
                 WeatherRequestSerializer.longitude := None |}
              99999 one_user_store_wf eq_refl) as [st' [H1 [_ [H3 _]]]].
  - discriminate.
  - intros c [].
  - exists st'. split; [exact H1 | exact H3].
Defined.
